(** * TrisonicaDataLogger: the ingestion / parsing / statistics pipeline

    A shallow embedding of the pipeline that the four platform loggers share
    ([src/linux/datalogger.py], [src/mac/datalogger.py],
    [src/windows/datalogger.py] and, with a different statistics path,
    [src/pi/datalogger.py]), followed by the properties of the specification
    that are settled on it.

    Python values are modelled as follows.
    - [str] is [string]; a character is a code point below 256.
    - The [dict] returned by the parser is an insertion-ordered association
      list with unique keys ([setitem] overwrites in place, else appends).
    - [self.stats] is a [gmap string Statistics].
    - [float] arithmetic is an interface ([Arith]) with instances for the
      IEEE-754 binary64 numbers of the kernel ([float]), which is what the
      program computes with (with the plain and with the compensated [sum]),
      and for the real numbers ([R]), which is the exact arithmetic some
      properties are stated under.
    - An exception is a value of [exn]; code under [try] is written in a small
      state-and-exception monad so that what the handler sees is explicit.
    - [x ** 2] raises [OverflowError] on floats where the square is out of
      range; this is an interface ([PowError]) used by the model of the main
      loop ([MainLoop]), which follows the handler of [read_serial_data].
      The line-by-line pipeline ([read_serial_data], [run]) takes
      [calculate_statistics] as never raising; the two agree on every
      session in which no line raises, and on the data log always. *)

From Stdlib Require Import ZArith List String Ascii Bool Lia.
From Stdlib Require Import Reals Lra.
From Stdlib Require Import Floats.
From stdpp Require Import base option list strings pretty gmap sorting.

Import ListNotations.
Local Open Scope string_scope.
Local Open Scope list_scope.
Local Open Scope Z_scope.

(** ** Python string built-ins *)

Module PyStr.

(** [str.isspace] on one character: TAB..CR, FS..US, SPACE, NEL and NBSP. *)
Definition is_space (c : ascii) : bool :=
  let n := N_of_ascii c in
  (((9 <=? n) && (n <=? 13)) || ((28 <=? n) && (n <=? 32))
   || (n =? 133) || (n =? 160))%N.

(** [c in s] for a one-character [c]. *)
Fixpoint contains (c : ascii) (s : string) : bool :=
  match s with
  | EmptyString => false
  | String a s' => Ascii.eqb a c || contains c s'
  end.

Fixpoint lstrip (s : string) : string :=
  match s with
  | EmptyString => EmptyString
  | String c s' => if is_space c then lstrip s' else s
  end.

Fixpoint rstrip (s : string) : string :=
  match s with
  | EmptyString => EmptyString
  | String c s' =>
      match rstrip s' with
      | EmptyString => if is_space c then EmptyString else String c EmptyString
      | r => String c r
      end
  end.

(** [s.strip()] *)
Definition strip (s : string) : string := rstrip (lstrip s).

(** [s.split(sep)] for a one-character separator: every occurrence splits,
    empty pieces are kept, the result is never empty. *)
Fixpoint split (sep : ascii) (s : string) : list string :=
  match s with
  | EmptyString => [EmptyString]
  | String c s' =>
      if Ascii.eqb c sep then EmptyString :: split sep s'
      else match split sep s' with
           | t :: ts => String c t :: ts
           | [] => [String c EmptyString]
           end
  end.

(** [s.split(sep, 1)]: at most one split, at the first occurrence. *)
Fixpoint split1 (sep : ascii) (s : string) : list string :=
  match s with
  | EmptyString => [EmptyString]
  | String c s' =>
      if Ascii.eqb c sep then [EmptyString; s']
      else match split1 sep s' with
           | t :: ts => String c t :: ts
           | [] => [String c EmptyString]
           end
  end.

(** [s.split()]: split on runs of whitespace, no empty pieces. *)
Fixpoint split_ws (s : string) : list string :=
  match s with
  | EmptyString => []
  | String c s' =>
      if is_space c then split_ws s'
      else match s' with
           | EmptyString => [String c EmptyString]
           | String c' _ =>
               if is_space c' then String c EmptyString :: split_ws s'
               else match split_ws s' with
                    | t :: ts => String c t :: ts
                    | [] => [String c EmptyString]
                    end
           end
  end.

(** [sep.join(l)] *)
Fixpoint join (sep : string) (l : list string) : string :=
  match l with
  | [] => EmptyString
  | [x] => x
  | x :: l' => x ++ sep ++ join sep l'
  end.

(** Every character is whitespace; some character is whitespace. *)
Fixpoint all_space (s : string) : bool :=
  match s with
  | EmptyString => true
  | String c s' => is_space c && all_space s'
  end.

Fixpoint has_space (s : string) : bool :=
  match s with
  | EmptyString => false
  | String c s' => is_space c || has_space s'
  end.

(** [x in l] for a list of strings. *)
Definition mem (x : string) (l : list string) : bool :=
  existsb (String.eqb x) l.

End PyStr.

(** ** Python dict of strings, in insertion order *)

Module PyDict.

Definition dict : Type := list (string * string).

Definition empty : dict := [].

(** [d[k] = v] *)
Fixpoint setitem (k v : string) (d : dict) : dict :=
  match d with
  | [] => [(k, v)]
  | (k', v') :: d' =>
      if String.eqb k' k then (k', v) :: d' else (k', v') :: setitem k v d'
  end.

(** [d.get(k, default)] *)
Fixpoint get (k : string) (default : string) (d : dict) : string :=
  match d with
  | [] => default
  | (k', v') :: d' => if String.eqb k' k then v' else get k default d'
  end.

(** [d.keys()] and [d.items()] iterate in insertion order. *)
Definition keys (d : dict) : list string := map fst d.
Definition items (d : dict) : list (string * string) := d.

End PyDict.

(** ** Exceptions and the code under [try] *)

Inductive exn : Type := ValueError | IndexError.

(** [l[i]] with Python's negative indices; out of range raises. *)
Definition getitem {A : Type} (l : list A) (i : Z) : exn + A :=
  let n := Z.of_nat (length l) in
  let j := if i <? 0 then i + n else i in
  if (0 <=? j) && (j <? n) then
    match nth_error l (Z.to_nat j) with
    | Some x => inr x
    | None => inl IndexError
    end
  else inl IndexError.

(** [a, b = l] *)
Definition unpack2 {A : Type} (l : list A) : exn + (A * A) :=
  match l with
  | [a; b] => inr (a, b)
  | _ => inl ValueError
  end.

(** [range(start, stop, step)] for a positive step. *)
Fixpoint range_from (fuel : nat) (i stop step : Z) : list Z :=
  match fuel with
  | O => []
  | S fuel' =>
      if i <? stop then i :: range_from fuel' (i + step) stop step else []
  end.

Definition py_range (start stop step : Z) : list Z :=
  range_from (Z.to_nat (stop - start)) start stop step.

(** The body of a [try] block that mutates the local dict [parsed]: the dict
    is threaded through and survives a raise, as the mutation does. *)
Module Try.

Definition M (A : Type) : Type := PyDict.dict -> PyDict.dict * (exn + A).

Definition ret {A : Type} (a : A) : M A := fun d => (d, inr a).

Definition bind {A B : Type} (m : M A) (k : A -> M B) : M B :=
  fun d =>
    match m d with
    | (d', inr a) => k a d'
    | (d', inl e) => (d', inl e)
    end.

Definition lift {A : Type} (r : exn + A) : M A := fun d => (d, r).

Definition store (k v : string) : M unit :=
  fun d => (PyDict.setitem k v d, inr tt).

(** [for x in l: body x] *)
Fixpoint for_each {X : Type} (l : list X) (body : X -> M unit) : M unit :=
  match l with
  | [] => ret tt
  | x :: l' => bind (body x) (fun _ => for_each l' body)
  end.

End Try.

Notation "x <- m ;; k" := (Try.bind m (fun x => k))
  (at level 100, m at next level, right associativity).

(** ** LineParser: [parse_data_line] (linux 322-344; mac and windows alike) *)

Definition comma : ascii := ","%char.
Definition space : ascii := " "%char.

(** The body of [for pair in pairs:]. *)
Definition comma_body (pair : string) : Try.M unit :=
  let pair := PyStr.strip pair in
  if PyStr.contains space pair then
    let parts := PyStr.split1 space pair in
    if (length parts =? 2)%nat then
      kv <- Try.lift (unpack2 parts) ;;
      let '(key, value) := kv in
      Try.store (PyStr.strip key) (PyStr.strip value)
    else Try.ret tt
  else Try.ret tt.

(** The body of [for i in range(0, len(parts)-1, 2):]. *)
Definition ws_body (parts : list string) (i : Z) : Try.M unit :=
  let n := Z.of_nat (length parts) in
  if i + 1 <? n then
    v <- Try.lift (getitem parts (i + 1)) ;;
    k <- Try.lift (getitem parts i) ;;
    Try.store k v
  else Try.ret tt.

(** The statements under [try:]. *)
Definition parse_body (line : string) : Try.M unit :=
  if PyStr.contains comma line then
    let pairs := PyStr.split comma (PyStr.strip line) in
    Try.for_each pairs comma_body
  else
    let parts := PyStr.split_ws (PyStr.strip line) in
    let n := Z.of_nat (length parts) in
    Try.for_each (py_range 0 (n - 1) 2) (ws_body parts).

(** [parsed = {}; try: ... except Exception: pass; return parsed] *)
Definition parse_data_line (line : string) : PyDict.dict :=
  fst (parse_body line PyDict.empty).

(** ** Arithmetic of Python floats

    The operations the statistics code applies to [float] values. [of_int] is
    the conversion of an [int] operand ([len(...)] divides a float), [fsum]
    is the built-in [sum] on a sequence of floats, [fpow2] is [x ** 2],
    [fpow_half] is [x ** 0.5], [flt] is [x < y]. *)

Class Arith (F : Type) : Type := {
  of_int : Z -> F;
  fadd : F -> F -> F;
  fsub : F -> F -> F;
  fdiv : F -> F -> F;
  fsum : list F -> F;
  fpow2 : F -> F;
  fpow_half : F -> F;
  flt : F -> F -> bool
}.

(** [float(s)]: [None] stands for the [ValueError] of an unparseable string.
    The built-in is not part of the repository; it is an interface here. *)
Class FloatParser (F : Type) : Type := {
  py_float : string -> option F
}.

(** IEEE-754 binary64, the arithmetic the program runs on. [float_of_Z] is
    exact for the small ints the code converts (0 and window lengths);
    [x ** 2] and [x ** 0.5] are taken as the correctly rounded square and
    square root. [sum] starts from the int [0] and adds from left to right. *)
Definition float_of_Z (z : Z) : float :=
  if z <? 0 then (- PrimFloat.of_uint63 (Uint63.of_Z (- z)))%float
  else PrimFloat.of_uint63 (Uint63.of_Z z).

Definition float_sum (xs : list float) : float :=
  fold_left PrimFloat.add xs (float_of_Z 0).

#[export] Instance float_arith : Arith float := {|
  of_int := float_of_Z;
  fadd := PrimFloat.add;
  fsub := PrimFloat.sub;
  fdiv := PrimFloat.div;
  fsum := float_sum;
  fpow2 := fun x => PrimFloat.mul x x;
  fpow_half := PrimFloat.sqrt;
  flt := PrimFloat.ltb
|}.

(** From Python 3.12 on, [sum] over floats is compensated (Neumaier): a
    running sum [hi] and a correction [lo], added at the end when [lo] is
    finite and not zero. The same arithmetic with that [sum]. *)
Definition cs_add (total : float * float) (x : float) : float * float :=
  let '(hi, lo) := total in
  let t := PrimFloat.add hi x in
  if PrimFloat.leb (PrimFloat.abs x) (PrimFloat.abs hi)
  then (t, PrimFloat.add lo (PrimFloat.add (PrimFloat.sub hi t) x))
  else (t, PrimFloat.add lo (PrimFloat.add (PrimFloat.sub x t) hi)).

Definition is_finite (x : float) : bool :=
  PrimFloat.ltb (PrimFloat.abs x) PrimFloat.infinity.

Definition cs_to_double (total : float * float) : float :=
  let '(hi, lo) := total in
  if negb (PrimFloat.eqb lo (float_of_Z 0)) && is_finite lo
  then PrimFloat.add hi lo else hi.

Definition float_sum_compensated (xs : list float) : float :=
  match xs with
  | [] => float_of_Z 0
  | x :: rest =>
      cs_to_double
        (fold_left cs_add rest (PrimFloat.add (float_of_Z 0) x, float_of_Z 0))
  end.

Definition float_arith_compensated : Arith float := {|
  of_int := float_of_Z;
  fadd := PrimFloat.add;
  fsub := PrimFloat.sub;
  fdiv := PrimFloat.div;
  fsum := float_sum_compensated;
  fpow2 := fun x => PrimFloat.mul x x;
  fpow_half := PrimFloat.sqrt;
  flt := PrimFloat.ltb
|}.

(** Exact arithmetic over the reals. *)
Definition Rltb (x y : R) : bool := if Rlt_dec x y then true else false.

Definition real_sum (xs : list R) : R := fold_left Rplus xs (IZR 0).

#[export] Instance real_arith : Arith R := {|
  of_int := IZR;
  fadd := Rplus;
  fsub := Rminus;
  fdiv := Rdiv;
  fsum := real_sum;
  fpow2 := fun x => Rmult x x;
  fpow_half := R_sqrt.sqrt;
  flt := Rltb
|}.

(** ** The logger state and its output file *)

(** What one [log_file.write] call appends: the header line written by
    [update_csv_columns], or a data line written by [write_csv_row]. The
    text written is [render]. *)
Inductive written : Type :=
  | Header (columns : list string)
  | Row (row_values : list string).

Definition fields (w : written) : list string :=
  match w with
  | Header columns => columns
  | Row row_values => row_values
  end.

Definition newline : string := String (ascii_of_nat 10) EmptyString.

Definition render (w : written) : string :=
  (PyStr.join "," (fields w) ++ newline)%string.

Definition is_header (w : written) : bool :=
  match w with
  | Header _ => true
  | Row _ => false
  end.

(** [@dataclass Statistics]; [values] is a [deque(maxlen=K)]. *)
Record Statistics (F : Type) : Type := mkStatistics {
  min_val : F;
  max_val : F;
  mean_val : F;
  current_val : F;
  std_dev : F;
  count : nat;
  values : list F
}.

Arguments mkStatistics {F}.
Arguments min_val {F}.
Arguments max_val {F}.
Arguments mean_val {F}.
Arguments current_val {F}.
Arguments std_dev {F}.
Arguments count {F}.
Arguments values {F}.

(** The fields of the logger object that the pipeline reads and writes. *)
Record Logger (F : Type) : Type := mkLogger {
  csv_columns : list string;
  csv_headers_written : bool;
  log_file : list written;
  stats : gmap string (Statistics F)
}.

Arguments mkLogger {F}.
Arguments csv_columns {F}.
Arguments csv_headers_written {F}.
Arguments log_file {F}.
Arguments stats {F}.

(** [__init__]: [csv_columns = ['timestamp']], no header yet, [stats = {}]. *)
Definition init {F : Type} : Logger F :=
  mkLogger ["timestamp"] false [] ∅.

(** The value a Python call evaluates to, as far as the pipeline is
    concerned. *)
Inductive pyval : Type :=
  | PyNone
  | PyBool (b : bool).

(** [bool(v)] *)
Definition truthy (v : pyval) : bool :=
  match v with
  | PyNone => false
  | PyBool b => b
  end.

(** ** SchemaRegistry and RecordWriter (linux 346-369; all four alike) *)

(** The [for key in parsed_data.keys()] loop of [update_csv_columns], on the
    pair of the column list and the local flag [new_columns]. *)
Definition observe_key (acc : list string * bool) (key : string)
  : list string * bool :=
  let '(columns, new_columns) := acc in
  if negb (PyStr.mem key columns) then (columns ++ [key], true)
  else (columns, new_columns).

Definition observe_loop (keys : list string) (columns : list string)
  : list string * bool :=
  fold_left observe_key keys (columns, false).

(** [update_csv_columns]: the flag [new_columns] is computed and dropped; the
    function has no [return], so a call evaluates to [None]. *)
Definition update_csv_columns {F : Type} (parsed_data : PyDict.dict)
  (self : Logger F) : Logger F * pyval :=
  let '(columns, new_columns) :=
    observe_loop (PyDict.keys parsed_data) (csv_columns self) in
  let self1 :=
    mkLogger columns (csv_headers_written self) (log_file self) (stats self) in
  let self2 :=
    if negb (csv_headers_written self1) then
      mkLogger columns true (log_file self1 ++ [Header columns]) (stats self1)
    else self1 in
  (self2, PyNone).

(** [write_csv_row]; [timestamp] is the text of [timestamp.isoformat()]. *)
Definition row_values (timestamp : string) (parsed_data : PyDict.dict)
  (columns : list string) : list string :=
  map (fun column =>
         if String.eqb column "timestamp" then timestamp
         else PyDict.get column "" parsed_data)
      columns.

Definition write_csv_row {F : Type} (timestamp : string)
  (parsed_data : PyDict.dict) (self : Logger F) : Logger F :=
  mkLogger (csv_columns self) (csv_headers_written self)
    (log_file self ++ [Row (row_values timestamp parsed_data (csv_columns self))])
    (stats self).

(** [update_csv_columns] called on the successive field mappings [ms]. *)
Definition observe_all {F : Type} (ms : list PyDict.dict) (self : Logger F)
  : Logger F :=
  fold_left (fun self m => fst (update_csv_columns m self)) ms self.

(** The names of [keys] that are not in [columns]. *)
Definition new_names (columns keys : list string) : list string :=
  List.filter (fun k => negb (PyStr.mem k columns)) keys.

(** The invariant of the output file: it is empty, or it starts with a
    header that is a prefix of the current columns. *)
Definition header_inv {F : Type} (self : Logger F) : Prop :=
  (csv_headers_written self = false /\ log_file self = [])
  \/ (csv_headers_written self = true
      /\ exists hdr rows, log_file self = Header hdr :: rows
                          /\ hdr `prefix_of` csv_columns self).

(** ** StatisticsEngine (linux 371-392; mac and windows alike) *)

(** [deque.append] on a [deque(maxlen=K)]: append, then drop the oldest
    element if the length exceeds [K]. *)
Definition deque_append {A : Type} (maxlen : nat) (q : list A) (x : A)
  : list A :=
  let q' := q ++ [x] in
  if (maxlen <? length q')%nat then tail q' else q'.

Section StatisticsEngine.

Context {F : Type} `{Arith F}.

(** The window capacity: 150 on linux, 100 on mac, 200 on windows. The
    model divides by [len(values)] without a check, as the code does; with
    [K] positive that length is never zero. *)
Variable K : nat.

Definition zero : F := of_int 0.

(** [sum(xs)] *)
Definition py_sum (xs : list F) : F := fsum xs.

(** [len(xs)] as the float operand of a division. *)
Definition py_len (xs : list F) : F := of_int (Z.of_nat (length xs)).

(** [min(a, b)] and [max(a, b)]: the first argument unless the second is
    strictly smaller (larger). *)
Definition py_min (a b : F) : F := if flt b a then b else a.
Definition py_max (a b : F) : F := if flt a b then b else a.

(** [sum(xs) / len(xs)] *)
Definition window_mean (xs : list F) : F := fdiv (py_sum xs) (py_len xs).

(** [sum((x - mean) ** 2 for x in xs) / len(xs)] *)
Definition window_variance (mean : F) (xs : list F) : F :=
  fdiv (py_sum (map (fun x => fpow2 (fsub x mean)) xs)) (py_len xs).

(** [Statistics()] *)
Definition new_Statistics : Statistics F :=
  mkStatistics zero zero zero zero zero 0%nat [].

(** The body of [calculate_statistics] on the [Statistics] object, with
    [x ** 2] taken as total: what the call does where [x ** 2] raises is in
    [MainLoop.calculate_statistics]. *)
Definition update_stat (stat : Statistics F) (value : F) : Statistics F :=
  let count' := S (count stat) in
  let values' := deque_append K (values stat) value in
  if (count' =? 1)%nat then
    mkStatistics value value value value zero count' values'
  else
    let min' := py_min (min_val stat) value in
    let max' := py_max (max_val stat) value in
    let mean' := window_mean values' in
    let std_dev' :=
      if (1 <? length values')%nat
      then fpow_half (window_variance mean' values')
      else std_dev stat in
    mkStatistics min' max' mean' value std_dev' count' values'.

Definition calculate_statistics (key : string) (value : F)
  (stats : gmap string (Statistics F)) : gmap string (Statistics F) :=
  let stat := default new_Statistics (stats !! key) in
  <[key := update_stat stat value]> stats.

(** The calls [calculate_statistics(key, v)] for the successive values [vs]
    of one parameter. *)
Definition feed (key : string) (vs : list F)
  (stats : gmap string (Statistics F)) : gmap string (Statistics F) :=
  fold_left (fun st v => calculate_statistics key v st) vs stats.

(** ** IngestionLoop: [read_serial_data] (linux 394-435) *)

Context `{FloatParser F}.

(** The [for key, value_str in parsed.items()] loop: a [ValueError] from
    [float] is caught and the field skipped. *)
Definition stats_step (stats : gmap string (Statistics F))
  (item : string * string) : gmap string (Statistics F) :=
  let '(key, value_str) := item in
  match py_float value_str with
  | Some value => calculate_statistics key value stats
  | None => stats
  end.

Definition stats_loop (parsed : PyDict.dict)
  (stats : gmap string (Statistics F)) : gmap string (Statistics F) :=
  fold_left stats_step (PyDict.items parsed) stats.

(** [DataPoint(timestamp, line, parsed)] *)
Record DataPoint : Type := mkDataPoint {
  timestamp : string;
  raw_data : string;
  parsed_data : PyDict.dict
}.

(** One call of [read_serial_data] on an open port: [raw] is the decoded
    text of [readline()], [now] the text of [datetime.now().isoformat()].
    The display series ([viz_data], [update_rate]) are left out, and
    [calculate_statistics] is taken as never raising: the call with the
    series and the handler is [MainLoop.read_serial_data], which writes the
    same columns and the same log. *)
Definition read_serial_data (now : string) (raw : string) (self : Logger F)
  : Logger F * option DataPoint :=
  let line := PyStr.strip raw in
  if String.eqb line "" then (self, None)
  else
    let parsed := parse_data_line line in
    let self1 := fst (update_csv_columns parsed self) in
    let self2 := write_csv_row now parsed self1 in
    let self3 :=
      mkLogger (csv_columns self2) (csv_headers_written self2)
        (log_file self2) (stats_loop parsed (stats self2)) in
    (self3, Some (mkDataPoint now line parsed)).

(** A session: the lines read one after the other, each with its clock
    reading. *)
Definition run (inputs : list (string * string)) (self : Logger F)
  : Logger F :=
  fold_left (fun self input => fst (read_serial_data (fst input) (snd input) self))
    inputs self.

End StatisticsEngine.

(** ** The Raspberry Pi statistics (pi 223-273) *)

Module Pi.

(** The per-parameter dict [{'min', 'max', 'sum', 'count', 'values'}];
    [values] is a [deque(maxlen=100)]. *)
Record ParamStats (F : Type) : Type := mkParamStats {
  p_min : F;
  p_max : F;
  p_sum : F;
  p_count : nat;
  p_values : list F
}.

Arguments mkParamStats {F}.
Arguments p_min {F}.
Arguments p_max {F}.
Arguments p_sum {F}.
Arguments p_count {F}.
Arguments p_values {F}.

Definition maxlen : nat := 100.

Section PiStatistics.

Context {F : Type} `{Arith F} `{FloatParser F}.

(** One iteration of the loop of [update_statistics]. *)
Definition update_param (value : F) (old : option (ParamStats F))
  : ParamStats F :=
  match old with
  | None => mkParamStats value value value 1%nat (deque_append maxlen [] value)
  | Some s =>
      mkParamStats (py_min (p_min s) value) (py_max (p_max s) value)
        (fadd (p_sum s) value) (S (p_count s))
        (deque_append maxlen (p_values s) value)
  end.

Definition update_statistics (parsed_data : PyDict.dict)
  (parameter_stats : gmap string (ParamStats F))
  : gmap string (ParamStats F) :=
  fold_left
    (fun ps item =>
       let '(param, value_str) := item in
       match py_float value_str with
       | Some value => <[param := update_param value (ps !! param)]> ps
       | None => ps
       end)
    (PyDict.items parsed_data) parameter_stats.

(** Further values [vs] of a parameter that already has the entry [p]. *)
Definition feed_entry (vs : list F) (p : ParamStats F) : ParamStats F :=
  fold_left (fun p x => update_param x (Some p)) vs p.

(** The successive numeric values [vs] of one parameter going through
    [update_statistics]. *)
Definition feed (param : string) (vs : list F)
  (parameter_stats : gmap string (ParamStats F))
  : gmap string (ParamStats F) :=
  fold_left (fun ps v => <[param := update_param v (ps !! param)]> ps)
    vs parameter_stats.

(** What [save_statistics] computes for one parameter before formatting the
    line: [mean] and [std_dev], with [x ** 2] taken as total. A parameter
    with [count == 0] is skipped. *)
Definition saved_mean (s : ParamStats F) : F :=
  fdiv (p_sum s) (of_int (Z.of_nat (p_count s))).

Definition saved_std_dev (s : ParamStats F) : F :=
  let mean := saved_mean s in
  if (1 <? length (p_values s))%nat
  then fpow_half (window_variance mean (p_values s))
  else zero.

Definition save_statistics (parameter_stats : gmap string (ParamStats F))
  : gmap string (F * F * F * F * nat) :=
  (fun s => (p_min s, p_max s, saved_mean s, saved_std_dev s, p_count s))
    <$> filter (fun kv => p_count kv.2 ≠ 0%nat) parameter_stats.

End PiStatistics.

End Pi.

(** ** A fragment of [float]: plain decimal literals

    [float] accepts more (exponents, [inf], [nan], underscores); this
    fragment, an optional sign, digits and an optional fraction, is what the
    examples below are run with. The value is the quotient of two exactly
    represented integers, hence correctly rounded for short literals (the
    sign of a negative zero is not kept). *)

Module Decimal.

Definition digit (c : ascii) : option Z :=
  let n := Z.of_N (N_of_ascii c) in
  if (48 <=? n) && (n <=? 57) then Some (n - 48) else None.

(** Digits read so far as an integer, and how many there were. *)
Fixpoint digits (s : string) (acc : Z) (n : nat) : option (Z * nat * string) :=
  match s with
  | EmptyString => Some (acc, n, EmptyString)
  | String c s' =>
      match digit c with
      | Some d => digits s' (10 * acc + d) (S n)
      | None => Some (acc, n, s)
      end
  end.

(** [(negative, mantissa, number of fraction digits)] *)
Definition literal (s : string) : option (bool * Z * nat) :=
  let '(neg, body) :=
    match s with
    | String "-" s' => (true, s')
    | String "+" s' => (false, s')
    | _ => (false, s)
    end in
  match digits body 0 0 with
  | Some (ip, n1, String "." rest) =>
      match digits rest ip 0 with
      | Some (m, n2, EmptyString) =>
          if ((n1 + n2) =? 0)%nat then None else Some (neg, m, n2)
      | _ => None
      end
  | Some (ip, n1, EmptyString) =>
      if (n1 =? 0)%nat then None else Some (neg, ip, 0%nat)
  | _ => None
  end.

Definition value {F : Type} `{Arith F} (l : bool * Z * nat) : F :=
  let '(neg, m, k) := l in
  let q := fdiv (of_int m) (of_int (10 ^ Z.of_nat k)) in
  if neg then fsub (of_int 0) q else q.

End Decimal.

Definition decimal_float {F : Type} `{Arith F} : FloatParser F :=
  {| py_float := fun s => option_map Decimal.value (Decimal.literal s) |}.

(** ** Invariants of a [Statistics] object under exact arithmetic *)

(** After at least one observation: the window is not empty, not longer
    than [K], every value in it lies between [min_val] and [max_val], and so
    does the mean. *)
Definition stat_inv (K : nat) (s : Statistics R) : Prop :=
  (0 < count s)%nat
  /\ values s <> []
  /\ (length (values s) <= K)%nat
  /\ Forall (fun x => (min_val s <= x <= max_val s)%R) (values s)
  /\ (min_val s <= mean_val s <= max_val s)%R.

(** A parameter that has only ever had the value [c]. *)
Definition constant_inv (K : nat) (c : R) (s : Statistics R) : Prop :=
  (0 < count s)%nat
  /\ (exists m, (0 < m <= K)%nat /\ values s = repeat c m)
  /\ mean_val s = c
  /\ std_dev s = 0%R.

(** ** The parsing algorithm in the specification's words (section 4.1)

    [parse_literal] is the algorithm exactly as worded: segments and tokens
    are taken as they are cut. [parse_trimmed] trims the line, each segment
    and both tokens, which is what the program does. *)

Module Spec.

Definition nonempty (s : string) : bool := negb (String.eqb s "").

(** "split on the first space into (name, value) and keep only segments
    that yield exactly two non-empty tokens" *)
Definition segment_literal (seg : string) : option (string * string) :=
  match PyStr.split1 space seg with
  | [name; value] =>
      if nonempty name && nonempty value then Some (name, value) else None
  | _ => None
  end.

Definition segment_trimmed (seg : string) : option (string * string) :=
  match PyStr.split1 space (PyStr.strip seg) with
  | [name; value] =>
      let name := PyStr.strip name in
      let value := PyStr.strip value in
      if nonempty name && nonempty value then Some (name, value) else None
  | _ => None
  end.

(** "pair them consecutively (token[2i], token[2i+1]); trailing unpaired
    tokens are dropped" *)
Fixpoint pair_up (tokens : list string) : list (string * string) :=
  match tokens with
  | a :: b :: rest => (a, b) :: pair_up rest
  | _ => []
  end.

(** The ordered mapping of a list of (name, value) pairs. *)
Definition mapping (pairs : list (string * string)) : PyDict.dict :=
  fold_left (fun d kv => PyDict.setitem (fst kv) (snd kv) d) pairs PyDict.empty.

Definition parse_literal (line : string) : PyDict.dict :=
  mapping
    (if PyStr.contains comma line
     then omap segment_literal (PyStr.split comma line)
     else pair_up (PyStr.split_ws line)).

Definition parse_trimmed (line : string) : PyDict.dict :=
  mapping
    (if PyStr.contains comma line
     then omap segment_trimmed (PyStr.split comma line)
     else pair_up (PyStr.split_ws line)).

End Spec.

(** [f] applied to the last element of a list only. *)
Fixpoint map_last {A : Type} (f : A -> A) (l : list A) : list A :=
  match l with
  | [] => []
  | [x] => [f x]
  | x :: l' => x :: map_last f l'
  end.

(** The dict updates the two loop bodies of [parse_body] amount to. *)
Definition store_pair (d : PyDict.dict) (kv : string * string) : PyDict.dict :=
  PyDict.setitem (fst kv) (snd kv) d.

Definition store_segment (d : PyDict.dict) (seg : string) : PyDict.dict :=
  match Spec.segment_trimmed seg with
  | Some kv => PyDict.setitem (fst kv) (snd kv) d
  | None => d
  end.

(** A (name, value) pair without a comma in either part. *)
Definition comma_free (kv : string * string) : Prop :=
  PyStr.contains comma (fst kv) = false /\ PyStr.contains comma (snd kv) = false.

(** A line that [read_serial_data] drops: empty once stripped. *)
Definition blank (input : string * string) : bool :=
  String.eqb (PyStr.strip (snd input)) "".

(** The three lines of the end-to-end example of the specification, with
    their clock readings. *)
Definition session3 : list (string * string) :=
  [("t1", "S 5.0, T 20.0"); ("t2", "S 6.0, T 21.0, H 50.0");
   ("t3", "S 7.0, T 22.0, H 51.0")].

(** ** The fields of a line, one by one *)

(** [d.get(k)]: the value stored under [k], if any. *)
Fixpoint dict_lookup (k : string) (d : PyDict.dict) : option string :=
  match d with
  | [] => None
  | (k', v') :: d' => if String.eqb k' k then Some v' else dict_lookup k d'
  end.

(** The (name, value) pairs that the two loops of [parse_data_line] store,
    in the order they store them. *)
Definition field_pairs (line : string) : list (string * string) :=
  if PyStr.contains comma line
  then omap Spec.segment_trimmed (PyStr.split comma line)
  else Spec.pair_up (PyStr.split_ws line).

(** A token: not empty, no whitespace, no comma. *)
Definition token (t : string) : Prop :=
  t <> "" /\ PyStr.has_space t = false /\ PyStr.contains comma t = false.

(** A trimmed field text: not empty, no whitespace at either end, no
    comma. *)
Definition trimmed (s : string) : Prop :=
  s <> "" /\ PyStr.strip s = s /\ PyStr.contains comma s = false.

(** A comma-separated part with at most two whitespace-separated tokens,
    which, if there are two, has a space character between them. *)
Definition plain_part (part : string) : Prop :=
  (length (PyStr.split_ws part) <= 2)%nat
  /\ (length (PyStr.split_ws part) = 2%nat ->
      PyStr.contains space (PyStr.strip part) = true).

(** [d if d else None] *)
Definition or_None (d : PyDict.dict) : option PyDict.dict :=
  match d with
  | [] => None
  | _ => Some d
  end.

(** A line of the data log whose text, cut at its commas, gives back its
    fields. *)
Definition splits_back (w : written) : Prop :=
  PyStr.split comma (PyStr.join "," (fields w)) = fields w.

(** Two loggers with the same data log: columns, header flag and lines. *)
Definition same_log {F : Type} (a b : Logger F) : Prop :=
  csv_columns a = csv_columns b
  /\ csv_headers_written a = csv_headers_written b
  /\ log_file a = log_file b.

(** The value of the last pair named [k]. *)
Definition last_value (k : string) (pairs : list (string * string))
  : option string :=
  snd <$> last (List.filter (fun kv => String.eqb (fst kv) k) pairs).

(** The number that one input line contributes to the statistics of [key]:
    none if the line is dropped, has no field [key], or [float] rejects the
    field's text. *)
Definition observation {F : Type} `{FloatParser F} (key : string)
  (input : string * string) : option F :=
  if blank input then None
  else dict_lookup key (parse_data_line (PyStr.strip (snd input)))
         ≫= py_float.

Definition observations {F : Type} `{FloatParser F} (key : string)
  (inputs : list (string * string)) : list F :=
  omap (observation key) inputs.

(** [lo] and [hi] are the smallest and the largest of the values [seen]. *)
Definition extrema_of (lo hi : R) (seen : list R) : Prop :=
  Forall (fun x => (lo <= x <= hi)%R) seen /\ lo ∈ seen /\ hi ∈ seen.

(** ** The Raspberry Pi parser and loop (pi 165-193, 275-308, 330-387)

    The text read is decoded as UTF-8 on the Pi; it is taken here to hold
    code points below 256 only, as everywhere in this file. *)

Module PiLogger.

(** The body of [for part in parts:]. *)
Definition part_body (part : string) : Try.M unit :=
  let part := PyStr.strip part in
  if String.eqb part "" then Try.ret tt
  else
    let tokens := PyStr.split_ws part in
    if (2 <=? length tokens)%nat then
      param <- Try.lift (getitem tokens 0) ;;
      value <- Try.lift (getitem tokens 1) ;;
      Try.store param value
    else Try.ret tt.

(** [parse_trisonica_data]: [None] for a line without a comma, for a line
    that yields no field, and from the handler. *)
Definition parse_trisonica_data (line : string) : option PyDict.dict :=
  let parts := PyStr.split comma (PyStr.strip line) in
  if (length parts <? 2)%nat then None
  else
    match Try.for_each parts part_body PyDict.empty with
    | (parsed_data, inr _) =>
        match parsed_data with
        | [] => None
        | _ => Some parsed_data
        end
    | (_, inl _) => None
    end.

(** The field that the loop body stores for one comma-separated part: its
    first two whitespace-separated tokens. *)
Definition pi_segment (part : string) : option (string * string) :=
  match PyStr.split_ws part with
  | param :: value :: _ => Some (param, value)
  | _ => None
  end.

(** The fields of the Pi logger that the loop reads and writes. The data
    log part ([csv_columns], [csv_headers_written], [log_file]) is a
    [Logger] whose [stats] stay empty: the Pi keeps [parameter_stats]
    instead. *)
Record State (F : Type) : Type := mkState {
  csv : Logger F;
  parameter_stats : gmap string (Pi.ParamStats F);
  latest_data : PyDict.dict;
  data_count : nat
}.

Arguments mkState {F}.
Arguments csv {F}.
Arguments parameter_stats {F}.
Arguments latest_data {F}.
Arguments data_count {F}.

Definition init {F : Type} : State F := mkState init ∅ PyDict.empty 0.

Section PiLoop.

Context {F : Type} `{Arith F} `{FloatParser F}.

(** [read_and_process_data] on an open port: [raw] is the decoded text of
    [readline()], [now] the text of [datetime.now().isoformat()]. *)
Definition read_and_process_data (now raw : string) (self : State F)
  : State F * bool :=
  let line := PyStr.strip raw in
  if String.eqb line "" then (self, false)
  else
    match parse_trisonica_data line with
    | None => (self, false)
    | Some parsed_data =>
        let csv1 := fst (update_csv_columns parsed_data (csv self)) in
        let csv2 := write_csv_row now parsed_data csv1 in
        (mkState csv2
           (Pi.update_statistics parsed_data (parameter_stats self))
           parsed_data (data_count self),
         true)
    end.

(** One turn of the [while self.running] loop of [run]. The status line
    and the periodic [save_statistics] only print and write the statistics
    file; they change no field kept here. *)
Definition loop_step (self : State F) (input : string * string) : State F :=
  let '(self1, ok) := read_and_process_data (fst input) (snd input) self in
  if ok then
    mkState (csv self1) (parameter_stats self1) (latest_data self1)
      (S (data_count self1))
  else self1.

Definition run (inputs : list (string * string)) (self : State F) : State F :=
  fold_left loop_step inputs self.

(** The mapping of an input line that the loop accepts. *)
Definition accepted (input : string * string) : option PyDict.dict :=
  parse_trisonica_data (PyStr.strip (snd input)).

(** The number that one input line contributes to the statistics of
    [param]. *)
Definition observation (param : string) (input : string * string)
  : option F :=
  match accepted input with
  | Some parsed_data => dict_lookup param parsed_data ≫= py_float
  | None => None
  end.

Definition observations (param : string) (inputs : list (string * string))
  : list F :=
  omap (observation param) inputs.

End PiLoop.

End PiLogger.

(** ** [x ** 2] can raise

    On floats, [x ** 2] raises [OverflowError] where the square of a finite
    [x] is out of range ([inf ** 2] is [inf] and [nan ** 2] is [nan],
    without an error); no other operation of [calculate_statistics] raises.
    In exact arithmetic nothing does. *)

Class PowError (F : Type) := { pow2_raises : F -> bool }.

#[export] Instance float_pow_error : PowError float :=
  {| pow2_raises := fun x => is_finite x && negb (is_finite (PrimFloat.mul x x)) |}.

#[export] Instance real_pow_error : PowError R :=
  {| pow2_raises := fun _ => false |}.

(** ** The display series and the main loop
    (linux 82-101, 371-446, 591-619; mac and windows alike)

    What [update_display] renders is left out: a session is the sequence
    of the lines read while the loop runs. *)

Module MainLoop.

(** [self.viz_data]: four bounded series. *)
Record VizData (F : Type) : Type := mkVizData {
  wind_speed : list F;
  temperature : list F;
  wind_direction : list F;
  timestamps : list string
}.

Arguments mkVizData {F}.
Arguments wind_speed {F}.
Arguments temperature {F}.
Arguments wind_direction {F}.
Arguments timestamps {F}.

(** What [save_final_statistics] prints for one parameter, before the
    [.6f] formatting: [min, max, mean, std_dev, count]. *)
Definition stat_row {F : Type} (s : Statistics F) : F * F * F * F * nat :=
  (min_val s, max_val s, mean_val s, std_dev s, count s).

(** The fields of the logger object that the main loop reads and writes.
    The statistics file is kept as the list of its flushes, each one the
    rows of the parameters tracked at that moment (the header line, the
    clock reading in front of each row and the order of the rows within a
    flush are left out); [None] is a file that was never opened. *)
Record Session (F : Type) : Type := mkSession {
  logger : Logger F;
  viz_data : VizData F;
  point_count : nat;
  data_points : list DataPoint;
  save_statistics : bool;
  stats_file : option (list (gmap string (F * F * F * F * nat)))
}.

Arguments mkSession {F}.
Arguments logger {F}.
Arguments viz_data {F}.
Arguments point_count {F}.
Arguments data_points {F}.
Arguments save_statistics {F}.
Arguments stats_file {F}.

(** [__init__] followed by [setup_logging]: the statistics file is opened
    exactly when [config.save_statistics] is set. *)
Definition init {F : Type} (save_statistics : bool) : Session F :=
  mkSession init (mkVizData [] [] [] []) 0 [] save_statistics
    (if save_statistics then Some [] else None).

Section Loop.

Context {F : Type} `{Arith F} `{FloatParser F} `{PowError F}.

(** The capacities and the flush period, per platform:
    [K] 150, 100, 200; [VIZ] 75, 50, 100; [MAX_DATAPOINTS] 1500, 1000,
    2000; [EVERY] 200, 100, 250 (linux, mac, windows). *)
Variables K VIZ MAX_DATAPOINTS EVERY : nat.

(** The [if key in ['S', 'S2'] ... elif ...] chain. *)
Definition viz_append (key : string) (value : F) (viz : VizData F)
  : VizData F :=
  if PyStr.mem key ["S"; "S2"] then
    mkVizData (deque_append VIZ (wind_speed viz) value) (temperature viz)
      (wind_direction viz) (timestamps viz)
  else if String.eqb key "T" then
    mkVizData (wind_speed viz) (deque_append VIZ (temperature viz) value)
      (wind_direction viz) (timestamps viz)
  else if String.eqb key "D" then
    mkVizData (wind_speed viz) (temperature viz)
      (deque_append VIZ (wind_direction viz) value) (timestamps viz)
  else viz.

(** The body of [for key, value_str in parsed.items()] when nothing but
    [float] raises: a [ValueError] from [float] skips both updates. *)
Definition field_step
  (acc : gmap string (Statistics F) * VizData F) (item : string * string)
  : gmap string (Statistics F) * VizData F :=
  let '(stats, viz) := acc in
  let '(key, value_str) := item in
  match py_float value_str with
  | Some value => (calculate_statistics K key value stats,
                   viz_append key value viz)
  | None => (stats, viz)
  end.

(** [sum((x - mean) ** 2 for x in xs)] raises: some term does. *)
Definition variance_raises (mean : F) (xs : list F) : bool :=
  existsb (fun x => pow2_raises (fsub x mean)) xs.

(** [calculate_statistics] with the error it can raise: the flag tells
    whether [OverflowError] came out of the variance. The object has by then
    its new count, window, extrema and mean, and keeps its old
    [std_dev]. *)
Definition calculate_statistics (key : string) (value : F)
  (stats : gmap string (Statistics F))
  : gmap string (Statistics F) * bool :=
  let stat := default new_Statistics (stats !! key) in
  let stat' := update_stat K stat value in
  if negb (count stat' =? 1)%nat && (1 <? length (values stat'))%nat
     && variance_raises (mean_val stat') (values stat')
  then
    (<[key := mkStatistics (min_val stat') (max_val stat') (mean_val stat')
                (current_val stat') (std_dev stat) (count stat')
                (values stat')]> stats,
     true)
  else (<[key := stat']> stats, false).

(** The calls [calculate_statistics(key, v)] for the successive values [vs]
    of one parameter, as they run: a call that raises leaves the object as
    the error found it, the handler of [read_serial_data] takes over, and
    the next call goes on from there. *)
Definition feed (key : string) (vs : list F)
  (stats : gmap string (Statistics F)) : gmap string (Statistics F) :=
  fold_left (fun st v => fst (calculate_statistics key v st)) vs stats.

(** The loop [for key, value_str in parsed.items()]: a [ValueError] from
    [float] is caught inside and the field skipped; an [OverflowError]
    from [calculate_statistics] leaves the loop. *)
Fixpoint field_loop (items : list (string * string))
  (stats : gmap string (Statistics F)) (viz : VizData F)
  : gmap string (Statistics F) * VizData F * bool :=
  match items with
  | [] => (stats, viz, false)
  | (key, value_str) :: items' =>
      match py_float value_str with
      | Some value =>
          let '(stats', raised) := calculate_statistics key value stats in
          if raised then (stats', viz, true)
          else field_loop items' stats' (viz_append key value viz)
      | None => field_loop items' stats viz
      end
  end.

(** [read_serial_data], display series included ([update_rate] is left
    out). The handler [except Exception: return None] takes over when the
    field loop raises: the row is written by then, the clock reading is not
    appended to [timestamps], and there is no data point. *)
Definition read_serial_data (now raw : string) (self : Session F)
  : Session F * option DataPoint :=
  let line := PyStr.strip raw in
  if String.eqb line "" then (self, None)
  else
    let parsed := parse_data_line line in
    let logger1 := fst (update_csv_columns parsed (logger self)) in
    let logger2 := write_csv_row now parsed logger1 in
    let '(stats', viz, raised) :=
      field_loop (PyDict.items parsed) (stats logger2) (viz_data self) in
    let logger3 :=
      mkLogger (csv_columns logger2) (csv_headers_written logger2)
        (log_file logger2) stats' in
    if raised then
      (mkSession logger3 viz (point_count self) (data_points self)
         (save_statistics self) (stats_file self),
       None)
    else
      let viz' :=
        mkVizData (wind_speed viz) (temperature viz) (wind_direction viz)
          (deque_append VIZ (timestamps viz) now) in
      (mkSession logger3 viz' (point_count self) (data_points self)
         (save_statistics self) (stats_file self),
       Some (mkDataPoint now line parsed)).

(** [save_final_statistics] *)
Definition save_final_statistics (self : Session F) : Session F :=
  match stats_file self with
  | Some flushes =>
      if negb (save_statistics self) then self
      else
        mkSession (logger self) (viz_data self) (point_count self)
          (data_points self) (save_statistics self)
          (Some (flushes ++ [stat_row <$> stats (logger self)]))
  | None => self
  end.

(** One turn of the [while self.running] loop of [run]. *)
Definition loop_step (self : Session F) (input : string * string)
  : Session F :=
  let '(self1, data_point) :=
    read_serial_data (fst input) (snd input) self in
  match data_point with
  | Some data_point =>
      let self2 :=
        mkSession (logger self1) (viz_data self1) (S (point_count self1))
          (deque_append MAX_DATAPOINTS (data_points self1) data_point)
          (save_statistics self1) (stats_file self1) in
      if (point_count self2 mod EVERY =? 0)%nat
      then save_final_statistics self2
      else self2
  | None => self1
  end.

Definition run (inputs : list (string * string)) (self : Session F)
  : Session F :=
  fold_left loop_step inputs self.

(** The line makes the field loop raise, from the state [self]. *)
Definition raises (self : Session F) (input : string * string) : bool :=
  if blank input then false
  else
    snd (field_loop
           (PyDict.items (parse_data_line (PyStr.strip (snd input))))
           (stats (logger self)) (viz_data self)).

(** No line of the session raises. *)
Fixpoint quiet (inputs : list (string * string)) (self : Session F) : bool :=
  match inputs with
  | [] => true
  | input :: inputs' =>
      negb (raises self input) && quiet inputs' (loop_step self input)
  end.

End Loop.

(** The number of a field whose name is one of [names]. *)
Definition numeric_field {F : Type} `{FloatParser F} (names : list string)
  (item : string * string) : option F :=
  if PyStr.mem (fst item) names then py_float (snd item) else None.

(** The numbers of the fields named in [names] on one line, in the order of
    the line's mapping. *)
Definition series_values {F : Type} `{FloatParser F} (names : list string)
  (input : string * string) : list F :=
  if blank input then []
  else
    omap (numeric_field names)
      (PyDict.items (parse_data_line (PyStr.strip (snd input)))).

(** The last [n] elements of a list. *)
Definition last_n {A : Type} (n : nat) (l : list A) : list A :=
  drop (length l - n) l.

(** The [DataPoint] of a line that is not dropped. *)
Definition data_point_of (input : string * string) : option DataPoint :=
  if blank input then None
  else
    let line := PyStr.strip (snd input) in
    Some (mkDataPoint (fst input) line (parse_data_line line)).

End MainLoop.

(** ** Serial port discovery (linux 202-218; pi 86-99, 103-120) *)

Module Ports.

(** [s.startswith(p)] *)
Definition startswith (p s : string) : bool := String.prefix p s.

(** The order of [str]: by code point, then by length. *)
Definition str_le (a b : string) : Prop := String.leb a b = true.

#[export] Instance str_le_dec (a b : string) : Decision (str_le a b) :=
  bool_eq_dec (String.leb a b) true.

(** [sorted(l)]: any sort gives the same list, the order being total and
    antisymmetric; this one is a merge sort. *)
Definition sorted (l : list string) : list string := merge_sort str_le l.

(** [glob] stands for [glob.glob]: what the file system holds. *)
Section Discovery.

Variable glob : string -> list string.

(** [for pattern in patterns: ports.extend(glob.glob(pattern))] *)
Definition collect (patterns : list string) : list string :=
  fold_left (fun ports pattern => ports ++ glob pattern) patterns [].

Definition linux_patterns : list string :=
  ["/dev/ttyUSB*"; "/dev/ttyACM*"; "/dev/ttyS*"].

Definition pi_patterns : list string :=
  ["/dev/ttyUSB*"; "/dev/ttyACM*"].

(** linux [find_serial_ports] *)
Definition find_serial_ports : list string :=
  let ports := collect linux_patterns in
  let ports :=
    if (1 <? length ports)%nat
    then List.filter (fun p => negb (startswith "/dev/ttyS" p)) ports
    else ports in
  sorted ports.

(** pi [find_serial_ports] *)
Definition pi_find_serial_ports : list string :=
  sorted (collect pi_patterns).

(** The port that pi [connect_serial] opens: [ports[0]] for ['auto'] (none
    if no port was found), else the port given. *)
Definition pi_selected_port (port : string) : option string :=
  if String.eqb port "auto" then
    match pi_find_serial_ports with
    | [] => None
    | selected_port :: _ => Some selected_port
    end
  else Some port.

End Discovery.

End Ports.

(** * Properties *)

(** ** Strings *)

Section StringFacts.

Import PyStr.

Lemma comma_not_space : is_space comma = false.
Proof. reflexivity. Qed.

Lemma space_is_space : is_space space = true.
Proof. reflexivity. Qed.

Lemma rstrip_cons c s :
  rstrip (String c s) =
  if String.eqb (rstrip s) "" then
    (if is_space c then EmptyString else String c EmptyString)
  else String c (rstrip s).
Proof. simpl. destruct (rstrip s); reflexivity. Qed.

Lemma rstrip_empty_iff s : rstrip s = "" <-> all_space s = true.
Proof.
  induction s as [|c s IH]; simpl; [tauto|].
  destruct (rstrip s) eqn:E.
  - destruct (is_space c); simpl; [tauto|].
    split; discriminate.
  - split; [discriminate|].
    intros H. apply andb_true_iff in H as [_ H].
    apply IH in H. discriminate.
Qed.

Lemma lstrip_head c t s : lstrip s = String c t -> is_space c = false.
Proof.
  induction s as [|a s IH]; simpl; [discriminate|].
  destruct (is_space a) eqn:E; [exact IH|].
  intros [= -> _]. exact E.
Qed.

Lemma lstrip_nonspace c s : is_space c = false -> lstrip (String c s) = String c s.
Proof. intros H. simpl. now rewrite H. Qed.

Lemma rstrip_head_nonspace c s :
  is_space c = false -> exists t, rstrip (String c s) = String c t.
Proof.
  intros H. simpl. destruct (rstrip s).
  - rewrite H. eauto.
  - eauto.
Qed.

(** A stripped string starts with a character that is not whitespace. *)
Lemma strip_head c t s : strip s = String c t -> is_space c = false.
Proof.
  unfold strip. destruct (lstrip s) as [|a l] eqn:E; simpl; [discriminate|].
  pose proof (lstrip_head _ _ _ E) as Ha.
  destruct (rstrip l).
  - rewrite Ha. now intros [= <- _].
  - now intros [= <- _].
Qed.

Lemma rstrip_idem s : rstrip (rstrip s) = rstrip s.
Proof.
  induction s as [|c s IH]; [reflexivity|].
  rewrite rstrip_cons.
  destruct (String.eqb (rstrip s) "") eqn:E.
  - destruct (is_space c) eqn:Ec; [reflexivity|].
    simpl. now rewrite Ec.
  - rewrite rstrip_cons, IH, E. reflexivity.
Qed.

Lemma strip_rstrip_fixed s : rstrip (strip s) = strip s.
Proof. unfold strip. apply rstrip_idem. Qed.

(** A string fixed by [rstrip] has no whitespace-only suffix but the empty
    one. *)
Lemma append_nil_l (b : string) : ("" ++ b)%string = b.
Proof. reflexivity. Qed.

Lemma append_cons c (a b : string) :
  (String c a ++ b)%string = String c (a ++ b).
Proof. reflexivity. Qed.

Lemma rstrip_fixed_suffix a b :
  rstrip (a ++ b) = (a ++ b)%string -> all_space b = true -> b = "".
Proof.
  induction a as [|c a IH].
  - rewrite append_nil_l. intros H Hb. apply rstrip_empty_iff in Hb. congruence.
  - rewrite append_cons, rstrip_cons.
    destruct (String.eqb (rstrip (a ++ b)) "") eqn:E.
    + apply String.eqb_eq in E.
      destruct (is_space c); [discriminate|].
      intros [= H] Hb. destruct a; [|discriminate].
      rewrite append_nil_l in H. now symmetry.
    + intros [= H] Hb. apply IH; assumption.
Qed.

Lemma all_space_lstrip s : all_space (lstrip s) = all_space s.
Proof.
  induction s as [|c s IH]; [reflexivity|].
  simpl. destruct (is_space c) eqn:E; simpl; [exact IH|].
  now rewrite E.
Qed.

Lemma strip_empty_iff s : strip s = "" <-> all_space s = true.
Proof. unfold strip. rewrite rstrip_empty_iff, all_space_lstrip. tauto. Qed.

Lemma lstrip_rstrip s : lstrip (rstrip s) = rstrip (lstrip s).
Proof.
  induction s as [|c s IH]; [reflexivity|].
  rewrite rstrip_cons.
  destruct (is_space c) eqn:Ec.
  - change (lstrip (String c s)) with (if is_space c then lstrip s else String c s).
    rewrite Ec.
    destruct (String.eqb (rstrip s) "") eqn:E.
    + apply String.eqb_eq in E. rewrite <- IH, E. reflexivity.
    + simpl. now rewrite Ec.
  - rewrite (lstrip_nonspace c s Ec), rstrip_cons.
    destruct (String.eqb (rstrip s) ""); rewrite ?Ec; now rewrite lstrip_nonspace.
Qed.

Lemma strip_rstrip s : strip (rstrip s) = strip s.
Proof. unfold strip. now rewrite lstrip_rstrip, rstrip_idem. Qed.

Lemma strip_space_cons c s : is_space c = true -> strip (String c s) = strip s.
Proof. intros H. unfold strip. simpl. now rewrite H. Qed.

Lemma has_space_false_lstrip s : has_space s = false -> lstrip s = s.
Proof.
  destruct s as [|c s]; [reflexivity|]. simpl.
  intros H. apply orb_false_iff in H as [-> _]. reflexivity.
Qed.

Lemma has_space_false_rstrip s : has_space s = false -> rstrip s = s.
Proof.
  induction s as [|c s IH]; [reflexivity|].
  simpl. intros H. apply orb_false_iff in H as [Hc Hs].
  rewrite (IH Hs), Hc. destruct s; reflexivity.
Qed.

Lemma has_space_false_strip s : has_space s = false -> strip s = s.
Proof.
  intros H. unfold strip. rewrite (has_space_false_lstrip _ H).
  now apply has_space_false_rstrip.
Qed.

(** *** [split] *)

Lemma split_nonempty sep s : split sep s <> [].
Proof.
  destruct s as [|c s]; simpl; [discriminate|].
  destruct (Ascii.eqb c sep); [discriminate|].
  destruct (split sep s); discriminate.
Qed.

Lemma split_singleton sep s y : split sep s = [y] -> y = s.
Proof.
  revert y. induction s as [|c s IH]; simpl; intros y.
  - now intros [= <-].
  - destruct (Ascii.eqb c sep).
    + intros [= _ H]. now apply split_nonempty in H.
    + destruct (split sep s) as [|t ts] eqn:E.
      * now apply split_nonempty in E.
      * intros [= <- ->]. f_equal. now apply IH.
Qed.

Lemma split_no_sep sep s : contains sep s = false -> split sep s = [s].
Proof.
  induction s as [|c s IH]; simpl; [reflexivity|].
  intros H. apply orb_false_iff in H as [-> H].
  now rewrite (IH H).
Qed.

Lemma map_strip_split_lstrip s :
  map strip (split comma (lstrip s)) = map strip (split comma s).
Proof.
  induction s as [|c s IH]; [reflexivity|].
  simpl. destruct (is_space c) eqn:Ec; [|reflexivity].
  assert (Ascii.eqb c comma = false) as ->.
  { destruct (Ascii.eqb c comma) eqn:E; [|reflexivity].
    apply Ascii.eqb_eq in E. subst c. discriminate. }
  rewrite IH. destruct (split comma s) as [|t ts] eqn:E.
  - now apply split_nonempty in E.
  - simpl. now rewrite strip_space_cons.
Qed.

Lemma map_last_nonempty {A} (f : A -> A) l : l <> [] -> map_last f l <> [].
Proof. destruct l as [|x [|y l]]; simpl; congruence. Qed.

Lemma map_last_cons {A} (f : A -> A) x l :
  l <> [] -> map_last f (x :: l) = x :: map_last f l.
Proof. destruct l; simpl; congruence. Qed.

(** [rstrip] only touches the last piece: the separator is not whitespace. *)
Lemma split_rstrip s :
  split comma (rstrip s) = map_last rstrip (split comma s).
Proof.
  induction s as [|c s IH]; [reflexivity|].
  rewrite rstrip_cons. simpl split at 2.
  destruct (Ascii.eqb c comma) eqn:Ec.
  - apply Ascii.eqb_eq in Ec. subst c.
    rewrite map_last_cons by apply split_nonempty. rewrite <- IH.
    destruct (String.eqb (rstrip s) "") eqn:E.
    + apply String.eqb_eq in E. rewrite E. reflexivity.
    + simpl. reflexivity.
  - destruct (split comma s) as [|t ts] eqn:Es.
    { now apply split_nonempty in Es. }
    destruct ts as [|t' ts].
    + change (map_last rstrip [t]) with [rstrip t] in IH.
      change (map_last rstrip [String c t]) with [rstrip (String c t)].
      pose proof (split_singleton _ _ _ IH) as Ht.
      rewrite rstrip_cons, Ht.
      destruct (String.eqb (rstrip s) "") eqn:E.
      * destruct (is_space c); simpl; [reflexivity|]. now rewrite Ec.
      * simpl. now rewrite Ec, IH, Ht.
    + rewrite map_last_cons in IH by discriminate.
      rewrite map_last_cons by discriminate.
      destruct (String.eqb (rstrip s) "") eqn:E.
      * apply String.eqb_eq in E. rewrite E in IH. exfalso.
        change (split comma "") with [""] in IH.
        injection IH as _ IH. destruct ts; discriminate.
      * simpl. rewrite Ec, IH. reflexivity.
Qed.

Lemma map_strip_map_last_rstrip l :
  map strip (map_last rstrip l) = map strip l.
Proof.
  induction l as [|x [|y l] IH]; [reflexivity| |].
  - simpl. now rewrite strip_rstrip.
  - rewrite map_last_cons by discriminate.
    change (map strip (x :: y :: l)) with (strip x :: map strip (y :: l)).
    rewrite <- IH. reflexivity.
Qed.

(** Splitting the stripped line or the line gives the same stripped pieces. *)
Lemma map_strip_split_strip s :
  map strip (split comma (strip s)) = map strip (split comma s).
Proof.
  unfold strip.
  now rewrite split_rstrip, map_strip_map_last_rstrip, map_strip_split_lstrip.
Qed.

(** *** [split(sep, 1)] *)

Lemma split1_no_sep sep s : contains sep s = false -> split1 sep s = [s].
Proof.
  induction s as [|c s IH]; simpl; [reflexivity|].
  intros H. apply orb_false_iff in H as [-> H].
  now rewrite (IH H).
Qed.

Lemma split1_sep sep s :
  contains sep s = true ->
  exists k v, split1 sep s = [k; v] /\ s = (k ++ String sep v)%string
              /\ contains sep k = false.
Proof.
  induction s as [|c s IH]; simpl; [discriminate|].
  destruct (Ascii.eqb c sep) eqn:Ec; simpl.
  - intros _. apply Ascii.eqb_eq in Ec. subst c.
    exists "", s. repeat split; reflexivity.
  - intros H. destruct (IH H) as (k & v & -> & -> & Hk).
    exists (String c k), v. repeat split.
    simpl. now rewrite Ec, Hk.
Qed.

(** Both tokens of a stripped segment cut at its first space hold a
    character that is not whitespace. *)
Lemma strip_split1_tokens q k v :
  split1 space (strip q) = [k; v] -> strip k <> "" /\ strip v <> "".
Proof.
  intros Hs.
  destruct (contains space (strip q)) eqn:Hc.
  2:{ rewrite (split1_no_sep _ _ Hc) in Hs. discriminate. }
  destruct (split1_sep _ _ Hc) as (k' & v' & Hs' & Heq & Hk).
  rewrite Hs in Hs'. injection Hs' as <- <-.
  split.
  - destruct k as [|c k].
    + rewrite append_nil_l in Heq. apply strip_head in Heq. discriminate.
    + rewrite append_cons in Heq. apply strip_head in Heq.
      unfold strip. rewrite (lstrip_nonspace _ _ Heq).
      destruct (rstrip_head_nonspace c k Heq) as [t ->]. discriminate.
  - intros Hv. apply strip_empty_iff in Hv.
    pose proof (strip_rstrip_fixed q) as Hfix. rewrite Heq in Hfix.
    apply rstrip_fixed_suffix in Hfix; [discriminate|].
    simpl. exact Hv.
Qed.

(** *** [split()] *)


Lemma rstrip_first c s c' t : rstrip (String c s) = String c' t -> c' = c.
Proof.
  rewrite rstrip_cons.
  destruct (String.eqb (rstrip s) ""); [destruct (is_space c)|]; congruence.
Qed.

Lemma split_ws_cons c s :
  split_ws (String c s) =
  if is_space c then split_ws s
  else match s with
       | EmptyString => [String c EmptyString]
       | String c' _ =>
           if is_space c' then String c EmptyString :: split_ws s
           else match split_ws s with
                | t :: ts => String c t :: ts
                | [] => [String c EmptyString]
                end
       end.
Proof. reflexivity. Qed.

Lemma split_ws_lstrip s : split_ws (lstrip s) = split_ws s.
Proof.
  induction s as [|c s IH]; [reflexivity|].
  rewrite (split_ws_cons c s).
  change (lstrip (String c s)) with (if is_space c then lstrip s else String c s).
  destruct (is_space c) eqn:Ec; [exact IH|].
  rewrite split_ws_cons, Ec. reflexivity.
Qed.

Lemma split_ws_rstrip s : split_ws (rstrip s) = split_ws s.
Proof.
  induction s as [|c s IH]; [reflexivity|].
  rewrite rstrip_cons.
  destruct (String.eqb (rstrip s) "") eqn:E.
  - apply String.eqb_eq in E. rewrite E in IH. simpl in IH.
    rewrite (split_ws_cons c s), <- IH.
    destruct (is_space c) eqn:Ec; [reflexivity|].
    rewrite split_ws_cons, Ec.
    destruct s as [|c' s']; [reflexivity|].
    destruct (is_space c'); reflexivity.
  - rewrite (split_ws_cons c s), (split_ws_cons c (rstrip s)), IH.
    destruct (is_space c); [reflexivity|].
    destruct s as [|c' s']; [discriminate|].
    destruct (rstrip (String c' s')) as [|c1 r] eqn:Er; [discriminate|].
    apply rstrip_first in Er. now subst c1.
Qed.

Lemma split_ws_strip s : split_ws (strip s) = split_ws s.
Proof. unfold strip. now rewrite split_ws_rstrip, split_ws_lstrip. Qed.

Lemma split_ws_no_space s :
  has_space s = false -> (length (split_ws s) <= 1)%nat.
Proof.
  induction s as [|c s IH]; simpl; [lia|].
  intros H. apply orb_false_iff in H as [-> Hs].
  specialize (IH Hs).
  destruct s as [|c' s']; [simpl; lia|].
  simpl in Hs. apply orb_false_iff in Hs as [-> _].
  destruct (split_ws (String c' s')) as [|t [|t' ts]]; simpl in *; lia.
Qed.

End StringFacts.

(** ** LineParser *)

Section ParserFacts.

Import PyStr.

(** A loop whose body never raises is a fold over the dict. *)
Lemma for_each_fold {X : Type} (l : list X) (body : X -> Try.M unit)
  (g : PyDict.dict -> X -> PyDict.dict) :
  (forall x d, In x l -> body x d = (g d x, inr tt)) ->
  forall d, Try.for_each l body d = (fold_left g l d, inr tt).
Proof.
  induction l as [|x l IH]; intros Hb d; [reflexivity|].
  simpl. unfold Try.bind. rewrite Hb by (now left).
  apply IH. intros y d' Hy. apply Hb. now right.
Qed.

Lemma omap_cons {A B : Type} (f : A -> option B) (x : A) (l : list A) :
  omap f (x :: l) =
  match f x with Some y => y :: omap f l | None => omap f l end.
Proof. reflexivity. Qed.

Lemma fold_left_omap {A B S : Type} (f : A -> option B) (g : S -> B -> S)
  (l : list A) (d : S) :
  fold_left g (omap f l) d =
  fold_left (fun d x => match f x with Some b => g d b | None => d end) l d.
Proof.
  revert d. induction l as [|x l IH]; intros d; [reflexivity|].
  rewrite omap_cons. simpl. destruct (f x); simpl; apply IH.
Qed.

(** *** The comma branch *)

Lemma comma_body_spec pair d :
  comma_body pair d = (store_segment d pair, inr tt).
Proof.
  unfold comma_body, store_segment, Spec.segment_trimmed.
  destruct (contains space (strip pair)) eqn:Hc.
  - destruct (split1_sep _ _ Hc) as (k & v & Hs & _ & _).
    rewrite Hs. destruct (strip_split1_tokens _ _ _ Hs) as [Hk Hv].
    apply String.eqb_neq in Hk, Hv.
    unfold Spec.nonempty. rewrite Hk, Hv. reflexivity.
  - rewrite (split1_no_sep _ _ Hc). reflexivity.
Qed.

Lemma segment_trimmed_strip seg :
  Spec.segment_trimmed seg = Spec.segment_trimmed (strip seg).
Proof.
  unfold Spec.segment_trimmed.
  assert (strip (strip seg) = strip seg) as ->; [|reflexivity].
  unfold strip at 1. rewrite <- lstrip_rstrip, strip_rstrip_fixed.
  destruct (strip seg) as [|c t] eqn:E; [reflexivity|].
  apply strip_head in E. now apply lstrip_nonspace.
Qed.

Lemma omap_segment_map_strip l :
  omap Spec.segment_trimmed l = omap Spec.segment_trimmed (map strip l).
Proof.
  induction l as [|x l IH]; [reflexivity|].
  change (map strip (x :: l)) with (strip x :: map strip l).
  now rewrite !omap_cons, <- segment_trimmed_strip, IH.
Qed.

(** *** The whitespace branch *)

Lemma range_from_enough stop step f1 f2 i :
  1 <= step ->
  (Z.to_nat (stop - i) <= f1)%nat -> (Z.to_nat (stop - i) <= f2)%nat ->
  range_from f1 i stop step = range_from f2 i stop step.
Proof.
  intros Hstep. revert f2 i.
  induction f1 as [|f1 IH]; intros f2 i H1 H2.
  - destruct f2 as [|f2]; [reflexivity|]. simpl.
    destruct (Z.ltb_spec i stop); [lia | reflexivity].
  - simpl. destruct (Z.ltb_spec i stop) as [Hlt|Hge].
    + destruct f2 as [|f2]; [lia|]. simpl.
      destruct (Z.ltb_spec i stop); [|lia].
      f_equal. apply IH; lia.
    + destruct f2 as [|f2]; [reflexivity|]. simpl.
      destruct (Z.ltb_spec i stop); [lia | reflexivity].
Qed.

Lemma py_range_lt i stop step :
  1 <= step -> i < stop ->
  py_range i stop step = i :: py_range (i + step) stop step.
Proof.
  intros Hstep Hlt. unfold py_range.
  destruct (Z.to_nat (stop - i)) as [|f] eqn:E; [lia|].
  simpl. destruct (Z.ltb_spec i stop); [|lia].
  f_equal. apply range_from_enough; lia.
Qed.

Lemma py_range_ge i stop step : stop <= i -> py_range i stop step = [].
Proof.
  intros H. unfold py_range.
  replace (Z.to_nat (stop - i)) with 0%nat by lia. reflexivity.
Qed.

Lemma getitem_app {A : Type} (pre : list A) (x : A) (post : list A) :
  getitem (pre ++ x :: post) (Z.of_nat (length pre)) = inr x.
Proof.
  unfold getitem. rewrite length_app. simpl length.
  destruct (Z.ltb_spec (Z.of_nat (length pre)) 0); [lia|].
  destruct (Z.leb_spec 0 (Z.of_nat (length pre))); [|lia].
  destruct (Z.ltb_spec (Z.of_nat (length pre))
              (Z.of_nat (length pre + S (length post)))); [|lia].
  simpl. rewrite Nat2Z.id.
  rewrite nth_error_app2 by lia. now rewrite Nat.sub_diag.
Qed.

(** The index loop from position [length pre] on stores the pairs of the
    remaining tokens. *)
Lemma ws_loop_spec (n : nat) :
  forall pre rest d, (length rest <= n)%nat ->
  Try.for_each
    (py_range (Z.of_nat (length pre)) (Z.of_nat (length (pre ++ rest)) - 1) 2)
    (ws_body (pre ++ rest)) d
  = (fold_left store_pair (Spec.pair_up rest) d, inr tt).
Proof.
  induction n as [|n IH]; intros pre rest d Hn.
  - destruct rest; [|simpl in Hn; lia].
    rewrite py_range_ge by (rewrite length_app; simpl; lia). reflexivity.
  - destruct rest as [|a [|b rest]].
    + rewrite py_range_ge by (rewrite length_app; simpl; lia). reflexivity.
    + rewrite py_range_ge by (rewrite length_app; simpl; lia). reflexivity.
    + rewrite py_range_lt; [|lia|rewrite length_app; simpl; lia].
      simpl Try.for_each. unfold Try.bind at 1.
      assert (ws_body (pre ++ a :: b :: rest) (Z.of_nat (length pre)) d
              = (PyDict.setitem a b d, inr tt)) as ->.
      { unfold ws_body.
        destruct (Z.ltb_spec (Z.of_nat (length pre) + 1)
                    (Z.of_nat (length (pre ++ a :: b :: rest)))) as [_|Hge];
          [|rewrite length_app in Hge; simpl in Hge; lia].
        unfold Try.bind, Try.lift, Try.store.
        replace (Z.of_nat (length pre) + 1) with (Z.of_nat (length (pre ++ [a])))
          by (rewrite length_app; simpl; lia).
        replace (pre ++ a :: b :: rest) with ((pre ++ [a]) ++ b :: rest) at 1
          by (now rewrite <- app_assoc).
        rewrite getitem_app, getitem_app. reflexivity. }
      replace (pre ++ a :: b :: rest) with ((pre ++ [a; b]) ++ rest)
        by (now rewrite <- app_assoc).
      replace (Z.of_nat (length pre) + 2) with (Z.of_nat (length (pre ++ [a; b])))
        by (rewrite length_app; simpl; lia).
      rewrite IH by (simpl in Hn; lia). reflexivity.
Qed.

(** *** The statements under [try] never raise, and what they store *)

Lemma parse_body_spec line d :
  parse_body line d =
  (fold_left store_pair
     (if contains comma line
      then omap Spec.segment_trimmed (split comma line)
      else Spec.pair_up (split_ws line)) d,
   inr tt).
Proof.
  unfold parse_body. destruct (contains comma line).
  - rewrite (for_each_fold _ comma_body store_segment)
      by (intros; apply comma_body_spec).
    f_equal. rewrite fold_left_omap.
    rewrite <- (fold_left_omap Spec.segment_trimmed store_pair).
    rewrite <- (fold_left_omap Spec.segment_trimmed store_pair
                  (split comma line)).
    f_equal. rewrite omap_segment_map_strip, map_strip_split_strip.
    now rewrite <- omap_segment_map_strip.
  - rewrite split_ws_strip.
    apply (ws_loop_spec (length (split_ws line)) [] (split_ws line) d).
    lia.
Qed.

Lemma parse_data_line_pairs line :
  parse_data_line line =
  fold_left store_pair
    (if contains comma line
     then omap Spec.segment_trimmed (split comma line)
     else Spec.pair_up (split_ws line)) PyDict.empty.
Proof. unfold parse_data_line. now rewrite parse_body_spec. Qed.

(** *** The dict is well formed and no larger than its input *)

Lemma keys_setitem k v d :
  PyDict.keys (PyDict.setitem k v d) =
  if mem k (PyDict.keys d) then PyDict.keys d else PyDict.keys d ++ [k].
Proof.
  induction d as [|[k' v'] d IH]; [reflexivity|].
  simpl. rewrite (String.eqb_sym k k').
  destruct (String.eqb k' k) eqn:E; [reflexivity|].
  simpl. rewrite IH.
  change (existsb (String.eqb k) (PyDict.keys d)) with (mem k (PyDict.keys d)).
  now destruct (mem k (PyDict.keys d)).
Qed.

Lemma mem_true_iff x l : mem x l = true <-> x ∈ l.
Proof.
  rewrite list_elem_of_In. unfold mem. rewrite existsb_exists. split.
  - intros (y & Hy & E). apply String.eqb_eq in E. now subst.
  - intros H. exists x. split; [exact H | apply String.eqb_refl].
Qed.

Lemma mem_false_iff x l : mem x l = false <-> x ∉ l.
Proof.
  rewrite <- mem_true_iff. destruct (mem x l); split; congruence.
Qed.

Lemma keys_setitem_NoDup k v d :
  NoDup (PyDict.keys d) -> NoDup (PyDict.keys (PyDict.setitem k v d)).
Proof.
  intros H. rewrite keys_setitem.
  destruct (mem k (PyDict.keys d)) eqn:E; [exact H|].
  apply mem_false_iff in E.
  apply NoDup_app; repeat split; try assumption.
  - intros x Hx Hk. apply list_elem_of_singleton in Hk. now subst.
  - apply NoDup_singleton.
Qed.

Lemma fold_store_NoDup pairs d :
  NoDup (PyDict.keys d) ->
  NoDup (PyDict.keys (fold_left store_pair pairs d)).
Proof.
  revert d. induction pairs as [|kv pairs IH]; intros d H; [exact H|].
  simpl. apply IH. now apply keys_setitem_NoDup.
Qed.

Lemma parse_keys_NoDup line : NoDup (PyDict.keys (parse_data_line line)).
Proof. rewrite parse_data_line_pairs. apply fold_store_NoDup. constructor. Qed.

Lemma length_setitem k v d :
  (length (PyDict.setitem k v d) <= S (length d))%nat.
Proof.
  induction d as [|[k' v'] d IH]; simpl; [lia|].
  destruct (String.eqb k' k); simpl; lia.
Qed.

Lemma length_fold_store pairs d :
  (length (fold_left store_pair pairs d) <= length d + length pairs)%nat.
Proof.
  revert d. induction pairs as [|kv pairs IH]; intros d; simpl; [lia|].
  specialize (IH (store_pair d kv)).
  pose proof (length_setitem (fst kv) (snd kv) d). unfold store_pair in *. lia.
Qed.

Lemma length_omap_le {A B : Type} (f : A -> option B) l :
  (length (omap f l) <= length l)%nat.
Proof.
  induction l as [|x l IH]; [simpl; lia|].
  rewrite omap_cons. destruct (f x); simpl; lia.
Qed.

Lemma length_pair_up_aux n : forall l, (length l <= n)%nat ->
  (2 * length (Spec.pair_up l) <= length l)%nat.
Proof.
  induction n as [|n IH]; intros l Hl.
  - destruct l; simpl in *; lia.
  - destruct l as [|a [|b l]]; simpl in *; try lia.
    specialize (IH l). lia.
Qed.

Lemma length_pair_up l : (2 * length (Spec.pair_up l) <= length l)%nat.
Proof. apply (length_pair_up_aux (length l)). lia. Qed.

Lemma pair_up_short l : (length l <= 1)%nat -> Spec.pair_up l = [].
Proof. destruct l as [|a [|b l]]; simpl; intros; try reflexivity; lia. Qed.

(** C6, as stated, fails for a line that has no comma and no space but has
    other whitespace: the letter A, a tab and the digit 1 make the mapping
    of A to 1, since [split()] cuts at any whitespace. *)
Lemma C6_line_without_comma_or_space_is_parsed :
  let line := String "A" (String (ascii_of_nat 9) "1") in
  contains comma line = false
  /\ contains space line = false
  /\ parse_data_line line = [("A", "1")]
  /\ parse_data_line line <> PyDict.empty.
Proof. repeat split; try reflexivity. discriminate. Qed.

(** C6, amended. For every line [parse_data_line] returns a mapping and the
    statements under [try] never raise (so the handler is never entered). A
    line without a comma and without whitespace, such as "garbage", gives the
    empty mapping; the mapping has distinct names and at most one field per
    comma-separated segment, or per two whitespace-separated tokens. *)
Theorem C6_parser_total_and_never_raises (line : string) :
  (forall d, snd (parse_body line d) = inr tt)
  /\ NoDup (PyDict.keys (parse_data_line line))
  /\ (contains comma line = false -> has_space line = false ->
      parse_data_line line = PyDict.empty)
  /\ (if contains comma line
      then (length (parse_data_line line) <= length (split comma line))%nat
      else (2 * length (parse_data_line line) <= length (split_ws line))%nat)
  /\ parse_data_line "garbage" = PyDict.empty.
Proof.
  split; [|split; [|split; [|split]]].
  - intros d. now rewrite parse_body_spec.
  - apply parse_keys_NoDup.
  - intros Hc Hs. rewrite parse_data_line_pairs, Hc.
    rewrite pair_up_short; [reflexivity|]. now apply split_ws_no_space.
  - rewrite parse_data_line_pairs.
    destruct (contains comma line).
    + etransitivity; [apply length_fold_store|]. simpl.
      apply length_omap_le.
    + pose proof (length_fold_store (Spec.pair_up (split_ws line)) PyDict.empty).
      pose proof (length_pair_up (split_ws line)). simpl in *. lia.
  - reflexivity.
Qed.

(** The empty mapping of a line without separators, as an instance. *)
Lemma C6_parser_total_and_never_raises_witness :
  parse_data_line "garbage-without-separators" = PyDict.empty.
Proof.
  exact (proj1 (proj2 (proj2
    (C6_parser_total_and_never_raises "garbage-without-separators")))
    eq_refl eq_refl).
Defined.

(** C7, as stated, fails: with segments and tokens taken exactly as cut, the
    segment " T 20.0" of the line "S 5.0, T 20.0" splits at its first space
    into an empty name and "T 20.0" and is dropped, while the program trims
    the segment first and keeps the field T. *)
Lemma C7_literal_algorithm_differs :
  parse_data_line "S 5.0, T 20.0" = [("S", "5.0"); ("T", "20.0")]
  /\ Spec.parse_literal "S 5.0, T 20.0" = [("S", "5.0")]
  /\ parse_data_line "S 5.0, T 20.0" <> Spec.parse_literal "S 5.0, T 20.0".
Proof. repeat split; try reflexivity. discriminate. Qed.

(** C7, amended. For every line [parse_data_line] computes the mapping of
    the specification's algorithm with trimming: a line with a comma is cut
    at every comma, each segment is trimmed and cut at its first space, both
    tokens are trimmed, and the segment is kept when that gives two non-empty
    tokens; a line without a comma is cut at whitespace and its tokens are
    paired consecutively, a trailing unpaired token being dropped. Values
    stay strings. *)
Theorem C7_parser_follows_trimmed_algorithm (line : string) :
  parse_data_line line = Spec.parse_trimmed line.
Proof.
  unfold Spec.parse_trimmed, Spec.mapping.
  rewrite parse_data_line_pairs. reflexivity.
Qed.

End ParserFacts.

(** ** SchemaRegistry and RecordWriter *)

Section SchemaFacts.

Import PyStr.

Lemma observe_fold_columns keys : forall columns flag,
  NoDup keys ->
  fst (fold_left observe_key keys (columns, flag)) =
  columns ++ new_names columns keys.
Proof.
  induction keys as [|k keys IH]; intros columns flag Hnd.
  - simpl. now rewrite app_nil_r.
  - apply NoDup_cons in Hnd as [Hk Hnd].
    simpl. destruct (mem k columns) eqn:E; simpl.
    + now apply IH.
    + rewrite IH by assumption. rewrite <- app_assoc. simpl. do 2 f_equal.
      unfold new_names. apply filter_ext_in. intros x Hx.
      f_equal. unfold mem. rewrite existsb_app. simpl.
      destruct (String.eqb_spec x k) as [->|_].
      * exfalso. apply Hk. now apply list_elem_of_In.
      * now rewrite !orb_false_r.
Qed.

Lemma observe_fold_flag keys : forall columns flag,
  snd (fold_left observe_key keys (columns, flag)) =
  flag || existsb (fun k => negb (mem k columns)) keys.
Proof.
  induction keys as [|k keys IH]; intros columns flag.
  - simpl. now rewrite orb_false_r.
  - simpl. destruct (mem k columns) eqn:E; simpl.
    + apply IH.
    + rewrite IH. simpl. now rewrite orb_true_r.
Qed.

Lemma observe_fold_prefix keys : forall columns flag,
  columns `prefix_of` fst (fold_left observe_key keys (columns, flag)).
Proof.
  induction keys as [|k keys IH]; intros columns flag.
  - simpl. reflexivity.
  - simpl. destruct (mem k columns); simpl.
    + apply IH.
    + transitivity (columns ++ [k]); [now exists [k] | apply IH].
Qed.

Lemma observe_fold_NoDup keys : forall columns flag,
  NoDup columns -> NoDup (fst (fold_left observe_key keys (columns, flag))).
Proof.
  induction keys as [|k keys IH]; intros columns flag Hnd; [exact Hnd|].
  simpl. destruct (mem k columns) eqn:E; simpl.
  - now apply IH.
  - apply IH. apply mem_false_iff in E.
    apply NoDup_app; repeat split; [assumption| |apply NoDup_singleton].
    intros x Hx Hk. apply list_elem_of_singleton in Hk. now subst.
Qed.

Lemma observe_fold_covers keys : forall columns flag k,
  k ∈ columns \/ k ∈ keys ->
  k ∈ fst (fold_left observe_key keys (columns, flag)).
Proof.
  induction keys as [|a keys IH]; intros columns flag k H.
  - simpl. destruct H as [H|H]; [exact H|]. now apply elem_of_nil in H.
  - simpl. destruct (mem a columns) eqn:E; simpl.
    + apply IH. destruct H as [H|H]; [now left|].
      apply elem_of_cons in H as [->|H]; [|now right].
      left. now apply mem_true_iff.
    + apply IH. destruct H as [H|H].
      * left. apply elem_of_app. now left.
      * apply elem_of_cons in H as [->|H]; [|now right].
        left. apply elem_of_app. right. now apply list_elem_of_singleton.
Qed.

Lemma new_names_nil_iff columns keys :
  new_names columns keys = [] <->
  existsb (fun k => negb (mem k columns)) keys = false.
Proof.
  unfold new_names. induction keys as [|k keys IH]; simpl; [tauto|].
  destruct (negb (mem k columns)); simpl; [|exact IH].
  split; discriminate.
Qed.

Context {F : Type}.

Lemma update_csv_columns_fst (parsed : PyDict.dict) (self : Logger F) :
  fst (update_csv_columns parsed self) =
  let columns := fst (observe_loop (PyDict.keys parsed) (csv_columns self)) in
  mkLogger columns true
    (if csv_headers_written self then log_file self
     else log_file self ++ [Header columns])
    (stats self).
Proof.
  unfold update_csv_columns.
  destruct (observe_loop (PyDict.keys parsed) (csv_columns self)) as [columns flag].
  simpl. destruct (csv_headers_written self) eqn:E; simpl; [|reflexivity].
  reflexivity.
Qed.

Lemma update_csv_columns_prefix (parsed : PyDict.dict) (self : Logger F) :
  csv_columns self `prefix_of` csv_columns (fst (update_csv_columns parsed self)).
Proof. rewrite update_csv_columns_fst. simpl. apply observe_fold_prefix. Qed.

Lemma update_csv_columns_NoDup (parsed : PyDict.dict) (self : Logger F) :
  NoDup (csv_columns self) ->
  NoDup (csv_columns (fst (update_csv_columns parsed self))).
Proof. rewrite update_csv_columns_fst. simpl. apply observe_fold_NoDup. Qed.

Lemma observe_all_prefix (ms : list PyDict.dict) : forall self : Logger F,
  csv_columns self `prefix_of` csv_columns (observe_all ms self).
Proof.
  induction ms as [|m ms IH]; intros self; [reflexivity|].
  simpl. etransitivity; [apply (update_csv_columns_prefix m)|apply IH].
Qed.

Lemma observe_all_NoDup (ms : list PyDict.dict) : forall self : Logger F,
  NoDup (csv_columns self) -> NoDup (csv_columns (observe_all ms self)).
Proof.
  induction ms as [|m ms IH]; intros self H; [exact H|].
  simpl. apply IH. now apply update_csv_columns_NoDup.
Qed.

End SchemaFacts.

(** ** The ingestion loop *)

Section LoopFacts.

Import PyStr.

Context {F : Type} `{Arith F} `{FloatParser F}.
Variable K : nat.

Lemma read_blank now raw (self : Logger F) :
  blank (now, raw) = true -> read_serial_data K now raw self = (self, None).
Proof. unfold blank, read_serial_data. simpl. now intros ->. Qed.

Lemma read_nonblank now raw (self : Logger F) :
  blank (now, raw) = false ->
  read_serial_data K now raw self =
  (let parsed := parse_data_line (strip raw) in
   let columns := fst (observe_loop (PyDict.keys parsed) (csv_columns self)) in
   mkLogger columns true
     ((if csv_headers_written self then log_file self
       else log_file self ++ [Header columns])
      ++ [Row (row_values now parsed columns)])
     (stats_loop K parsed (stats self)),
   Some (mkDataPoint now (strip raw) (parse_data_line (strip raw)))).
Proof.
  unfold blank, read_serial_data. simpl. intros ->.
  rewrite update_csv_columns_fst. reflexivity.
Qed.

Lemma run_cons input inputs (self : Logger F) :
  run K (input :: inputs) self =
  run K inputs (fst (read_serial_data K (fst input) (snd input) self)).
Proof. reflexivity. Qed.

Lemma run_app inputs more (self : Logger F) :
  run K (inputs ++ more) self = run K more (run K inputs self).
Proof. unfold run. apply fold_left_app. Qed.

Lemma read_prefix now raw (self : Logger F) :
  csv_columns self `prefix_of`
  csv_columns (fst (read_serial_data K now raw self)).
Proof.
  destruct (blank (now, raw)) eqn:E.
  - now rewrite read_blank.
  - rewrite read_nonblank by assumption. simpl. apply observe_fold_prefix.
Qed.

Lemma read_NoDup now raw (self : Logger F) :
  NoDup (csv_columns self) ->
  NoDup (csv_columns (fst (read_serial_data K now raw self))).
Proof.
  destruct (blank (now, raw)) eqn:E.
  - now rewrite read_blank.
  - rewrite read_nonblank by assumption. simpl. apply observe_fold_NoDup.
Qed.

Lemma run_prefix inputs : forall self : Logger F,
  csv_columns self `prefix_of` csv_columns (run K inputs self).
Proof.
  induction inputs as [|[now raw] inputs IH]; intros self; [reflexivity|].
  rewrite run_cons. etransitivity; [apply (read_prefix now raw)|apply IH].
Qed.

Lemma run_NoDup inputs : forall self : Logger F,
  NoDup (csv_columns self) -> NoDup (csv_columns (run K inputs self)).
Proof.
  induction inputs as [|[now raw] inputs IH]; intros self Hnd; [exact Hnd|].
  rewrite run_cons. apply IH. now apply read_NoDup.
Qed.

(** Once the header is written only data rows follow. *)
Lemma run_after_header inputs : forall self : Logger F,
  csv_headers_written self = true ->
  exists rows,
    log_file (run K inputs self) = log_file self ++ rows
    /\ Forall (fun w => is_header w = false) rows
    /\ csv_headers_written (run K inputs self) = true.
Proof.
  induction inputs as [|[now raw] inputs IH]; intros self Hw.
  - exists []. rewrite app_nil_r. repeat split; [constructor | exact Hw].
  - rewrite run_cons. simpl fst. simpl snd.
    destruct (blank (now, raw)) eqn:E.
    + rewrite read_blank by assumption. now apply IH.
    + rewrite read_nonblank by assumption. simpl fst. rewrite Hw.
      match goal with |- context [run K inputs ?st] =>
        remember st as st' eqn:Est;
        destruct (IH st') as (rows & Hlog & Hrows & Hw'); [now subst st'|]
      end.
      rewrite Hlog, Hw'. subst st'. simpl.
      eexists (_ :: rows). rewrite <- app_assoc. simpl.
      repeat split.
      constructor; [reflexivity | exact Hrows].
Qed.

(** Before the header is written nothing is in the file; the first line
    that is not blank writes it, from the columns it has just observed. *)
Lemma run_before_header inputs : forall self : Logger F,
  csv_headers_written self = false -> log_file self = [] ->
  match List.filter (fun i => negb (blank i)) inputs with
  | [] => log_file (run K inputs self) = []
          /\ csv_headers_written (run K inputs self) = false
  | first :: _ =>
      exists rows,
        log_file (run K inputs self) =
          Header (csv_columns
                    (fst (update_csv_columns
                            (parse_data_line (strip (snd first))) self)))
          :: rows
        /\ Forall (fun w => is_header w = false) rows
  end.
Proof.
  induction inputs as [|[now raw] inputs IH]; intros self Hw Hlog.
  - simpl. now split.
  - rewrite run_cons. simpl fst. simpl snd. simpl List.filter.
    destruct (blank (now, raw)) eqn:E; simpl negb; cbv iota.
    + rewrite read_blank by assumption. now apply IH.
    + rewrite read_nonblank by assumption. simpl fst. rewrite Hw, Hlog.
      match goal with |- context [run K inputs ?st] =>
        remember st as st' eqn:Est;
        destruct (run_after_header inputs st') as (rows & Hl & Hrows & _);
          [now subst st'|]
      end.
      rewrite Hl. subst st'. simpl. eexists. split.
      * rewrite update_csv_columns_fst. reflexivity.
      * constructor; [reflexivity | exact Hrows].
Qed.

Lemma filter_no_header rows :
  Forall (fun w => is_header w = false) rows -> List.filter is_header rows = [].
Proof.
  induction 1 as [|w rows Hw _ IH]; [reflexivity|].
  simpl. now rewrite Hw.
Qed.

Lemma read_header_inv now raw (self : Logger F) :
  header_inv self -> header_inv (fst (read_serial_data K now raw self)).
Proof.
  intros Hinv. destruct (blank (now, raw)) eqn:E.
  - now rewrite read_blank.
  - rewrite read_nonblank by assumption. simpl fst. right. simpl.
    split; [reflexivity|].
    destruct Hinv as [[Hw Hlog]|[Hw (hdr & rows & Hlog & Hpre)]].
    + rewrite Hw, Hlog. simpl. eexists _, _. split; reflexivity.
    + rewrite Hw, Hlog. simpl. eexists hdr, _. split; [reflexivity|].
      etransitivity; [exact Hpre | apply observe_fold_prefix].
Qed.

Lemma run_header_inv inputs : forall self : Logger F,
  header_inv self -> header_inv (run K inputs self).
Proof.
  induction inputs as [|[now raw] inputs IH]; intros self Hinv; [exact Hinv|].
  rewrite run_cons. apply IH. now apply read_header_inv.
Qed.

Lemma init_header_inv : header_inv (@init F).
Proof. left. split; reflexivity. Qed.

(** *** Fields that are not numbers *)

Lemma stats_loop_untouched items : forall (st : gmap string (Statistics F)) key,
  (forall v, (key, v) ∈ items -> py_float v = None) ->
  fold_left (stats_step K) items st !! key = st !! key.
Proof.
  induction items as [|[k v] items IH]; intros st key Hnone; [reflexivity|].
  simpl. rewrite IH.
  - destruct (py_float v) as [x|] eqn:E; [|reflexivity].
    unfold calculate_statistics. apply lookup_insert_ne.
    intros ->. rewrite (Hnone v) in E; [discriminate|]. now left.
  - intros v' Hv'. apply Hnone. now right.
Qed.

Lemma dict_item_unique (d : PyDict.dict) k v v' :
  NoDup (PyDict.keys d) -> (k, v) ∈ d -> (k, v') ∈ d -> v = v'.
Proof.
  induction d as [|[a b] d IH]; intros Hnd Hv Hv'.
  - now apply elem_of_nil in Hv.
  - simpl in Hnd. apply NoDup_cons in Hnd as [Ha Hnd].
    assert (forall w, (a, w) ∈ d -> False) as Hfresh.
    { intros w Hw. apply Ha. unfold PyDict.keys.
      apply list_elem_of_In, in_map_iff. exists (a, w). split; [reflexivity|].
      now apply list_elem_of_In. }
    apply elem_of_cons in Hv as [Hv|Hv];
      apply elem_of_cons in Hv' as [Hv'|Hv']; simplify_eq.
    + reflexivity.
    + now apply Hfresh in Hv'.
    + now apply Hfresh in Hv.
    + now apply IH.
Qed.

Lemma dict_get_item (d : PyDict.dict) k v default :
  NoDup (PyDict.keys d) -> (k, v) ∈ d -> PyDict.get k default d = v.
Proof.
  induction d as [|[a b] d IH]; intros Hnd Hv.
  - now apply elem_of_nil in Hv.
  - simpl. destruct (String.eqb_spec a k) as [->|Hne].
    + eapply dict_item_unique; [exact Hnd|now left|exact Hv].
    + simpl in Hnd. apply NoDup_cons in Hnd as [_ Hnd].
      apply elem_of_cons in Hv as [Hv|Hv]; [congruence|].
      now apply IH.
Qed.

Lemma dict_get_absent (d : PyDict.dict) k default :
  k ∉ PyDict.keys d -> PyDict.get k default d = default.
Proof.
  induction d as [|[a b] d IH]; intros Hk; [reflexivity|].
  simpl. destruct (String.eqb_spec a k) as [->|Hne].
  - exfalso. apply Hk. now left.
  - apply IH. intros Hin. apply Hk. now right.
Qed.

Lemma item_key (d : PyDict.dict) k v : (k, v) ∈ d -> k ∈ PyDict.keys d.
Proof.
  intros Hv. apply list_elem_of_In, in_map_iff.
  exists (k, v). split; [reflexivity | now apply list_elem_of_In].
Qed.

Lemma row_values_lookup now parsed columns i column :
  columns !! i = Some column ->
  row_values now parsed columns !! i =
  Some (if String.eqb column "timestamp" then now
        else PyDict.get column "" parsed).
Proof.
  revert i. induction columns as [|c columns IH]; intros [|i]; simpl;
    try discriminate.
  - now intros [= ->].
  - apply IH.
Qed.

Lemma row_values_length now parsed columns :
  length (row_values now parsed columns) = length columns.
Proof. apply length_map. Qed.

End LoopFacts.

(** ** The schema and the data log: C2, C3, C4, C5, C8 *)

(** C2, as stated, fails: observing a mapping with the new name S grows the
    schema, yet the call evaluates to [None], which is falsy; the flag
    [new_columns] is computed and dropped. *)
Lemma C2_observe_returns_None :
  let self := @init float in
  let result := update_csv_columns [("S", "5.0")] self in
  csv_columns (fst result) = ["timestamp"; "S"]
  /\ csv_columns (fst result) <> csv_columns self
  /\ snd result = PyNone
  /\ truthy (snd result) = false.
Proof. repeat split. discriminate. Qed.

(** C2, amended. For every field mapping (a dict, so its names are
    distinct), [update_csv_columns] appends to the columns exactly the names
    of the mapping that were not yet present, in the order of the mapping. It
    tracks growth in its local flag [new_columns], which is true exactly when
    the columns changed, but the call itself evaluates to [None]. *)
Theorem C2_observe_appends_new_names {F : Type}
  (parsed : PyDict.dict) (self : Logger F) :
  NoDup (PyDict.keys parsed) ->
  csv_columns (fst (update_csv_columns parsed self)) =
    csv_columns self
    ++ List.filter (fun k => negb (PyStr.mem k (csv_columns self)))
         (PyDict.keys parsed)
  /\ (snd (observe_loop (PyDict.keys parsed) (csv_columns self)) = true <->
      csv_columns (fst (update_csv_columns parsed self)) <> csv_columns self)
  /\ snd (update_csv_columns parsed self) = PyNone.
Proof.
  intros Hnd. rewrite update_csv_columns_fst. simpl.
  unfold observe_loop. rewrite observe_fold_columns by assumption.
  rewrite observe_fold_flag. simpl. fold (new_names (csv_columns self) (PyDict.keys parsed)).
  repeat split.
  - intros Hex Heq.
    destruct (new_names (csv_columns self) (PyDict.keys parsed)) eqn:E.
    + apply new_names_nil_iff in E. congruence.
    + apply (f_equal length) in Heq. rewrite length_app in Heq.
      simpl in Heq. lia.
  - intros Hne.
    destruct (existsb _ (PyDict.keys parsed)) eqn:E; [reflexivity|].
    apply new_names_nil_iff in E. rewrite E, app_nil_r in Hne. congruence.
  - unfold update_csv_columns.
    now destruct (observe_loop (PyDict.keys parsed) (csv_columns self)).
Qed.

(** The columns after observing T, S, H when timestamp and S are known. *)
Lemma C2_observe_appends_new_names_witness :
  csv_columns
    (fst (update_csv_columns [("T", "20.0"); ("S", "5.0"); ("H", "50.0")]
            (@mkLogger float ["timestamp"; "S"] true [] ∅)))
  = ["timestamp"; "S"; "T"; "H"].
Proof.
  assert (NoDup (PyDict.keys [("T", "20.0"); ("S", "5.0"); ("H", "50.0")])) as Hnd.
  { simpl. repeat (apply NoDup_cons_2; [compute_done|]). apply NoDup_nil_2. }
  exact (proj1 (C2_observe_appends_new_names
                  [("T", "20.0"); ("S", "5.0"); ("H", "50.0")]
                  (@mkLogger float ["timestamp"; "S"] true [] ∅) Hnd)).
Defined.

Lemma prefix_head {A : Type} (x : A) (l : list A) :
  [x] `prefix_of` l -> head l = Some x.
Proof. intros [k ->]. reflexivity. Qed.

(** C5. The schema starts as the single column [timestamp] and only grows
    at its end: for every sequence of observed field mappings, and for every
    sequence of input lines, the columns after part of the sequence are a
    prefix of the columns after more of it; the first column stays
    [timestamp] and no name is repeated. *)
Theorem C5_schema_append_only {F : Type} `{Arith F} `{FloatParser F}
  (K : nat) (ms more : list PyDict.dict) (inputs later : list (string * string)) :
  csv_columns (@init F) = ["timestamp"]
  /\ head (csv_columns (observe_all ms (@init F))) = Some "timestamp"
  /\ csv_columns (observe_all ms (@init F))
       `prefix_of` csv_columns (observe_all (ms ++ more) (@init F))
  /\ NoDup (csv_columns (observe_all ms (@init F)))
  /\ head (csv_columns (run K inputs init)) = Some "timestamp"
  /\ csv_columns (run K inputs init)
       `prefix_of` csv_columns (run K (inputs ++ later) init)
  /\ NoDup (csv_columns (run K inputs init)).
Proof.
  assert (NoDup (csv_columns (@init F))) as Hnd by apply NoDup_singleton.
  repeat split.
  - apply prefix_head. apply (observe_all_prefix ms init).
  - unfold observe_all at 2. rewrite fold_left_app.
    apply (observe_all_prefix more).
  - now apply observe_all_NoDup.
  - apply prefix_head. apply (run_prefix K inputs init).
  - rewrite run_app. apply run_prefix.
  - now apply run_NoDup.
Qed.

(** C3. In every session the data log holds exactly one header line: it is
    the first thing written, by the first call that has a line to write, and
    it lists the columns as they are right after that line was observed;
    everything written afterwards is a data row, however the schema grows.
    (A session in which every line is blank writes nothing.) *)
Theorem C3_header_written_once {F : Type} `{Arith F} `{FloatParser F}
  (K : nat) (inputs : list (string * string)) :
  let final := run K inputs (@init F) in
  match List.filter (fun i => negb (blank i)) inputs with
  | [] => log_file final = []
  | first :: _ =>
      exists rows,
        log_file final =
          Header (csv_columns
                    (fst (update_csv_columns
                            (parse_data_line (PyStr.strip (snd first)))
                            (@init F))))
          :: rows
        /\ Forall (fun w => is_header w = false) rows
        /\ length (List.filter is_header (log_file final)) = 1%nat
  end.
Proof.
  intros final. subst final.
  pose proof (run_before_header K inputs (@init F) eq_refl eq_refl) as Hrun.
  destruct (List.filter (fun i => negb (blank i)) inputs) as [|first rest].
  - apply Hrun.
  - destruct Hrun as (rows & Hlog & Hrows).
    exists rows. repeat split; [exact Hlog | exact Hrows |].
    rewrite Hlog. simpl. now rewrite filter_no_header.
Qed.

(** C4. The row written for a line has one field per column of the schema
    as it is at that moment: the clock reading under [timestamp], the value
    of the field under its name, the empty string where the line has no such
    field. The header is a prefix of that schema, so once the schema has grown
    past the header the row has strictly more fields than the header. On the
    three lines of the example the file is the header timestamp,S,T and three
    rows, the second and third with a trailing H value. *)
Theorem C4_rows_follow_current_schema {F : Type} `{Arith F} `{FloatParser F}
  (K : nat) (pre : list (string * string)) (now raw : string) :
  blank (now, raw) = false ->
  let after := run K (pre ++ [(now, raw)]) (@init F) in
  let parsed := parse_data_line (PyStr.strip raw) in
  let row := row_values now parsed (csv_columns after) in
  (exists hdr rows,
      log_file after = Header hdr :: rows ++ [Row row]
      /\ hdr `prefix_of` csv_columns after
      /\ (csv_columns after <> hdr -> (length hdr < length row)%nat))
  /\ length row = length (csv_columns after)
  /\ (forall i column, csv_columns after !! i = Some column ->
        row !! i = Some (if String.eqb column "timestamp" then now
                         else PyDict.get column "" parsed))
  /\ (forall column, column ∉ PyDict.keys parsed ->
        PyDict.get column "" parsed = "")
  /\ map fields
       (log_file (@run float float_arith 150 decimal_float session3 init))
     = [["timestamp"; "S"; "T"];
        ["t1"; "5.0"; "20.0"];
        ["t2"; "6.0"; "21.0"; "50.0"];
        ["t3"; "7.0"; "22.0"; "51.0"]]
  /\ map render
       (log_file (@run float float_arith 150 decimal_float session3 init))
     = map (fun text => (text ++ newline)%string)
         ["timestamp,S,T"; "t1,5.0,20.0"; "t2,6.0,21.0,50.0";
          "t3,7.0,22.0,51.0"].
Proof.
  intros Hnb after parsed row.
  assert (csv_columns after =
          fst (observe_loop (PyDict.keys parsed)
                 (csv_columns (run K pre (@init F))))) as Hcols.
  { subst after. rewrite run_app. simpl. now rewrite read_nonblank. }
  split; [|split; [|split; [|split; [|split]]]].
  - pose proof (run_header_inv K pre _ init_header_inv) as Hinv.
    subst after row. rewrite run_app in *. simpl run in *.
    rewrite read_nonblank in * by assumption. simpl fst in *.
    simpl csv_columns in *. simpl log_file.
    destruct Hinv as [[Hw Hlog]|[Hw (hdr & rows & Hlog & Hpre)]];
      rewrite Hw, Hlog.
    + eexists _, []. simpl. split; [reflexivity|]. split; [reflexivity|].
      congruence.
    + exists hdr, rows. split; [reflexivity|].
      assert (hdr `prefix_of`
                fst (observe_loop (PyDict.keys (parse_data_line (PyStr.strip raw)))
                       (csv_columns (run K pre init)))) as Hpre'.
      { etransitivity; [exact Hpre | apply observe_fold_prefix]. }
      split; [exact Hpre'|].
      intros Hne. rewrite row_values_length.
      destruct Hpre' as [ext Hext]. rewrite Hext in *.
      destruct ext as [|e ext]; [now rewrite app_nil_r in Hne|].
      rewrite length_app. simpl. lia.
  - apply row_values_length.
  - intros i column Hi. now apply row_values_lookup.
  - intros column Hc. now apply dict_get_absent.
  - vm_compute. reflexivity.
  - vm_compute. reflexivity.
Qed.

(** The second line of the example: as many values as columns. *)
Lemma C4_rows_follow_current_schema_witness :
  length (row_values "t2" (parse_data_line "S 6.0, T 21.0, H 50.0")
            (csv_columns
               (@run float float_arith 150 decimal_float
                  ([("t1", "S 5.0, T 20.0")] ++ [("t2", "S 6.0, T 21.0, H 50.0")])
                  init)))
  = length (csv_columns
              (@run float float_arith 150 decimal_float
                 ([("t1", "S 5.0, T 20.0")] ++ [("t2", "S 6.0, T 21.0, H 50.0")])
                 init)).
Proof.
  exact (proj1 (proj2
    (@C4_rows_follow_current_schema float float_arith decimal_float 150
       [("t1", "S 5.0, T 20.0")] "t2" "S 6.0, T 21.0, H 50.0" eq_refl))).
Defined.

(** C8, as stated, fails for a field named [timestamp]: its value is not a
    number, the statistics are not touched, but the row carries the clock
    reading in the [timestamp] column and the raw value "abc" is written
    nowhere. *)
Lemma C8_timestamp_field_not_written :
  let result :=
    @read_serial_data float float_arith 150 decimal_float
      "t1" "timestamp abc, S 5.0" init in
  parse_data_line "timestamp abc, S 5.0" = [("timestamp", "abc"); ("S", "5.0")]
  /\ @py_float float decimal_float "abc" = None
  /\ stats (fst result) !! "timestamp" = None
  /\ log_file (fst result) = [Header ["timestamp"; "S"]; Row ["t1"; "5.0"]]
  /\ "abc" ∉ ["t1"; "5.0"].
Proof.
  repeat split; try (vm_compute; reflexivity).
  intros Hin. repeat (apply elem_of_cons in Hin as [Hin|Hin]; [discriminate|]).
  now apply elem_of_nil in Hin.
Qed.

(** ** StatisticsEngine *)

Section WindowFacts.

Context {A : Type}.
Variable K : nat.

Lemma deque_append_drop (q : list A) (x : A) :
  (length q <= K)%nat ->
  deque_append K q x = drop (length (q ++ [x]) - K) (q ++ [x]).
Proof.
  intros Hq. unfold deque_append. rewrite length_app. simpl length.
  destruct (Nat.ltb_spec K (length q + 1)) as [Hlt|Hge].
  - replace (length q + 1 - K)%nat with 1%nat by lia.
    destruct (q ++ [x]); reflexivity.
  - replace (length q + 1 - K)%nat with 0%nat by lia. reflexivity.
Qed.

Lemma deque_append_length (q : list A) (x : A) :
  (length q <= K)%nat -> (length (deque_append K q x) <= K)%nat.
Proof.
  intros Hq. rewrite deque_append_drop by assumption.
  rewrite length_drop, length_app. simpl. lia.
Qed.

Lemma deque_append_nonempty (q : list A) (x : A) :
  (0 < K)%nat -> (length q <= K)%nat -> deque_append K q x <> [].
Proof.
  intros HK Hq Hnil. apply (f_equal length) in Hnil.
  rewrite deque_append_drop in Hnil by assumption.
  rewrite length_drop, length_app in Hnil. simpl in Hnil. lia.
Qed.

Lemma deque_append_elem (q : list A) (x y : A) :
  y ∈ deque_append K q x -> y ∈ q \/ y = x.
Proof.
  unfold deque_append. intros Hy.
  assert (y ∈ q ++ [x]) as Hin.
  { destruct (K <? length (q ++ [x]))%nat; [|exact Hy].
    destruct (q ++ [x]); [exact Hy | now right]. }
  apply elem_of_app in Hin as [Hin|Hin]; [now left|].
  right. now apply list_elem_of_singleton.
Qed.

(** Appending a stream to a window keeps its last [K] elements. *)
Lemma deque_fold_drop (vs : list A) : forall q : list A,
  (length q <= K)%nat ->
  fold_left (deque_append K) vs q = drop (length (q ++ vs) - K) (q ++ vs).
Proof.
  induction vs as [|v vs IH]; intros q Hq.
  - simpl. rewrite app_nil_r.
    replace (length q - K)%nat with 0%nat by lia. reflexivity.
  - simpl fold_left. rewrite IH by now apply deque_append_length.
    rewrite deque_append_drop by assumption.
    replace (q ++ v :: vs) with ((q ++ [v]) ++ vs) by now rewrite <- app_assoc.
    set (a := q ++ [v]).
    assert (length a = S (length q)) as Ha
      by (subst a; rewrite length_app; simpl; lia).
    rewrite !length_app, length_drop.
    destruct (Nat.le_gt_cases (length a) K) as [Hle|Hgt].
    + replace (length a - K)%nat with 0%nat by lia. simpl drop at 2.
      f_equal. lia.
    + replace (length a - K)%nat with 1%nat by lia.
      replace (length a + length vs - K)%nat with (1 + length vs)%nat by lia.
      replace (length a - 1 + length vs - K)%nat with (length vs) by lia.
      rewrite <- drop_drop. f_equal.
      destruct a; [simpl in Ha; lia | reflexivity].
Qed.

End WindowFacts.

Section EngineFacts.

Context {F : Type} `{Arith F}.
Variable K : nat.

Lemma update_stat_values (s : Statistics F) (v : F) :
  values (update_stat K s v) = deque_append K (values s) v.
Proof. unfold update_stat. now destruct (S (count s) =? 1)%nat. Qed.

Lemma update_stat_count (s : Statistics F) (v : F) :
  count (update_stat K s v) = S (count s).
Proof. unfold update_stat. now destruct (S (count s) =? 1)%nat. Qed.

Lemma update_stat_first (s : Statistics F) (v : F) :
  count s = 0%nat ->
  update_stat K s v =
  mkStatistics v v v v zero 1%nat (deque_append K (values s) v).
Proof. intros E. unfold update_stat. rewrite E. reflexivity. Qed.

Lemma update_stat_later (s : Statistics F) (v : F) :
  (0 < count s)%nat ->
  update_stat K s v =
  let values' := deque_append K (values s) v in
  let mean' := window_mean values' in
  mkStatistics (py_min (min_val s) v) (py_max (max_val s) v) mean' v
    (if (1 <? length values')%nat
     then fpow_half (window_variance mean' values')
     else std_dev s)
    (S (count s)) values'.
Proof.
  intros Hc. unfold update_stat.
  destruct (Nat.eqb_spec (S (count s)) 1); [lia | reflexivity].
Qed.

Lemma fold_update_values (vs : list F) : forall s : Statistics F,
  values (fold_left (update_stat K) vs s) =
  fold_left (deque_append K) vs (values s).
Proof.
  induction vs as [|v vs IH]; intros s; [reflexivity|].
  simpl. now rewrite IH, update_stat_values.
Qed.

Lemma fold_update_count (vs : list F) : forall s : Statistics F,
  count (fold_left (update_stat K) vs s) = (count s + length vs)%nat.
Proof.
  induction vs as [|v vs IH]; intros s; [simpl; lia|].
  simpl. rewrite IH, update_stat_count. lia.
Qed.

(** After at least one earlier observation, the mean and the standard
    deviation are those of the window. *)
Lemma fold_update_mean (vs : list F) : forall s : Statistics F,
  (0 < count s)%nat -> vs <> [] ->
  let s' := fold_left (update_stat K) vs s in
  mean_val s' = window_mean (values s')
  /\ ((1 < length (values s'))%nat ->
      std_dev s' = fpow_half (window_variance (mean_val s') (values s'))).
Proof.
  induction vs as [|v vs IH]; intros s Hc Hne; [congruence|].
  destruct vs as [|v' vs].
  - simpl. rewrite update_stat_later by assumption. simpl.
    split; [reflexivity|]. intros Hlen.
    apply Nat.ltb_lt in Hlen. now rewrite Hlen.
  - change (fold_left (update_stat K) (v :: v' :: vs) s)
      with (fold_left (update_stat K) (v' :: vs) (update_stat K s v)).
    apply IH; [rewrite update_stat_count; lia | discriminate].
Qed.

Lemma feed_lookup key (vs : list F) :
  forall (st : gmap string (Statistics F)) s,
  st !! key = Some s ->
  feed K key vs st !! key = Some (fold_left (update_stat K) vs s).
Proof.
  induction vs as [|v vs IH]; intros st s Hs; [exact Hs|].
  simpl. apply IH. unfold calculate_statistics.
  rewrite lookup_insert_eq, Hs. reflexivity.
Qed.

Lemma feed_lookup_fresh key (v : F) (vs : list F) :
  feed K key (v :: vs) ∅ !! key =
  Some (fold_left (update_stat K) (v :: vs) new_Statistics).
Proof.
  simpl. erewrite feed_lookup; [reflexivity|].
  unfold calculate_statistics. now rewrite lookup_insert_eq, lookup_empty.
Qed.

(** What a parameter's entry holds after more than one observation. *)
Lemma feed_summary key (vs : list F) :
  (1 < length vs)%nat ->
  exists s,
    feed K key vs ∅ !! key = Some s
    /\ count s = length vs
    /\ values s = drop (length vs - K) vs
    /\ mean_val s = window_mean (values s)
    /\ ((1 < length (values s))%nat ->
        std_dev s = fpow_half (window_variance (mean_val s) (values s))).
Proof.
  intros Hlen.
  destruct vs as [|v [|v' vs]]; [simpl in Hlen; lia | simpl in Hlen; lia |].
  eexists. split; [apply feed_lookup_fresh|].
  set (s1 := update_stat K new_Statistics v).
  assert (count s1 = 1%nat) as Hc1 by reflexivity.
  change (fold_left (update_stat K) (v :: v' :: vs) new_Statistics)
    with (fold_left (update_stat K) (v' :: vs) s1).
  split; [rewrite fold_update_count, Hc1; simpl; lia|].
  split.
  - rewrite fold_update_values.
    change (fold_left (deque_append K) (v' :: vs) (values s1))
      with (fold_left (deque_append K) (v :: v' :: vs) []).
    rewrite deque_fold_drop by (simpl; lia). reflexivity.
  - apply fold_update_mean; [lia | discriminate].
Qed.

End EngineFacts.

Section PiFacts.

Context {F : Type} `{Arith F}.

Lemma pi_feed_lookup param (vs : list F) :
  forall (ps : gmap string (Pi.ParamStats F)) p,
  ps !! param = Some p ->
  Pi.feed param vs ps !! param = Some (Pi.feed_entry vs p).
Proof.
  induction vs as [|v vs IH]; intros ps p Hp; [exact Hp|].
  simpl. apply IH. now rewrite lookup_insert_eq, Hp.
Qed.

Lemma pi_feed_lookup_fresh param (v : F) (vs : list F) :
  Pi.feed param (v :: vs) ∅ !! param =
  Some (Pi.feed_entry vs (Pi.update_param v None)).
Proof.
  simpl. erewrite pi_feed_lookup; [reflexivity|].
  now rewrite lookup_insert_eq, lookup_empty.
Qed.

Lemma pi_feed_entry_fields (vs : list F) : forall p : Pi.ParamStats F,
  Pi.p_values (Pi.feed_entry vs p) = fold_left (deque_append Pi.maxlen) vs (Pi.p_values p)
  /\ Pi.p_count (Pi.feed_entry vs p) = (Pi.p_count p + length vs)%nat
  /\ Pi.p_sum (Pi.feed_entry vs p) = fold_left fadd vs (Pi.p_sum p).
Proof.
  induction vs as [|v vs IH]; intros p.
  - simpl. repeat split. lia.
  - change (Pi.feed_entry (v :: vs) p) with (Pi.feed_entry vs (Pi.update_param v (Some p))).
    destruct (IH (Pi.update_param v (Some p))) as (-> & -> & ->).
    simpl. repeat split. lia.
Qed.

(** One numeric field going through [update_statistics] is one
    [update_param]; a field that is not a number changes nothing. *)
Lemma pi_update_statistics_single `{FloatParser F} param value_str
  (ps : gmap string (Pi.ParamStats F)) :
  Pi.update_statistics [(param, value_str)] ps =
  match py_float value_str with
  | Some v => <[param := Pi.update_param v (ps !! param)]> ps
  | None => ps
  end.
Proof. reflexivity. Qed.

End PiFacts.

Section RealFacts.

Local Open Scope R_scope.

Variable K : nat.
Hypothesis K_pos : (0 < K)%nat.

Lemma Rltb_true x y : Rltb x y = true <-> x < y.
Proof. unfold Rltb. destruct (Rlt_dec x y); split; intros; try lra; congruence. Qed.

Lemma py_min_real (a b : R) : py_min a b <= a /\ py_min a b <= b.
Proof.
  unfold py_min. simpl. unfold Rltb. destruct (Rlt_dec b a); lra.
Qed.

Lemma py_max_real (a b : R) : a <= py_max a b /\ b <= py_max a b.
Proof.
  unfold py_max. simpl. unfold Rltb. destruct (Rlt_dec a b); lra.
Qed.

Lemma sum_real_bounds (a b : R) (l : list R) :
  Forall (fun x => a <= x <= b) l ->
  forall acc,
    acc + INR (length l) * a <= fold_left Rplus l acc <= acc + INR (length l) * b.
Proof.
  induction 1 as [|x l Hx _ IH]; intros acc.
  - simpl. lra.
  - simpl fold_left. specialize (IH (acc + x)).
    change (length (x :: l)) with (S (length l)). rewrite S_INR.
    rewrite !Rmult_plus_distr_r. lra.
Qed.

Lemma py_len_real (l : list R) : py_len l = INR (length l).
Proof. unfold py_len. simpl. now rewrite INR_IZR_INZ. Qed.

Lemma py_sum_real (l : list R) : py_sum l = fold_left Rplus l 0.
Proof. reflexivity. Qed.

Lemma window_mean_real (l : list R) :
  window_mean l = fold_left Rplus l 0 / INR (length l).
Proof. unfold window_mean. now rewrite py_len_real, py_sum_real. Qed.

(** The mean of a non-empty list lies between any bounds of its elements. *)
Lemma window_mean_bounds (a b : R) (l : list R) :
  l <> [] -> Forall (fun x => a <= x <= b) l ->
  a <= window_mean l <= b.
Proof.
  intros Hne Hall. rewrite window_mean_real.
  pose proof (sum_real_bounds a b l Hall 0) as Hs.
  assert (0 < INR (length l)) as Hn.
  { apply lt_0_INR. destruct l; [congruence | simpl; lia]. }
  set (n := INR (length l)) in *. set (total := fold_left Rplus l 0) in *.
  split; apply Rmult_le_reg_r with n; try exact Hn;
    unfold Rdiv; rewrite ?Rmult_assoc, Rinv_l by lra; lra.
Qed.

Lemma stat_inv_first (v : R) : stat_inv K (update_stat K new_Statistics v).
Proof.
  rewrite update_stat_first by reflexivity. unfold stat_inv. simpl.
  assert (deque_append K [] v = [v]) as ->.
  { unfold deque_append. simpl. destruct K; [lia | reflexivity]. }
  repeat split; try lra; try lia; try discriminate.
  - simpl. lia.
  - constructor; [lra | constructor].
Qed.

Lemma stat_inv_later (s : Statistics R) (v : R) :
  stat_inv K s -> stat_inv K (update_stat K s v).
Proof.
  intros (Hc & Hne & Hlen & Hall & Hmean).
  rewrite update_stat_later by assumption. unfold stat_inv.
  cbn [count values min_val max_val mean_val].
  pose proof (py_min_real (min_val s) v) as [Hm1 Hm2].
  pose proof (py_max_real (max_val s) v) as [HM1 HM2].
  assert (Forall (fun x => py_min (min_val s) v <= x <= py_max (max_val s) v)
            (deque_append K (values s) v)) as Hall'.
  { apply Forall_forall. intros x Hx.
    apply deque_append_elem in Hx as [Hx| ->]; [|lra].
    rewrite Forall_forall in Hall. specialize (Hall x Hx). lra. }
  assert (deque_append K (values s) v <> []) as Hne'
    by now apply deque_append_nonempty.
  split; [lia|]. split; [exact Hne'|].
  split; [now apply deque_append_length|].
  split; [exact Hall'|]. now apply window_mean_bounds.
Qed.

Lemma stat_inv_update (o : option (Statistics R)) (v : R) :
  (forall s, o = Some s -> stat_inv K s) ->
  stat_inv K (update_stat K (default new_Statistics o) v).
Proof.
  intros Ho. destruct o as [s|]; simpl.
  - apply stat_inv_later. now apply Ho.
  - apply stat_inv_first.
Qed.

Lemma stat_inv_map (updates : list (string * R)) :
  forall st : gmap string (Statistics R),
  map_Forall (fun _ s => stat_inv K s) st ->
  map_Forall (fun _ s => stat_inv K s)
    (fold_left (fun st kv => calculate_statistics K (fst kv) (snd kv) st)
       updates st).
Proof.
  induction updates as [|[k v] updates IH]; intros st Hst; [exact Hst|].
  simpl. apply IH. unfold calculate_statistics.
  apply map_Forall_insert_2; [|exact Hst].
  apply stat_inv_update. intros s Hs. exact (Hst k s Hs).
Qed.

(** *** A constant stream *)

Lemma fold_left_Rplus_repeat (c : R) (m : nat) : forall acc,
  fold_left Rplus (repeat c m) acc = acc + INR m * c.
Proof.
  induction m as [|m IH]; intros acc.
  - simpl. lra.
  - simpl fold_left. rewrite IH, S_INR. lra.
Qed.

Lemma window_mean_repeat (c : R) (m : nat) :
  (0 < m)%nat -> window_mean (repeat c m) = c.
Proof.
  intros Hm. rewrite window_mean_real, fold_left_Rplus_repeat, repeat_length.
  assert (0 < INR m) by now apply lt_0_INR.
  field. lra.
Qed.

Lemma window_variance_repeat (c : R) (m : nat) :
  (0 < m)%nat -> window_variance c (repeat c m) = 0.
Proof.
  intros Hm. unfold window_variance. rewrite py_len_real, repeat_length.
  rewrite map_repeat, py_sum_real. simpl fpow2. simpl fsub.
  rewrite fold_left_Rplus_repeat.
  assert (0 < INR m) by now apply lt_0_INR.
  simpl fdiv. field. lra.
Qed.

Lemma deque_append_repeat (c : R) (m : nat) :
  (0 < m <= K)%nat ->
  exists m', (0 < m' <= K)%nat /\ deque_append K (repeat c m) c = repeat c m'.
Proof.
  intros Hm. unfold deque_append.
  replace (repeat c m ++ [c]) with (repeat c (S m)) by apply repeat_cons.
  rewrite repeat_length.
  destruct (Nat.ltb_spec K (S m)).
  - exists m. split; [lia | reflexivity].
  - exists (S m). split; [lia | reflexivity].
Qed.

Lemma constant_inv_first (c : R) :
  constant_inv K c (update_stat K new_Statistics c).
Proof.
  rewrite update_stat_first by reflexivity. unfold constant_inv. simpl.
  repeat split; try lia.
  exists 1%nat. split; [lia|].
  unfold deque_append. simpl. destruct K; [lia | reflexivity].
Qed.

Lemma constant_inv_later (c : R) (s : Statistics R) :
  constant_inv K c s -> constant_inv K c (update_stat K s c).
Proof.
  intros (Hc & (m & Hm & Hv) & Hmean & Hstd).
  rewrite update_stat_later by assumption. unfold constant_inv.
  cbn [count values mean_val std_dev].
  rewrite Hv. destruct (deque_append_repeat c m Hm) as (m' & Hm' & ->).
  rewrite window_mean_repeat by lia.
  repeat split; try lia.
  - exists m'. split; [lia | reflexivity].
  - destruct (1 <? length (repeat c m'))%nat; [|exact Hstd].
    rewrite window_variance_repeat by lia. simpl. apply sqrt_0.
Qed.

Lemma constant_inv_fold (c : R) (n : nat) : forall s,
  constant_inv K c s ->
  constant_inv K c (fold_left (update_stat K) (repeat c n) s).
Proof.
  induction n as [|n IH]; intros s Hs; [exact Hs|].
  simpl. apply IH. now apply constant_inv_later.
Qed.

Lemma py_sum_fold_right (l : list R) : py_sum l = fold_right Rplus 0 l.
Proof. rewrite py_sum_real. apply fold_symmetric; intros; lra. Qed.

End RealFacts.

(** ** The windowed statistics: C1, C9, C10 *)

(** C1, as stated, fails on the Raspberry Pi logger. After 101 records
    whose field S is "1", ..., "101" its window for S holds the last 100
    values, 2 to 101, but [save_statistics] reports the mean 51 of all 101 values, not the mean
    51.5 of the window, and takes the standard deviation of the window around
    that all-time mean. *)
Lemma C1_pi_mean_is_cumulative :
  let mappings :=
    map (fun n : nat => [("S", pretty n)] : PyDict.dict) (seq 1 101) in
  let parameter_stats :=
    fold_left
      (fun ps d => @Pi.update_statistics float float_arith decimal_float d ps)
      mappings ∅ in
  exists p mean std_dev,
    parameter_stats !! "S" = Some p
    /\ Pi.p_values p = map (fun n => float_of_Z (Z.of_nat n)) (seq 2 100)
    /\ Pi.save_statistics parameter_stats !! "S"
       = Some (1%float, 101%float, mean, std_dev, 101%nat)
    /\ mean = 51%float
    /\ window_mean (Pi.p_values p) = 51.5%float
    /\ PrimFloat.eqb mean (window_mean (Pi.p_values p)) = false
    /\ PrimFloat.eqb std_dev
         (fpow_half (window_variance (window_mean (Pi.p_values p))
                       (Pi.p_values p))) = false.
Proof.
  eexists _, _, _. split; [vm_compute; reflexivity|].
  split; [vm_compute; reflexivity|].
  split; [vm_compute; reflexivity|].
  repeat split; vm_compute; reflexivity.
Qed.

(** C9, as stated, fails in the arithmetic the program runs on. For the
    constant stream 0.1, 0.1, 0.1 (the double nearest to 0.1, which is what
    [float] makes of "0.1") the sum 0.30000000000000004 divided by 3 rounds
    to 0.10000000000000002, not to the constant, and the standard deviation
    comes out as 2^-56, about 1.39e-17, not 0. Python's compensated [sum]
    gives the same result. *)
Lemma C9_constant_stream_in_binary64 :
  let c := 0x1.999999999999ap-4%float in
  @py_float float (@decimal_float float float_arith) "0.1" = Some c
  /\ (exists s,
        @feed float float_arith 150 "S" [c; c; c] ∅ !! "S" = Some s
        /\ stats (@run float float_arith 150 decimal_float
                    [("t1", "S 0.1"); ("t2", "S 0.1"); ("t3", "S 0.1")] init)
             !! "S" = Some s
        /\ mean_val s = 0x1.999999999999bp-4%float
        /\ std_dev s = 0x1p-56%float
        /\ PrimFloat.eqb (std_dev s) 0 = false)
  /\ (exists s,
        @feed float float_arith_compensated 150 "S" [c; c; c] ∅ !! "S"
          = Some s
        /\ std_dev s = 0x1p-56%float
        /\ PrimFloat.eqb (std_dev s) 0 = false).
Proof.
  split; [vm_compute; reflexivity|].
  split; eexists; (split; [vm_compute; reflexivity|]);
    repeat split; vm_compute; reflexivity.
Qed.

(** C10. Under exact arithmetic, after every sequence of statistics updates
    (any parameters, any values, window capacity at least 1) every parameter
    that has been observed has [min_val <= mean_val <= max_val]; indeed every
    value of its window lies between [min_val] and [max_val]. *)
Theorem C10_mean_between_min_and_max
  (K : nat) (updates : list (string * R)) (key : string) (s : Statistics R) :
  (0 < K)%nat ->
  fold_left (fun st kv => calculate_statistics K (fst kv) (snd kv) st)
    updates ∅ !! key = Some s ->
  (min_val s <= mean_val s <= max_val s)%R
  /\ Forall (fun x => (min_val s <= x <= max_val s)%R) (values s).
Proof.
  intros HK Hs.
  pose proof (stat_inv_map K HK updates ∅ (map_Forall_empty _)) as Hall.
  destruct (Hall key s Hs) as (_ & _ & _ & Hvals & Hmean).
  split; assumption.
Qed.

(** The values 5, 7, 6 of S, interleaved with a value of T. *)
Lemma C10_mean_between_min_and_max_witness :
  let s := fold_left (update_stat 150) [5%R; 7%R; 6%R] new_Statistics in
  (min_val s <= mean_val s <= max_val s)%R.
Proof.
  refine (proj1 (C10_mean_between_min_and_max 150
                   [("S", 5%R); ("T", 1%R); ("S", 7%R); ("S", 6%R)] "S" _ _ _)).
  - lia.
  - reflexivity.
Defined.

(** The ordering of C10 is a fact of exact arithmetic only: in binary64 the
    mean of the window 0.1, 0.1, 0.1 rounds to 0.10000000000000002, above the
    maximum 0.1. *)
Remark float_mean_can_exceed_max :
  let c := 0x1.999999999999ap-4%float in
  exists s,
    @feed float float_arith 150 "S" [c; c; c] ∅ !! "S" = Some s
    /\ max_val s = c
    /\ PrimFloat.ltb (max_val s) (mean_val s) = true.
Proof. eexists. repeat split; vm_compute; reflexivity. Qed.

(** ** Further properties of the specification (section 8) *)

Lemma observe_fold_known keys : forall columns flag,
  (forall k, k ∈ keys -> k ∈ columns) ->
  fold_left observe_key keys (columns, flag) = (columns, flag).
Proof.
  induction keys as [|k keys IH]; intros columns flag Hall; [reflexivity|].
  simpl. assert (PyStr.mem k columns = true) as ->.
  { apply mem_true_iff, Hall. now left. }
  simpl. apply IH. intros x Hx. apply Hall. now right.
Qed.

(** X1. Observing the same field mapping a second time changes nothing: not
    the columns, and not the file either, the header being written by
    then. *)
Theorem observe_is_idempotent {F : Type} (parsed : PyDict.dict) (self : Logger F) :
  fst (update_csv_columns parsed (fst (update_csv_columns parsed self)))
  = fst (update_csv_columns parsed self).
Proof.
  rewrite (update_csv_columns_fst parsed (fst (update_csv_columns parsed self))).
  rewrite update_csv_columns_fst. simpl.
  unfold observe_loop at 1 3.
  rewrite observe_fold_known; [reflexivity|].
  intros k Hk. apply observe_fold_covers. now right.
Qed.

(** Example. The end-to-end example: after the lines "S 5.0, T 20.0",
    "S 6.0, T 21.0, H 50.0" and "S 7.0, T 22.0, H 51.0" the statistics of S
    are min 5, max 7, mean 6, count 3, on each of the three window
    capacities. *)
Theorem end_to_end_statistics_of_S :
  Forall
    (fun K =>
       exists s,
         stats (@run float float_arith K decimal_float session3 init) !! "S"
           = Some s
         /\ min_val s = 5%float /\ max_val s = 7%float
         /\ mean_val s = 6%float /\ count s = 3%nat
         /\ values s = [5; 6; 7]%float)
    [150; 100; 200]%nat.
Proof.
  repeat constructor; eexists; (split; [vm_compute; reflexivity|]);
    repeat split; vm_compute; reflexivity.
Qed.

(** Example. A line without a comma and without whitespace is not a fault: the
    call completes, no statistics and no column change, and a row holding
    only the clock reading is written (after the header, if this is the
    first line). *)
Theorem garbage_line_is_absorbed {F : Type} `{Arith F} `{FloatParser F}
  (K : nat) (self : Logger F) (now : string) :
  let result := read_serial_data K now "garbage" self in
  snd result = Some (mkDataPoint now "garbage" PyDict.empty)
  /\ stats (fst result) = stats self
  /\ csv_columns (fst result) = csv_columns self
  /\ log_file (fst result) =
     (if csv_headers_written self then log_file self
      else log_file self ++ [Header (csv_columns self)])
     ++ [Row (row_values now PyDict.empty (csv_columns self))].
Proof.
  intros result. subst result.
  rewrite read_nonblank by reflexivity.
  repeat split.
Qed.

(** *** The text of a row has exactly the fields of the row *)

Section RowText.

Import PyStr.

Lemma contains_lstrip c s : contains c s = false -> contains c (lstrip s) = false.
Proof.
  induction s as [|a s IH]; [reflexivity|].
  intros H. simpl in *. apply orb_false_iff in H as [Ha Hs].
  destruct (is_space a); [now apply IH|].
  simpl. now rewrite Ha, Hs.
Qed.

Lemma contains_rstrip c s : contains c s = false -> contains c (rstrip s) = false.
Proof.
  induction s as [|a s IH]; [reflexivity|].
  intros H. simpl in H. apply orb_false_iff in H as [Ha Hs].
  rewrite rstrip_cons. specialize (IH Hs).
  destruct (String.eqb (rstrip s) "").
  - destruct (is_space a); [reflexivity|]. simpl. now rewrite Ha.
  - simpl. now rewrite Ha, IH.
Qed.

Lemma contains_strip c s : contains c s = false -> contains c (strip s) = false.
Proof. intros H. unfold strip. now apply contains_rstrip, contains_lstrip. Qed.

Lemma contains_append c (a b : string) :
  contains c (a ++ b) = contains c a || contains c b.
Proof.
  induction a as [|x a IH]; [reflexivity|].
  rewrite append_cons. simpl. rewrite IH. now rewrite orb_assoc.
Qed.

Lemma split_pieces sep s : Forall (fun x => contains sep x = false) (split sep s).
Proof.
  induction s as [|c s IH]; simpl.
  - constructor; [reflexivity | constructor].
  - destruct (Ascii.eqb c sep) eqn:E.
    + constructor; [reflexivity | exact IH].
    + destruct (split sep s) as [|t ts]; inversion IH; subst.
      * constructor; [simpl; now rewrite E | constructor].
      * constructor; [simpl; now rewrite E | assumption].
Qed.

Lemma split_ws_pieces c s :
  contains c s = false -> Forall (fun x => contains c x = false) (split_ws s).
Proof.
  induction s as [|a s IH]; [constructor|].
  intros H. simpl in H. apply orb_false_iff in H as [Ha Hs].
  specialize (IH Hs). rewrite split_ws_cons.
  destruct (is_space a); [exact IH|].
  assert (contains c (String a "") = false) as Hone by (simpl; now rewrite Ha).
  destruct s as [|a' s']; [constructor; [exact Hone | constructor]|].
  destruct (is_space a'); [constructor; assumption|].
  destruct (split_ws (String a' s')) as [|t ts];
    [constructor; [exact Hone | constructor]|].
  inversion IH; subst.
  constructor; [simpl; now rewrite Ha | assumption].
Qed.

Lemma segment_comma_free seg kv :
  contains comma seg = false -> Spec.segment_trimmed seg = Some kv ->
  comma_free kv.
Proof.
  intros Hseg. unfold Spec.segment_trimmed.
  pose proof (contains_strip _ _ Hseg) as Hs.
  destruct (contains space (strip seg)) eqn:Hc.
  - destruct (split1_sep _ _ Hc) as (k & v & -> & Heq & _).
    rewrite Heq, contains_append in Hs. simpl in Hs.
    apply orb_false_iff in Hs as [Hk Hv].
    destruct (Spec.nonempty (strip k) && Spec.nonempty (strip v));
      [|discriminate].
    intros [= <-]. split; now apply contains_strip.
  - rewrite (split1_no_sep _ _ Hc). discriminate.
Qed.

Lemma pair_up_comma_free_aux n : forall l, (length l <= n)%nat ->
  Forall (fun x => contains comma x = false) l ->
  Forall comma_free (Spec.pair_up l).
Proof.
  induction n as [|n IH]; intros l Hn Hl.
  - destruct l; [constructor | simpl in Hn; lia].
  - destruct l as [|a [|b l]]; try constructor.
    + inversion Hl as [|? ? Ha Hl']; subst.
      inversion Hl' as [|? ? Hb Hl'']; subst. now split.
    + apply IH; [simpl in Hn; lia|].
      inversion Hl as [|? ? _ Hl']; subst. now inversion Hl'.
Qed.

Lemma setitem_comma_free k v d :
  comma_free (k, v) -> Forall comma_free d ->
  Forall comma_free (PyDict.setitem k v d).
Proof.
  intros Hkv. induction 1 as [|[k' v'] d Hx Hd IH]; simpl.
  - constructor; [exact Hkv | constructor].
  - destruct (String.eqb k' k).
    + constructor; [|exact Hd]. split; [apply Hx | apply Hkv].
    + constructor; [exact Hx | exact IH].
Qed.

Lemma fold_store_comma_free pairs : forall d,
  Forall comma_free pairs -> Forall comma_free d ->
  Forall comma_free (fold_left store_pair pairs d).
Proof.
  induction pairs as [|[k v] pairs IH]; intros d Hp Hd; [exact Hd|].
  inversion Hp; subst. simpl. apply IH; [assumption|].
  now apply setitem_comma_free.
Qed.

(** No name and no value of a parsed line holds a comma. *)
Lemma parse_comma_free line : Forall comma_free (parse_data_line line).
Proof.
  rewrite parse_data_line_pairs.
  apply fold_store_comma_free; [|constructor].
  destruct (contains comma line) eqn:Hc.
  - pose proof (split_pieces comma line) as Hp.
    induction Hp as [|seg segs Hseg _ IH]; [constructor|].
    rewrite omap_cons.
    destruct (Spec.segment_trimmed seg) as [kv|] eqn:E; [|exact IH].
    constructor; [|exact IH]. eapply segment_comma_free; eassumption.
  - apply (pair_up_comma_free_aux (length (split_ws line))); [lia|].
    now apply split_ws_pieces.
Qed.

Lemma get_comma_free column (d : PyDict.dict) :
  Forall comma_free d -> contains comma (PyDict.get column "" d) = false.
Proof.
  induction 1 as [|[k v] d Hx _ IH]; [reflexivity|].
  simpl. destruct (String.eqb k column); [apply Hx | exact IH].
Qed.

Lemma split_app_sep sep (x r : string) :
  contains sep x = false -> split sep (x ++ String sep r) = x :: split sep r.
Proof.
  induction x as [|c x IH]; intros H.
  - rewrite append_nil_l. simpl. now rewrite Ascii.eqb_refl.
  - simpl in H. apply orb_false_iff in H as [Hc Hx].
    rewrite append_cons. simpl. rewrite Hc, (IH Hx). reflexivity.
Qed.

Lemma split_join (l : list string) :
  l <> [] -> Forall (fun x => contains comma x = false) l ->
  split comma (join "," l) = l.
Proof.
  intros Hne Hall. induction Hall as [|x l Hx Hl IH]; [congruence|].
  destruct l as [|y l].
  - simpl. now apply split_no_sep.
  - change (join "," (x :: y :: l))
      with (x ++ String comma (join "," (y :: l)))%string.
    rewrite split_app_sep by assumption.
    f_equal. apply IH. discriminate.
Qed.

(** X2. Cutting the text of a data row at its commas gives back exactly the
    values of the row, one per column: no name and no value that the parser
    extracts holds a comma, so the number of fields a reader sees is the
    number of columns at write time. *)
Theorem row_text_has_one_field_per_column
  (now line : string) (columns : list string) :
  contains comma now = false -> columns <> [] ->
  let row := row_values now (parse_data_line line) columns in
  split comma (join "," row) = row /\ length row = length columns.
Proof.
  intros Hnow Hne row. split; [|apply length_map].
  apply split_join.
  - subst row. destruct columns; [congruence | discriminate].
  - subst row. unfold row_values. apply Forall_forall. intros x Hx.
    apply list_elem_of_In, in_map_iff in Hx as (column & <- & _).
    destruct (String.eqb column "timestamp"); [exact Hnow|].
    apply get_comma_free, parse_comma_free.
Qed.

(** A row with an absent field H: four fields, the last one empty. *)
Lemma row_text_has_one_field_per_column_witness :
  split comma
    (join "," (row_values "2026-01-01T00:00:00" (parse_data_line "S 6.0, T 21.0")
                 ["timestamp"; "S"; "T"; "H"]))
  = ["2026-01-01T00:00:00"; "6.0"; "21.0"; ""].
Proof.
  exact (proj1 (row_text_has_one_field_per_column
                  "2026-01-01T00:00:00" "S 6.0, T 21.0"
                  ["timestamp"; "S"; "T"; "H"] eq_refl ltac:(discriminate))).
Defined.

End RowText.

(** * Further properties *)

(** ** More on the parsers *)

Section FieldFacts.

Import PyStr.

Lemma dict_lookup_setitem k k' v d :
  dict_lookup k (PyDict.setitem k' v d) =
  if String.eqb k' k then Some v else dict_lookup k d.
Proof.
  induction d as [|[a w] d IH]; simpl.
  - reflexivity.
  - destruct (String.eqb a k') eqn:Ea; simpl.
    + apply String.eqb_eq in Ea. subst a.
      destruct (String.eqb k' k); reflexivity.
    + rewrite IH. destruct (String.eqb a k) eqn:Eak; [|reflexivity].
      apply String.eqb_eq in Eak. subst a.
      now rewrite String.eqb_sym, Ea.
Qed.

Lemma last_value_cons k kv pairs :
  last_value k (kv :: pairs) =
  match last_value k pairs with
  | Some v => Some v
  | None => if String.eqb (fst kv) k then Some (snd kv) else None
  end.
Proof.
  unfold last_value. simpl.
  destruct (String.eqb (fst kv) k); [|now destruct (last _)].
  rewrite last_cons. now destruct (last _).
Qed.

Lemma lookup_fold_store k pairs : forall d,
  dict_lookup k (fold_left store_pair pairs d) =
  match last_value k pairs with
  | Some v => Some v
  | None => dict_lookup k d
  end.
Proof.
  induction pairs as [|kv pairs IH]; intros d; [reflexivity|].
  simpl. rewrite IH, last_value_cons.
  destruct (last_value k pairs); [reflexivity|].
  unfold store_pair. rewrite dict_lookup_setitem.
  now destruct (String.eqb (fst kv) k).
Qed.

Lemma dict_lookup_item k v (d : PyDict.dict) :
  NoDup (PyDict.keys d) -> dict_lookup k d = Some v <-> (k, v) ∈ d.
Proof.
  induction d as [|[a w] d IH]; intros Hnd; simpl.
  - split; [discriminate | intros Hin; inversion Hin].
  - simpl in Hnd. apply NoDup_cons in Hnd as [Ha Hnd].
    destruct (String.eqb a k) eqn:E.
    + apply String.eqb_eq in E. subst a. split.
      * intros [= ->]. now left.
      * intros Hin. apply elem_of_cons in Hin as [Hin|Hin]; [congruence|].
        exfalso. apply Ha. now apply item_key in Hin.
    + apply String.eqb_neq in E. rewrite IH by exact Hnd. split.
      * intros Hin. now right.
      * intros Hin. apply elem_of_cons in Hin as [Hin|Hin]; [congruence|exact Hin].
Qed.

Lemma dict_get_lookup k dflt (d : PyDict.dict) :
  PyDict.get k dflt d = default dflt (dict_lookup k d).
Proof.
  induction d as [|[a w] d IH]; simpl; [reflexivity|].
  now destruct (String.eqb a k).
Qed.

(** *** More on [strip] and [split] *)

Lemma strip_idem s : strip (strip s) = strip s.
Proof.
  unfold strip at 1. rewrite <- lstrip_rstrip, strip_rstrip_fixed.
  destruct (strip s) as [|c t] eqn:E; [reflexivity|].
  apply strip_head in E. now apply lstrip_nonspace.
Qed.

Lemma contains_lstrip_eq c s :
  is_space c = false -> contains c (lstrip s) = contains c s.
Proof.
  intros Hc. induction s as [|a s IH]; [reflexivity|].
  simpl. destruct (is_space a) eqn:Ea; [|reflexivity].
  rewrite IH. destruct (Ascii.eqb a c) eqn:E; [|reflexivity].
  apply Ascii.eqb_eq in E. congruence.
Qed.

Lemma contains_rstrip_eq c s :
  is_space c = false -> contains c (rstrip s) = contains c s.
Proof.
  intros Hc. induction s as [|a s IH]; [reflexivity|].
  rewrite rstrip_cons. simpl contains at 2. rewrite <- IH.
  destruct (String.eqb (rstrip s) "") eqn:E.
  - apply String.eqb_eq in E. rewrite E. simpl.
    destruct (is_space a) eqn:Ea; simpl.
    + destruct (Ascii.eqb a c) eqn:Eac; [|reflexivity].
      apply Ascii.eqb_eq in Eac. congruence.
    + reflexivity.
  - reflexivity.
Qed.

Lemma contains_strip_eq c s :
  is_space c = false -> contains c (strip s) = contains c s.
Proof.
  intros Hc. unfold strip.
  now rewrite contains_rstrip_eq, contains_lstrip_eq.
Qed.

Lemma split_sep_length sep s :
  contains sep s = true -> (2 <= length (split sep s))%nat.
Proof.
  induction s as [|c s IH]; simpl; [discriminate|].
  destruct (Ascii.eqb c sep); simpl.
  - intros _. pose proof (split_nonempty sep s).
    destruct (split sep s); [congruence | simpl; lia].
  - intros Hs. specialize (IH Hs).
    destruct (split sep s); simpl in *; lia.
Qed.

Lemma has_space_contains c t :
  is_space c = true -> has_space t = false -> contains c t = false.
Proof.
  intros Hc. induction t as [|a t IH]; [reflexivity|].
  simpl. intros Ht. apply orb_false_iff in Ht as [Ha Ht].
  rewrite (IH Ht), orb_false_r.
  destruct (Ascii.eqb a c) eqn:E; [|reflexivity].
  apply Ascii.eqb_eq in E. congruence.
Qed.

Lemma split_ws_head_nonspace c s :
  is_space c = false -> split_ws (String c s) <> [].
Proof.
  intros Hc. rewrite split_ws_cons, Hc.
  destruct s as [|c' s']; [discriminate|].
  destruct (is_space c'); [discriminate|].
  destruct (split_ws (String c' s')); discriminate.
Qed.

Lemma split_ws_nil_iff s : split_ws s = [] <-> all_space s = true.
Proof.
  induction s as [|c s IH]; [simpl; tauto|].
  simpl all_space. destruct (is_space c) eqn:Ec.
  - rewrite split_ws_cons, Ec. exact IH.
  - simpl. split; [|discriminate].
    intros E. now apply split_ws_head_nonspace in E.
Qed.

(** The pieces of [split()] are tokens but for the comma. *)
Lemma split_ws_tokens s :
  Forall (fun t => t <> "" /\ has_space t = false) (split_ws s).
Proof.
  induction s as [|c s IH]; [constructor|].
  rewrite split_ws_cons. destruct (is_space c) eqn:Ec; [exact IH|].
  assert (String c "" <> "" /\ has_space (String c "") = false) as Hone.
  { split; [discriminate|]. simpl. now rewrite Ec. }
  destruct s as [|c' s']; [now repeat constructor|].
  destruct (is_space c') eqn:Ec'; [now constructor|].
  destruct (split_ws (String c' s')) as [|t ts]; [now repeat constructor|].
  inversion IH as [|? ? [Ht1 Ht2] Hts]; subst.
  constructor; [|exact Hts]. split; [discriminate|].
  simpl. now rewrite Ec, Ht2.
Qed.

Lemma split_ws_app_space c (x y : string) :
  is_space c = true ->
  split_ws (x ++ String c y) = split_ws x ++ split_ws y.
Proof.
  intros Hc. induction x as [|a x IH].
  - rewrite append_nil_l, split_ws_cons, Hc. reflexivity.
  - rewrite append_cons, (split_ws_cons a x), split_ws_cons.
    destruct (is_space a) eqn:Ea; [exact IH|].
    destruct x as [|a' x'].
    + rewrite append_nil_l in *. rewrite Hc, split_ws_cons, Hc. reflexivity.
    + rewrite append_cons in *.
      destruct (is_space a') eqn:Ea'.
      * rewrite IH. reflexivity.
      * rewrite IH.
        pose proof (split_ws_head_nonspace a' x' Ea') as Hne.
        destruct (split_ws (String a' x')) as [|t ts]; [congruence|].
        reflexivity.
Qed.

Lemma cons_eq_singleton {A : Type} (x b : A) (l : list A) :
  x :: l = [b] -> x = b /\ l = [].
Proof. now intros [= -> ->]. Qed.

Lemma split_ws_single r b : split_ws r = [b] -> strip r = b.
Proof.
  revert b. induction r as [|c r IH]; intros b; [discriminate|].
  rewrite split_ws_cons. destruct (is_space c) eqn:Ec.
  - intros E. rewrite strip_space_cons by exact Ec. now apply IH.
  - unfold strip. rewrite (lstrip_nonspace _ _ Ec), rstrip_cons.
    destruct r as [|c' r'].
    + intros [= <-]. simpl. now rewrite Ec.
    + destruct (is_space c') eqn:Ec'.
      * intros E. apply cons_eq_singleton in E as [<- E].
        apply split_ws_nil_iff, rstrip_empty_iff in E.
        rewrite E. simpl. now rewrite Ec.
      * pose proof (split_ws_head_nonspace c' r' Ec') as Hne.
        destruct (split_ws (String c' r')) as [|t ts] eqn:Es; [congruence|].
        intros E. apply cons_eq_singleton in E as [<- ->].
        specialize (IH t eq_refl).
        unfold strip in IH. rewrite (lstrip_nonspace _ _ Ec') in IH.
        destruct (rstrip_head_nonspace c' r' Ec') as (t' & Ht').
        rewrite Ht' in IH. rewrite Ht'. subst t. reflexivity.
Qed.

(** *** What the mapping of a line holds *)

Lemma setitem_Forall (PK PV : string -> Prop) k v (d : PyDict.dict) :
  PK k -> PV v -> Forall (fun kv => PK (fst kv) /\ PV (snd kv)) d ->
  Forall (fun kv => PK (fst kv) /\ PV (snd kv)) (PyDict.setitem k v d).
Proof.
  intros Hk Hv. induction 1 as [|[a w] d [Ha Hw] Hd IH]; simpl.
  - repeat constructor; assumption.
  - destruct (String.eqb a k).
    + constructor; [split; assumption | exact Hd].
    + constructor; [split; assumption | exact IH].
Qed.

Lemma fold_store_Forall (PK PV : string -> Prop) pairs : forall d,
  Forall (fun kv => PK (fst kv) /\ PV (snd kv)) pairs ->
  Forall (fun kv => PK (fst kv) /\ PV (snd kv)) d ->
  Forall (fun kv => PK (fst kv) /\ PV (snd kv)) (fold_left store_pair pairs d).
Proof.
  induction pairs as [|kv pairs IH]; intros d Hp Hd; [exact Hd|].
  inversion Hp as [|? ? [Hk Hv] Hps]; subst. simpl. apply IH; [exact Hps|].
  unfold store_pair. now apply setitem_Forall.
Qed.

Lemma pair_up_Forall (P : string -> Prop) tokens :
  Forall P tokens ->
  Forall (fun kv => P (fst kv) /\ P (snd kv)) (Spec.pair_up tokens).
Proof.
  revert tokens.
  fix IH 1. intros [|a [|b rest]] Ht; [constructor | constructor |].
  inversion Ht as [|? ? Ha Ht']; subst.
  inversion Ht' as [|? ? Hb Hrest]; subst.
  simpl. constructor; [split; assumption|]. now apply IH.
Qed.

Lemma token_trimmed t : token t -> trimmed t /\ contains space t = false.
Proof.
  intros (Hne & Hsp & Hc). repeat split; try assumption.
  - now apply has_space_false_strip.
  - now apply has_space_contains.
Qed.

Lemma split_ws_all_tokens s :
  contains comma s = false -> Forall token (split_ws s).
Proof.
  intros Hc. pose proof (split_ws_tokens s) as H1.
  pose proof (split_ws_pieces comma s Hc) as H2.
  rewrite Forall_forall in *. intros t Ht.
  destruct (H1 t Ht) as [Hne Hsp]. specialize (H2 t Ht).
  repeat split; assumption.
Qed.

Lemma segment_trimmed_fields seg k v :
  contains comma seg = false -> Spec.segment_trimmed seg = Some (k, v) ->
  (trimmed k /\ contains space k = false) /\ trimmed v.
Proof.
  intros Hseg Hs.
  destruct (segment_comma_free seg (k, v) Hseg Hs) as [Hck Hcv].
  simpl in Hck, Hcv.
  unfold Spec.segment_trimmed in Hs.
  destruct (contains space (strip seg)) eqn:Hc.
  2:{ rewrite (split1_no_sep _ _ Hc) in Hs. discriminate. }
  destruct (split1_sep _ _ Hc) as (k0 & v0 & Hsp & _ & Hk0).
  rewrite Hsp in Hs.
  destruct (strip_split1_tokens _ _ _ Hsp) as [Hk Hv].
  destruct (Spec.nonempty (strip k0) && Spec.nonempty (strip v0));
    [|discriminate].
  injection Hs as <- <-.
  repeat split; try assumption; try apply strip_idem.
  now apply contains_strip.
Qed.

Lemma field_pairs_fields line :
  Forall (fun kv => (trimmed (fst kv) /\ contains space (fst kv) = false)
                    /\ trimmed (snd kv))
    (field_pairs line).
Proof.
  unfold field_pairs. destruct (contains comma line) eqn:Hc.
  - pose proof (split_pieces comma line) as Hp.
    induction Hp as [|seg segs Hseg _ IH]; [constructor|].
    rewrite omap_cons.
    destruct (Spec.segment_trimmed seg) as [[k v]|] eqn:E; [|exact IH].
    constructor; [|exact IH]. now apply (segment_trimmed_fields seg).
  - eapply Forall_impl; [apply pair_up_Forall, split_ws_all_tokens, Hc|].
    intros [k v] [Hk Hv]. simpl in *.
    split; [now apply token_trimmed | now apply token_trimmed].
Qed.

Lemma parse_data_line_field_pairs line :
  parse_data_line line = fold_left store_pair (field_pairs line) PyDict.empty.
Proof. apply parse_data_line_pairs. Qed.

(** X3. Every name and every value that [parse_data_line] extracts is a
    non-empty text without whitespace at either end and without a comma,
    and a name holds no space character. *)
Theorem parsed_fields_are_trimmed (line k v : string) :
  (k, v) ∈ parse_data_line line ->
  trimmed k /\ contains space k = false /\ trimmed v.
Proof.
  intros Hin.
  pose proof (fold_store_Forall
                (fun k => trimmed k /\ contains space k = false) trimmed
                (field_pairs line) PyDict.empty
                (field_pairs_fields line) (Forall_nil_2 _)) as Hall.
  rewrite <- parse_data_line_field_pairs in Hall.
  rewrite Forall_forall in Hall. specialize (Hall _ Hin). simpl in Hall.
  tauto.
Qed.

Lemma parsed_fields_are_trimmed_witness :
  trimmed "T" /\ contains space "T" = false /\ trimmed "20.0".
Proof.
  apply (parsed_fields_are_trimmed "  S 5.0 ,  T   20.0  " "T" "20.0").
  apply list_elem_of_In. vm_compute. right. left. reflexivity.
Defined.

(** X4. A name that occurs more than once on a line keeps one entry: the
    mapping holds, for every name, the value of its last occurrence, and so
    does the cell that [write_csv_row] reads. *)
Theorem last_occurrence_wins (line k : string) :
  dict_lookup k (parse_data_line line) = last_value k (field_pairs line)
  /\ PyDict.get k "" (parse_data_line line)
     = default "" (last_value k (field_pairs line))
  /\ NoDup (PyDict.keys (parse_data_line line)).
Proof.
  assert (dict_lookup k (parse_data_line line)
          = last_value k (field_pairs line)) as E.
  { rewrite parse_data_line_field_pairs, lookup_fold_store.
    now destruct (last_value k (field_pairs line)). }
  split; [exact E|]. split; [|apply parse_keys_NoDup].
  now rewrite dict_get_lookup, E.
Qed.

(** *** The Raspberry Pi parser *)

Lemma part_body_spec part d :
  PiLogger.part_body part d =
  (match PiLogger.pi_segment part with
   | Some kv => store_pair d kv
   | None => d
   end, inr tt).
Proof.
  unfold PiLogger.part_body, PiLogger.pi_segment.
  destruct (String.eqb (strip part) "") eqn:E.
  - apply String.eqb_eq, strip_empty_iff, split_ws_nil_iff in E.
    now rewrite E.
  - rewrite split_ws_strip.
    destruct (split_ws part) as [|a [|b rest]]; try reflexivity.
    pose proof (getitem_app [] a (b :: rest)) as H0.
    pose proof (getitem_app [a] b rest) as H1.
    simpl app in H0, H1.
    change (Z.of_nat (length (@nil string))) with 0 in H0.
    change (Z.of_nat (length [a])) with 1 in H1.
    change (2 <=? length (a :: b :: rest))%nat with true. cbv iota.
    unfold Try.bind, Try.lift, Try.store. rewrite H0, H1. reflexivity.
Qed.

Lemma pi_segment_strip part :
  PiLogger.pi_segment (strip part) = PiLogger.pi_segment part.
Proof. unfold PiLogger.pi_segment. now rewrite split_ws_strip. Qed.

Lemma omap_pi_segment_map_strip l :
  omap PiLogger.pi_segment (map strip l) = omap PiLogger.pi_segment l.
Proof.
  induction l as [|x l IH]; [reflexivity|].
  change (map strip (x :: l)) with (strip x :: map strip l).
  now rewrite !omap_cons, pi_segment_strip, IH.
Qed.

Lemma parse_trisonica_data_spec line :
  PiLogger.parse_trisonica_data line =
  if contains comma line
  then or_None (fold_left store_pair
                  (omap PiLogger.pi_segment (split comma line)) PyDict.empty)
  else None.
Proof.
  unfold PiLogger.parse_trisonica_data.
  rewrite <- (contains_strip_eq comma line) by reflexivity.
  destruct (contains comma (strip line)) eqn:Hc.
  - pose proof (split_sep_length _ _ Hc) as Hlen.
    destruct (Nat.ltb_spec (length (split comma (strip line))) 2); [lia|].
    rewrite (for_each_fold _ _
               (fun d x => match PiLogger.pi_segment x with
                           | Some kv => store_pair d kv
                           | None => d
                           end))
      by (intros; apply part_body_spec).
    rewrite <- (fold_left_omap PiLogger.pi_segment store_pair).
    rewrite <- omap_pi_segment_map_strip, map_strip_split_strip,
      omap_pi_segment_map_strip.
    unfold or_None. now destruct (fold_left _ _ _).
  - now rewrite (split_no_sep _ _ Hc).
Qed.

Lemma pi_segment_tokens seg k v :
  contains comma seg = false -> PiLogger.pi_segment seg = Some (k, v) ->
  token k /\ token v.
Proof.
  intros Hc. unfold PiLogger.pi_segment.
  pose proof (split_ws_all_tokens seg Hc) as Ht.
  destruct (split_ws seg) as [|a [|b rest]]; try discriminate.
  intros [= <- <-].
  inversion Ht as [|? ? Ha Ht']; subst.
  inversion Ht' as [|? ? Hb _]; subst. now split.
Qed.

(** X5. The Raspberry Pi parser: what it accepts is a line with a comma,
    and what it returns is never the empty mapping; names are distinct, and
    every name and value is a token (not empty, no whitespace, no comma). *)
Theorem pi_parser_output (line : string) :
  match PiLogger.parse_trisonica_data line with
  | Some d =>
      contains comma line = true /\ d <> []
      /\ NoDup (PyDict.keys d)
      /\ Forall (fun kv => token (fst kv) /\ token (snd kv)) d
  | None => True
  end.
Proof.
  rewrite parse_trisonica_data_spec.
  destruct (contains comma line) eqn:Hc; [|exact I].
  assert (Forall (fun kv => token (fst kv) /\ token (snd kv))
            (fold_left store_pair
               (omap PiLogger.pi_segment (split comma line)) PyDict.empty))
    as Hall.
  { apply fold_store_Forall; [|constructor].
    pose proof (split_pieces comma line) as Hp.
    induction Hp as [|seg segs Hseg _ IH]; [constructor|].
    rewrite omap_cons.
    destruct (PiLogger.pi_segment seg) as [[k v]|] eqn:E; [|exact IH].
    constructor; [|exact IH]. now apply (pi_segment_tokens seg). }
  assert (NoDup (PyDict.keys
            (fold_left store_pair
               (omap PiLogger.pi_segment (split comma line)) PyDict.empty)))
    as Hnd by (apply fold_store_NoDup; constructor).
  unfold or_None. destruct (fold_left _ _ _) as [|kv d]; [exact I|].
  repeat split; try assumption. discriminate.
Qed.

Lemma plain_part_segment seg :
  plain_part seg -> PiLogger.pi_segment seg = Spec.segment_trimmed seg.
Proof.
  intros [Hlen Htwo].
  unfold PiLogger.pi_segment, Spec.segment_trimmed.
  destruct (contains space (strip seg)) eqn:Hc.
  - destruct (split1_sep _ _ Hc) as (k0 & v0 & Hsp & Heq & _).
    rewrite Hsp.
    destruct (strip_split1_tokens _ _ _ Hsp) as [Hk Hv].
    assert (split_ws seg = split_ws k0 ++ split_ws v0) as Hws.
    { rewrite <- split_ws_strip, Heq. now apply split_ws_app_space. }
    assert (split_ws k0 <> []) as Hk0.
    { intros E. apply Hk. now apply strip_empty_iff, split_ws_nil_iff. }
    assert (split_ws v0 <> []) as Hv0.
    { intros E. apply Hv. now apply strip_empty_iff, split_ws_nil_iff. }
    rewrite Hws in *. rewrite length_app in Hlen.
    destruct (split_ws k0) as [|a [|a' ka]] eqn:Eka; [congruence| |simpl in Hlen; destruct (split_ws v0); [congruence|simpl in Hlen; lia]].
    destruct (split_ws v0) as [|b [|b' kb]] eqn:Ekb; [congruence| |simpl in Hlen; lia].
    apply split_ws_single in Eka, Ekb. rewrite Eka, Ekb.
    apply String.eqb_neq in Hk, Hv. unfold Spec.nonempty.
    rewrite Eka in Hk. rewrite Ekb in Hv. rewrite Hk, Hv. reflexivity.
  - rewrite (split1_no_sep _ _ Hc).
    destruct (split_ws seg) as [|a [|b [|c rest]]]; try reflexivity.
    + specialize (Htwo eq_refl). congruence.
    + simpl in Hlen. lia.
Qed.

(** X6. On a line with a comma whose parts are plain ("name value", one
    or no token, or blank), the Raspberry Pi parser and [parse_data_line]
    extract the same fields; the Pi returns [None] where the other returns
    the empty mapping. *)
Theorem pi_parser_agrees_on_plain_lines (line : string) :
  contains comma line = true ->
  Forall plain_part (split comma line) ->
  PiLogger.parse_trisonica_data line = or_None (parse_data_line line).
Proof.
  intros Hc Hplain.
  rewrite parse_trisonica_data_spec, parse_data_line_pairs, Hc.
  f_equal. f_equal.
  induction Hplain as [|seg segs Hseg _ IH]; [reflexivity|].
  now rewrite !omap_cons, (plain_part_segment seg Hseg), IH.
Qed.

Lemma pi_parser_agrees_on_plain_lines_witness :
  PiLogger.parse_trisonica_data "S 5.0, T 20.0, , H"
  = or_None (parse_data_line "S 5.0, T 20.0, , H").
Proof.
  apply pi_parser_agrees_on_plain_lines; [reflexivity|].
  repeat constructor; simpl; try lia; intros; try reflexivity;
    discriminate.
Defined.

End FieldFacts.

(** ** The statistics of a session, parameter by parameter *)

Section StreamFacts.

Import PyStr.

Context {F : Type} `{Arith F} `{FloatParser F}.
Variable K : nat.

Lemma dict_lookup_absent k (d : PyDict.dict) :
  k ∉ PyDict.keys d -> dict_lookup k d = None.
Proof.
  induction d as [|[a w] d IH]; [reflexivity|].
  simpl. intros Hk. apply not_elem_of_cons in Hk as [Hne Hk].
  destruct (String.eqb a k) eqn:E; [|now apply IH].
  apply String.eqb_eq in E. congruence.
Qed.

(** What the loop over the fields of one line does to one parameter. *)
Lemma stats_loop_lookup key (parsed : PyDict.dict) :
  forall st : gmap string (Statistics F),
  NoDup (PyDict.keys parsed) ->
  stats_loop K parsed st !! key =
  match dict_lookup key parsed ≫= py_float with
  | Some x => Some (update_stat K (default new_Statistics (st !! key)) x)
  | None => st !! key
  end.
Proof.
  unfold stats_loop, PyDict.items.
  induction parsed as [|[a w] parsed IH]; intros st Hnd; [reflexivity|].
  simpl in Hnd. apply NoDup_cons in Hnd as [Ha Hnd].
  simpl fold_left. rewrite IH by exact Hnd. simpl dict_lookup.
  destruct (String.eqb a key) eqn:E.
  - apply String.eqb_eq in E. subst a.
    rewrite (dict_lookup_absent _ _ Ha). simpl.
    destruct (py_float w) as [x|]; [|reflexivity].
    unfold calculate_statistics. now rewrite lookup_insert_eq.
  - apply String.eqb_neq in E.
    assert (match py_float w with
            | Some value => calculate_statistics K a value st
            | None => st
            end !! key = st !! key) as ->; [|reflexivity].
    destruct (py_float w) as [x|]; [|reflexivity].
    unfold calculate_statistics. now rewrite lookup_insert_ne.
Qed.

Lemma feed_lookup_any key (vs : list F) (st : gmap string (Statistics F)) :
  feed K key vs st !! key =
  match vs with
  | [] => st !! key
  | _ => Some (fold_left (update_stat K) vs
                 (default new_Statistics (st !! key)))
  end.
Proof.
  destruct vs as [|v vs]; [reflexivity|].
  simpl. erewrite feed_lookup; [reflexivity|].
  unfold calculate_statistics. now rewrite lookup_insert_eq.
Qed.

Lemma feed_lookup_congr key (vs : list F)
  (st1 st2 : gmap string (Statistics F)) :
  st1 !! key = st2 !! key ->
  feed K key vs st1 !! key = feed K key vs st2 !! key.
Proof. intros E. now rewrite !feed_lookup_any, E. Qed.

Lemma feed_app key (vs ws : list F) (st : gmap string (Statistics F)) :
  feed K key (vs ++ ws) st = feed K key ws (feed K key vs st).
Proof. unfold feed. apply fold_left_app. Qed.

Lemma read_stats_lookup key (input : string * string) (self : Logger F) :
  stats (fst (read_serial_data K (fst input) (snd input) self)) !! key =
  feed K key (option_list (observation key input)) (stats self) !! key.
Proof.
  destruct input as [now raw]. unfold observation. simpl fst. simpl snd.
  destruct (blank (now, raw)) eqn:E.
  - now rewrite read_blank.
  - rewrite read_nonblank by assumption. simpl fst. simpl stats. simpl snd.
    rewrite stats_loop_lookup by apply parse_keys_NoDup.
    destruct (dict_lookup key (parse_data_line (strip raw)) ≫= py_float);
      [|reflexivity].
    simpl. unfold calculate_statistics. now rewrite lookup_insert_eq.
Qed.

Lemma run_stats_lookup key inputs : forall self : Logger F,
  stats (run K inputs self) !! key =
  feed K key (observations key inputs) (stats self) !! key.
Proof.
  induction inputs as [|input inputs IH]; intros self; [reflexivity|].
  rewrite run_cons, IH. unfold observations. rewrite omap_cons.
  fold (observations key inputs).
  pose proof (read_stats_lookup key input self) as Hr.
  destruct (observation key input) as [x|]; simpl in Hr.
  - change (x :: observations key inputs)
      with ([x] ++ observations key inputs).
    rewrite feed_app. now apply feed_lookup_congr.
  - now apply feed_lookup_congr.
Qed.

Lemma fold_update_current (vs : list F) (v : F) (s : Statistics F) :
  last vs = Some v -> current_val (fold_left (update_stat K) vs s) = v.
Proof.
  intros Hl. apply last_Some in Hl as [vs' ->].
  rewrite fold_left_app. simpl. unfold update_stat.
  now destruct (S (count _) =? 1)%nat.
Qed.

End StreamFacts.

(** ** All-time extrema, and the Raspberry Pi summary, in exact arithmetic *)

Section ExtremaFacts.

Local Open Scope R_scope.

Lemma py_min_max_extrema (lo hi v : R) (seen : list R) :
  extrema_of lo hi seen ->
  extrema_of (py_min lo v) (py_max hi v) (seen ++ [v]).
Proof.
  intros (Hall & Hlo & Hhi).
  pose proof (py_min_real lo v) as [Hm1 Hm2].
  pose proof (py_max_real hi v) as [HM1 HM2].
  split; [|split].
  - apply Forall_app. split.
    + eapply Forall_impl; [exact Hall|]. simpl. intros x Hx. lra.
    + constructor; [lra | constructor].
  - unfold py_min. simpl. destruct (Rltb v lo); set_solver.
  - unfold py_max. simpl. destruct (Rltb hi v); set_solver.
Qed.

Lemma extrema_singleton (v : R) : extrema_of v v [v].
Proof.
  split; [|split; now left]. constructor; [lra | constructor].
Qed.

Lemma fold_update_extrema (K : nat) (vs : list R) :
  forall (s : Statistics R) (seen : list R),
  (0 < count s)%nat -> extrema_of (min_val s) (max_val s) seen ->
  let s' := fold_left (update_stat K) vs s in
  extrema_of (min_val s') (max_val s') (seen ++ vs).
Proof.
  induction vs as [|v vs IH]; intros s seen Hc Hs.
  - simpl. now rewrite app_nil_r.
  - simpl. replace (seen ++ v :: vs) with ((seen ++ [v]) ++ vs)
      by (now rewrite <- app_assoc).
    apply IH; [rewrite update_stat_count; lia|].
    rewrite update_stat_later by exact Hc. cbn [min_val max_val].
    now apply py_min_max_extrema.
Qed.

Lemma pi_feed_entry_extrema (vs : list R) :
  forall (p : Pi.ParamStats R) (seen : list R),
  extrema_of (Pi.p_min p) (Pi.p_max p) seen ->
  let p' := Pi.feed_entry vs p in
  extrema_of (Pi.p_min p') (Pi.p_max p') (seen ++ vs).
Proof.
  induction vs as [|v vs IH]; intros p seen Hp.
  - simpl. now rewrite app_nil_r.
  - simpl. replace (seen ++ v :: vs) with ((seen ++ [v]) ++ vs)
      by (now rewrite <- app_assoc).
    apply IH. cbn [Pi.update_param Pi.p_min Pi.p_max].
    now apply py_min_max_extrema.
Qed.

Lemma extrema_mean_bounds (lo hi : R) (l : list R) :
  l <> [] -> extrema_of lo hi l ->
  lo <= fold_left Rplus l 0 / INR (length l) <= hi.
Proof.
  intros Hne (Hall & _ & _).
  pose proof (sum_real_bounds lo hi l Hall 0) as Hs.
  assert (0 < INR (length l)) as Hn.
  { apply lt_0_INR. destruct l; [congruence | simpl; lia]. }
  split.
  - apply Rmult_le_reg_r with (INR (length l)); [exact Hn|].
    unfold Rdiv. rewrite Rmult_assoc, Rinv_l by lra. lra.
  - apply Rmult_le_reg_r with (INR (length l)); [exact Hn|].
    unfold Rdiv. rewrite Rmult_assoc, Rinv_l by lra. lra.
Qed.

(** The sum of squared deviations from any [m], expanded. *)
Lemma sum_sq_dev (m : R) (l : list R) :
  fold_right Rplus 0 (map (fun x => (x - m) * (x - m)) l) =
  fold_right Rplus 0 (map (fun x => x * x) l)
  - 2 * m * fold_right Rplus 0 l + INR (length l) * (m * m).
Proof.
  induction l as [|x l IH].
  - simpl. lra.
  - change (length (x :: l)) with (S (length l)). rewrite S_INR.
    simpl. rewrite IH. lra.
Qed.

(** The mean squared deviation from [m] is the variance plus the squared
    distance from [m] to the mean. *)
Lemma variance_about (m : R) (l : list R) :
  l <> [] ->
  window_variance m l =
  window_variance (window_mean l) l + (window_mean l - m) * (window_mean l - m).
Proof.
  intros Hne.
  assert (0 < INR (length l)) as Hn.
  { apply lt_0_INR. destruct l; [congruence | simpl; lia]. }
  unfold window_variance, window_mean.
  rewrite !py_len_real, !py_sum_fold_right.
  change (fun x : R => fpow2 (fsub x ?m)) with (fun x : R => (x - m) * (x - m)).
  cbn [fpow2 fsub fdiv real_arith].
  rewrite !sum_sq_dev.
  set (Q := fold_right Rplus 0 (map (fun x => x * x) l)).
  set (S1 := fold_right Rplus 0 l).
  set (n := INR (length l)) in *.
  field. lra.
Qed.

Lemma variance_nonneg (m : R) (l : list R) : 0 <= window_variance m l.
Proof.
  unfold window_variance. rewrite py_len_real, py_sum_fold_right.
  cbn [fpow2 fsub fdiv real_arith].
  assert (0 <= fold_right Rplus 0 (map (fun x => (x - m) * (x - m)) l)) as Hs.
  { induction l as [|x l IH]; simpl; [lra|].
    pose proof (Rle_0_sqr (x - m)) as Hx. unfold Rsqr in Hx. lra. }
  destruct l as [|x l].
  - simpl. unfold Rdiv. rewrite Rinv_0. lra.
  - unfold Rdiv. apply Rmult_le_pos; [exact Hs|].
    left. apply Rinv_0_lt_compat, lt_0_INR. simpl. lia.
Qed.

End ExtremaFacts.

(** ** The Raspberry Pi loop *)

Section PiLoopFacts.

Import PyStr.

Context {F : Type} `{Arith F} `{FloatParser F}.

Lemma pi_parse_empty : PiLogger.parse_trisonica_data "" = None.
Proof. reflexivity. Qed.

Lemma pi_read_rejected now raw (self : PiLogger.State F) :
  PiLogger.accepted (now, raw) = None ->
  PiLogger.read_and_process_data now raw self = (self, false).
Proof.
  unfold PiLogger.accepted, PiLogger.read_and_process_data. simpl.
  intros ->. now destruct (String.eqb (strip raw) "").
Qed.

Lemma pi_read_accepted now raw parsed (self : PiLogger.State F) :
  PiLogger.accepted (now, raw) = Some parsed ->
  PiLogger.read_and_process_data now raw self =
  (PiLogger.mkState
     (write_csv_row now parsed
        (fst (update_csv_columns parsed (PiLogger.csv self))))
     (Pi.update_statistics parsed (PiLogger.parameter_stats self))
     parsed (PiLogger.data_count self),
   true).
Proof.
  unfold PiLogger.accepted, PiLogger.read_and_process_data. simpl.
  intros E. destruct (String.eqb (strip raw) "") eqn:Eb.
  - apply String.eqb_eq in Eb. rewrite Eb, pi_parse_empty in E. discriminate.
  - now rewrite E.
Qed.

Lemma pi_step_rejected input (self : PiLogger.State F) :
  PiLogger.accepted input = None -> PiLogger.loop_step self input = self.
Proof.
  destruct input as [now raw]. intros E. unfold PiLogger.loop_step.
  simpl fst. simpl snd. now rewrite pi_read_rejected.
Qed.

Lemma pi_step_accepted input parsed (self : PiLogger.State F) :
  PiLogger.accepted input = Some parsed ->
  PiLogger.loop_step self input =
  PiLogger.mkState
    (write_csv_row (fst input) parsed
       (fst (update_csv_columns parsed (PiLogger.csv self))))
    (Pi.update_statistics parsed (PiLogger.parameter_stats self))
    parsed (S (PiLogger.data_count self)).
Proof.
  destruct input as [now raw]. intros E. unfold PiLogger.loop_step.
  simpl fst. simpl snd. now rewrite (pi_read_accepted _ _ _ _ E).
Qed.

Lemma pi_run_cons input inputs (self : PiLogger.State F) :
  PiLogger.run (input :: inputs) self =
  PiLogger.run inputs (PiLogger.loop_step self input).
Proof. reflexivity. Qed.

Lemma pi_accepted_NoDup input parsed :
  PiLogger.accepted input = Some parsed -> NoDup (PyDict.keys parsed).
Proof.
  unfold PiLogger.accepted. rewrite parse_trisonica_data_spec.
  destruct (contains comma _); [|discriminate].
  unfold or_None.
  pose proof (fold_store_NoDup
                (omap PiLogger.pi_segment (split comma (strip (snd input))))
                PyDict.empty (NoDup_nil_2 : NoDup (PyDict.keys PyDict.empty))) as Hnd.
  destruct (fold_left _ _ _); [discriminate|].
  now intros [= <-].
Qed.

Lemma pi_update_statistics_lookup param (parsed : PyDict.dict) :
  forall ps : gmap string (Pi.ParamStats F),
  NoDup (PyDict.keys parsed) ->
  Pi.update_statistics parsed ps !! param =
  match dict_lookup param parsed ≫= py_float with
  | Some x => Some (Pi.update_param x (ps !! param))
  | None => ps !! param
  end.
Proof.
  unfold Pi.update_statistics, PyDict.items.
  induction parsed as [|[a w] parsed IH]; intros ps Hnd; [reflexivity|].
  simpl in Hnd. apply NoDup_cons in Hnd as [Ha Hnd].
  simpl fold_left. rewrite IH by exact Hnd. simpl dict_lookup.
  destruct (String.eqb a param) eqn:E.
  - apply String.eqb_eq in E. subst a.
    rewrite (dict_lookup_absent _ _ Ha). simpl.
    destruct (py_float w) as [x|]; [|reflexivity].
    now rewrite lookup_insert_eq.
  - apply String.eqb_neq in E.
    assert (match py_float w with
            | Some value => <[a := Pi.update_param value (ps !! a)]> ps
            | None => ps
            end !! param = ps !! param) as ->; [|reflexivity].
    destruct (py_float w) as [x|]; [|reflexivity].
    now rewrite lookup_insert_ne.
Qed.

Lemma pi_feed_congr param (vs : list F)
  (ps1 ps2 : gmap string (Pi.ParamStats F)) :
  ps1 !! param = ps2 !! param ->
  Pi.feed param vs ps1 !! param = Pi.feed param vs ps2 !! param.
Proof.
  revert ps1 ps2. induction vs as [|v vs IH]; intros ps1 ps2 E; [exact E|].
  simpl. apply IH. now rewrite !lookup_insert_eq, E.
Qed.

Lemma pi_step_stats_lookup param input (self : PiLogger.State F) :
  PiLogger.parameter_stats (PiLogger.loop_step self input) !! param =
  Pi.feed param (option_list (PiLogger.observation param input))
    (PiLogger.parameter_stats self) !! param.
Proof.
  unfold PiLogger.observation.
  destruct (PiLogger.accepted input) as [parsed|] eqn:E.
  - rewrite (pi_step_accepted _ _ _ E). cbn [PiLogger.parameter_stats].
    rewrite pi_update_statistics_lookup by (eapply pi_accepted_NoDup, E).
    simpl. destruct (dict_lookup param parsed ≫= py_float); [|reflexivity].
    simpl. now rewrite lookup_insert_eq.
  - now rewrite pi_step_rejected.
Qed.

Lemma pi_run_stats_lookup param inputs : forall self : PiLogger.State F,
  PiLogger.parameter_stats (PiLogger.run inputs self) !! param =
  Pi.feed param (PiLogger.observations param inputs)
    (PiLogger.parameter_stats self) !! param.
Proof.
  induction inputs as [|input inputs IH]; intros self; [reflexivity|].
  rewrite pi_run_cons, IH. unfold PiLogger.observations. rewrite omap_cons.
  fold (PiLogger.observations param inputs).
  pose proof (pi_step_stats_lookup param input self) as Hs.
  destruct (PiLogger.observation param input) as [x|]; simpl in Hs.
  - simpl. apply pi_feed_congr. now rewrite Hs, lookup_insert_eq.
  - now apply pi_feed_congr.
Qed.

Lemma pi_run_filter inputs : forall self : PiLogger.State F,
  PiLogger.run inputs self =
  PiLogger.run
    (List.filter (fun i => bool_decide (is_Some (PiLogger.accepted i))) inputs)
    self.
Proof.
  induction inputs as [|input inputs IH]; intros self; [reflexivity|].
  simpl List.filter. destruct (PiLogger.accepted input) as [parsed|] eqn:E.
  - rewrite bool_decide_eq_true_2 by eauto. rewrite !pi_run_cons. apply IH.
  - rewrite bool_decide_eq_false_2 by (intros [? ?]; discriminate).
    rewrite pi_run_cons, pi_step_rejected by exact E. apply IH.
Qed.

Lemma pi_run_rows inputs : forall self : PiLogger.State F,
  let s := PiLogger.run inputs self in
  let n := length (omap PiLogger.accepted inputs) in
  PiLogger.data_count s = (PiLogger.data_count self + n)%nat
  /\ length (List.filter (fun w => negb (is_header w))
               (log_file (PiLogger.csv s)))
     = (length (List.filter (fun w => negb (is_header w))
                  (log_file (PiLogger.csv self))) + n)%nat
  /\ PiLogger.latest_data s =
     default (PiLogger.latest_data self) (last (omap PiLogger.accepted inputs)).
Proof.
  induction inputs as [|input inputs IH]; intros self.
  - simpl. repeat split; lia.
  - cbv zeta. rewrite pi_run_cons, omap_cons.
    destruct (IH (PiLogger.loop_step self input)) as (IH1 & IH2 & IH3).
    rewrite IH1, IH2, IH3.
    destruct (PiLogger.accepted input) as [parsed|] eqn:E.
    + rewrite (pi_step_accepted _ _ _ E).
      cbn [PiLogger.data_count PiLogger.csv PiLogger.latest_data].
      unfold write_csv_row, update_csv_columns.
      destruct (observe_loop _ _) as [columns flag]. cbn.
      destruct (csv_headers_written (PiLogger.csv self)); cbn;
        rewrite ?List.filter_app; cbn; rewrite ?length_app; cbn;
        (repeat split; [lia | lia |]);
        rewrite last_cons; now destruct (last _).
    + rewrite pi_step_rejected by exact E. repeat split; lia.
Qed.

Lemma pi_run_headers inputs : forall self : PiLogger.State F,
  let s := PiLogger.run inputs self in
  let n := length (omap PiLogger.accepted inputs) in
  length (List.filter is_header (log_file (PiLogger.csv s)))
  = (length (List.filter is_header (log_file (PiLogger.csv self)))
     + (if csv_headers_written (PiLogger.csv self) then 0 else Nat.min 1 n))%nat.
Proof.
  induction inputs as [|input inputs IH]; intros self.
  - simpl. destruct (csv_headers_written _); lia.
  - cbv zeta. rewrite pi_run_cons, omap_cons.
    specialize (IH (PiLogger.loop_step self input)). cbv zeta in IH.
    rewrite IH.
    destruct (PiLogger.accepted input) as [parsed|] eqn:E.
    + rewrite (pi_step_accepted _ _ _ E). cbn [PiLogger.csv].
      unfold write_csv_row, update_csv_columns.
      destruct (observe_loop _ _) as [columns flag]. cbn.
      destruct (csv_headers_written (PiLogger.csv self)); cbn;
        rewrite ?List.filter_app; cbn; rewrite ?length_app; cbn; lia.
    + rewrite pi_step_rejected by exact E. reflexivity.
Qed.

End PiLoopFacts.

(** X7. On the Raspberry Pi a line that the parser rejects (blank, without
    a comma, or without any "name value" part) leaves no trace: the state
    after a session is the state after its accepted lines alone.
    [data_count] is the number of accepted lines and of data rows in the
    log, [latest_data] is the mapping of the last accepted line, and the log
    has one header line if any line was accepted and is empty otherwise. *)
Theorem pi_rejected_lines_leave_no_trace {F : Type} `{Arith F}
  `{FloatParser F} (inputs : list (string * string)) :
  let s := PiLogger.run inputs (@PiLogger.init F) in
  let mappings := omap PiLogger.accepted inputs in
  let log := log_file (PiLogger.csv s) in
  s = PiLogger.run
        (List.filter (fun i => bool_decide (is_Some (PiLogger.accepted i)))
           inputs)
        PiLogger.init
  /\ PiLogger.data_count s = length mappings
  /\ length (List.filter (fun w => negb (is_header w)) log) = length mappings
  /\ length (List.filter is_header log) = Nat.min 1 (length mappings)
  /\ PiLogger.latest_data s = default PyDict.empty (last mappings).
Proof.
  intros s mappings log. split; [apply pi_run_filter|].
  destruct (pi_run_rows inputs (@PiLogger.init F)) as (H1 & H2 & H3).
  pose proof (pi_run_headers inputs (@PiLogger.init F)) as H4.
  repeat split; assumption.
Qed.

(** X8. The Raspberry Pi statistics of a session are those of each
    parameter's own stream. No entry exists before the first number;
    afterwards [count] is the number of numbers, never 0 (the guard
    [count == 0] of [save_statistics] skips no parameter), and [values]
    holds the last 100 of them. *)
Theorem pi_parameter_stats_follow_the_stream {F : Type} `{Arith F}
  `{FloatParser F} (inputs : list (string * string)) (param : string) :
  let numbers := PiLogger.observations param inputs in
  let ps := PiLogger.parameter_stats (PiLogger.run inputs PiLogger.init) in
  ps !! param = Pi.feed param numbers ∅ !! param
  /\ match ps !! param with
     | None => numbers = []
     | Some s =>
         Pi.p_count s = length numbers
         /\ Pi.p_count s <> 0%nat
         /\ Pi.p_values s = drop (length numbers - Pi.maxlen) numbers
     end.
Proof.
  intros numbers ps.
  assert (ps !! param = Pi.feed param numbers ∅ !! param) as E
    by apply pi_run_stats_lookup.
  split; [exact E|].
  destruct numbers as [|v vs] eqn:En.
  - simpl in E. rewrite lookup_empty in E. now rewrite E.
  - rewrite pi_feed_lookup_fresh in E. rewrite E.
    destruct (pi_feed_entry_fields vs (Pi.update_param v None))
      as (Hv & Hc & _).
    split; [rewrite Hc; simpl; lia|].
    split; [rewrite Hc; simpl; lia|].
    rewrite Hv. change (Pi.p_values (Pi.update_param v None))
      with (deque_append Pi.maxlen [] v).
    change (fold_left (deque_append Pi.maxlen) vs
              (deque_append Pi.maxlen [] v))
      with (fold_left (deque_append Pi.maxlen) (v :: vs) []).
    rewrite deque_fold_drop by (simpl; lia). reflexivity.
Qed.

(** ** Exact arithmetic: extrema and the Raspberry Pi summary *)

(** X9. Under exact arithmetic, what the Raspberry Pi reports for a
    parameter after the numbers [v :: vs]: [min] and [max] are the smallest
    and the largest of all of them, and [mean] is their arithmetic mean
    (all of them, not the last 100), which lies between [min] and [max];
    [save_statistics] has a row for the parameter. *)
Theorem pi_mean_and_extrema_are_all_time (param : string) (v : R)
  (vs : list R) :
  exists s,
    Pi.feed param (v :: vs) ∅ !! param = Some s
    /\ extrema_of (Pi.p_min s) (Pi.p_max s) (v :: vs)
    /\ Pi.saved_mean s
       = (fold_left Rplus (v :: vs) 0 / INR (length (v :: vs)))%R
    /\ (Pi.p_min s <= Pi.saved_mean s <= Pi.p_max s)%R
    /\ Pi.save_statistics (Pi.feed param (v :: vs) ∅) !! param
       = Some (Pi.p_min s, Pi.p_max s, Pi.saved_mean s, Pi.saved_std_dev s,
               Pi.p_count s).
Proof.
  exists (Pi.feed_entry vs (Pi.update_param v None)).
  split; [apply pi_feed_lookup_fresh|].
  pose proof (pi_feed_entry_extrema vs (Pi.update_param v None) [v]
                (extrema_singleton v)) as Hex.
  cbv zeta in Hex. simpl app in Hex.
  destruct (pi_feed_entry_fields vs (Pi.update_param v None))
    as (_ & Hc & Hs).
  assert (Pi.saved_mean (Pi.feed_entry vs (Pi.update_param v None))
          = (fold_left Rplus (v :: vs) 0 / INR (length (v :: vs)))%R) as Hm.
  { unfold Pi.saved_mean. rewrite Hc, Hs. cbn [Pi.update_param Pi.p_sum Pi.p_count].
    simpl fold_left. rewrite Rplus_0_l.
    cbn [fdiv of_int fadd real_arith]. rewrite <- INR_IZR_INZ.
    reflexivity. }
  split; [exact Hex|]. split; [exact Hm|]. split.
  - rewrite Hm. apply extrema_mean_bounds; [discriminate | exact Hex].
  - unfold Pi.save_statistics. rewrite lookup_fmap.
    erewrite (proj2 (map_lookup_filter_Some _ _ _ _)); [reflexivity|].
    split; [apply pi_feed_lookup_fresh|]. cbn [snd]. rewrite Hc. simpl. lia.
Qed.

(** X10. Under exact arithmetic, the [std_dev] that the Raspberry Pi
    reports is taken over the last 100 values but about the all-time mean:
    its square is the variance of the window plus the squared distance
    between the window's mean and the all-time mean, so it is never below
    the window's own standard deviation. *)
Theorem pi_std_dev_is_about_the_all_time_mean (param : string) (v : R)
  (vs : list R) :
  vs <> [] ->
  exists s,
    Pi.feed param (v :: vs) ∅ !! param = Some s
    /\ let w := Pi.p_values s in
       w = drop (length (v :: vs) - Pi.maxlen) (v :: vs)
       /\ Pi.saved_std_dev s
          = R_sqrt.sqrt (window_variance (window_mean w) w
                         + (window_mean w - Pi.saved_mean s)
                           * (window_mean w - Pi.saved_mean s))%R
       /\ (R_sqrt.sqrt (window_variance (window_mean w) w)
           <= Pi.saved_std_dev s)%R.
Proof.
  intros Hne.
  exists (Pi.feed_entry vs (Pi.update_param v None)).
  split; [apply pi_feed_lookup_fresh|]. cbv zeta.
  destruct (pi_feed_entry_fields vs (Pi.update_param v None))
    as (Hv & _ & _).
  assert (Pi.p_values (Pi.feed_entry vs (Pi.update_param v None))
          = drop (length (v :: vs) - Pi.maxlen) (v :: vs)) as Hw.
  { rewrite Hv. change (Pi.p_values (Pi.update_param v None))
      with (deque_append Pi.maxlen [] v).
    change (fold_left (deque_append Pi.maxlen) vs
              (deque_append Pi.maxlen [] v))
      with (fold_left (deque_append Pi.maxlen) (v :: vs) []).
    rewrite deque_fold_drop by (simpl; lia). reflexivity. }
  split; [exact Hw|].
  set (s := Pi.feed_entry vs (Pi.update_param v None)) in *.
  assert (1 < length (Pi.p_values s))%nat as Hlen.
  { rewrite Hw, length_drop. unfold Pi.maxlen.
    destruct vs; [congruence | simpl; lia]. }
  assert (Pi.p_values s <> []) as Hnil.
  { intros E. rewrite E in Hlen. simpl in Hlen. lia. }
  assert (Pi.saved_std_dev s
          = R_sqrt.sqrt (window_variance (Pi.saved_mean s) (Pi.p_values s)))
    as Hsd.
  { unfold Pi.saved_std_dev.
    destruct (Nat.ltb_spec 1 (length (Pi.p_values s))); [reflexivity | lia]. }
  rewrite Hsd, (variance_about (Pi.saved_mean s) _ Hnil).
  split; [reflexivity|].
  apply sqrt_le_1_alt.
  pose proof (Rle_0_sqr (window_mean (Pi.p_values s) - Pi.saved_mean s)) as Hsq.
  unfold Rsqr in Hsq. lra.
Qed.

Lemma pi_std_dev_is_about_the_all_time_mean_witness :
  exists s,
    Pi.feed "S" [1; 3; 8]%R ∅ !! "S" = Some s
    /\ let w := Pi.p_values s in
       w = drop (length [1; 3; 8]%R - Pi.maxlen) [1; 3; 8]%R
       /\ Pi.saved_std_dev s
          = R_sqrt.sqrt (window_variance (window_mean w) w
                         + (window_mean w - Pi.saved_mean s)
                           * (window_mean w - Pi.saved_mean s))%R
       /\ (R_sqrt.sqrt (window_variance (window_mean w) w)
           <= Pi.saved_std_dev s)%R.
Proof.
  apply (pi_std_dev_is_about_the_all_time_mean "S" 1%R [3; 8]%R).
  discriminate.
Defined.

(** ** The main loop and the display series *)

Section MainLoopFacts.

Import PyStr.

Context {F : Type} `{Arith F} `{FloatParser F} `{PowError F}.
Variables K VIZ MAX_DATAPOINTS EVERY : nat.

Lemma field_fold_stats items : forall st (viz : MainLoop.VizData F),
  fst (fold_left (MainLoop.field_step K VIZ) items (st, viz))
  = fold_left (stats_step K) items st.
Proof.
  induction items as [|[k v] items IH]; intros st viz; [reflexivity|].
  simpl. destruct (py_float v); apply IH.
Qed.

Lemma mem_singleton k name : mem k [name] = String.eqb k name.
Proof. unfold mem. simpl. apply orb_false_r. Qed.

Lemma viz_append_series key value (viz : MainLoop.VizData F) :
  let viz' := MainLoop.viz_append VIZ key value viz in
  MainLoop.wind_speed viz'
  = fold_left (deque_append VIZ)
      (if mem key ["S"; "S2"] then [value] else []) (MainLoop.wind_speed viz)
  /\ MainLoop.temperature viz'
     = fold_left (deque_append VIZ)
         (if mem key ["T"] then [value] else []) (MainLoop.temperature viz)
  /\ MainLoop.wind_direction viz'
     = fold_left (deque_append VIZ)
         (if mem key ["D"] then [value] else [])
         (MainLoop.wind_direction viz)
  /\ MainLoop.timestamps viz' = MainLoop.timestamps viz.
Proof.
  cbv zeta. unfold MainLoop.viz_append. rewrite !mem_singleton.
  destruct (mem key ["S"; "S2"]) eqn:ES.
  - assert (String.eqb key "T" = false /\ String.eqb key "D" = false)
      as [-> ->].
    { split; apply String.eqb_neq; intros ->; discriminate. }
    repeat split.
  - destruct (String.eqb key "T") eqn:ET.
    + assert (String.eqb key "D" = false) as ->.
      { apply String.eqb_eq in ET. now subst key. }
      repeat split.
    + destruct (String.eqb key "D"); repeat split.
Qed.

Lemma omap_numeric_cons names k v (items : list (string * string)) :
  omap (MainLoop.numeric_field (F:=F) names) ((k, v) :: items) =
  (if mem k names then option_list (py_float v) else [])
  ++ omap (MainLoop.numeric_field names) items.
Proof.
  rewrite omap_cons. unfold MainLoop.numeric_field at 1. simpl fst. simpl snd.
  destruct (mem k names); [|reflexivity].
  now destruct (py_float v).
Qed.

Lemma field_fold_series items : forall st (viz : MainLoop.VizData F),
  let viz' := snd (fold_left (MainLoop.field_step K VIZ) items (st, viz)) in
  MainLoop.wind_speed viz'
  = fold_left (deque_append VIZ)
      (omap (MainLoop.numeric_field ["S"; "S2"]) items)
      (MainLoop.wind_speed viz)
  /\ MainLoop.temperature viz'
     = fold_left (deque_append VIZ)
         (omap (MainLoop.numeric_field ["T"]) items)
         (MainLoop.temperature viz)
  /\ MainLoop.wind_direction viz'
     = fold_left (deque_append VIZ)
         (omap (MainLoop.numeric_field ["D"]) items)
         (MainLoop.wind_direction viz)
  /\ MainLoop.timestamps viz' = MainLoop.timestamps viz.
Proof.
  induction items as [|[k v] items IH]; intros st viz; [now repeat split|].
  cbv zeta. rewrite !omap_numeric_cons, !fold_left_app.
  change (fold_left (MainLoop.field_step K VIZ) ((k, v) :: items) (st, viz))
    with (fold_left (MainLoop.field_step K VIZ) items
            (MainLoop.field_step K VIZ (st, viz) (k, v))).
  cbn [MainLoop.field_step].
  destruct (py_float v) as [x|].
  - destruct (IH (calculate_statistics K k x st)
                (MainLoop.viz_append VIZ k x viz)) as (I1 & I2 & I3 & I4).
    destruct (viz_append_series k x viz) as (A1 & A2 & A3 & A4).
    rewrite I1, I2, I3, I4, A1, A2, A3, A4.
    destruct (mem k ["S"; "S2"]), (mem k ["T"]), (mem k ["D"]);
      repeat split.
  - destruct (IH st viz) as (I1 & I2 & I3 & I4).
    rewrite I1, I2, I3, I4.
    destruct (mem k ["S"; "S2"]), (mem k ["T"]), (mem k ["D"]);
      repeat split.
Qed.

Lemma calculate_quiet key value (st : gmap string (Statistics F)) :
  snd (MainLoop.calculate_statistics K key value st) = false ->
  fst (MainLoop.calculate_statistics K key value st)
  = calculate_statistics K key value st.
Proof.
  unfold MainLoop.calculate_statistics, calculate_statistics.
  destruct (_ && _ && _); [discriminate | reflexivity].
Qed.

Lemma field_loop_quiet items : forall st (viz : MainLoop.VizData F),
  snd (MainLoop.field_loop K VIZ items st viz) = false ->
  fst (MainLoop.field_loop K VIZ items st viz)
  = fold_left (MainLoop.field_step K VIZ) items (st, viz).
Proof.
  induction items as [|[k v] items IH]; intros st viz; [reflexivity|].
  simpl. destruct (py_float v) as [x|]; [|apply IH].
  pose proof (calculate_quiet k x st) as Hq.
  destruct (MainLoop.calculate_statistics K k x st) as [st' raised].
  destruct raised; [discriminate|].
  simpl in Hq. rewrite <- (Hq eq_refl). apply IH.
Qed.

Lemma field_loop_timestamps items : forall st (viz : MainLoop.VizData F),
  MainLoop.timestamps (snd (fst (MainLoop.field_loop K VIZ items st viz)))
  = MainLoop.timestamps viz.
Proof.
  induction items as [|[k v] items IH]; intros st viz; [reflexivity|].
  simpl. destruct (py_float v) as [x|]; [|apply IH].
  destruct (MainLoop.calculate_statistics K k x st) as [st' raised].
  destruct raised; [reflexivity|].
  rewrite IH. now destruct (viz_append_series k x viz) as (_ & _ & _ & A4).
Qed.

Lemma stats_after_row now parsed (lg : Logger F) :
  stats (write_csv_row now parsed (fst (update_csv_columns parsed lg)))
  = stats lg.
Proof.
  unfold write_csv_row, update_csv_columns.
  destruct (observe_loop _ _) as [columns flag]. cbn.
  now destruct (csv_headers_written lg).
Qed.

Lemma main_read_blank input (self : MainLoop.Session F) :
  blank input = true -> MainLoop.read_serial_data K VIZ (fst input) (snd input) self = (self, None).
Proof.
  unfold blank, MainLoop.read_serial_data. now intros ->.
Qed.

Lemma main_step_blank input (self : MainLoop.Session F) :
  blank input = true -> MainLoop.loop_step K VIZ MAX_DATAPOINTS EVERY self input = self.
Proof.
  intros E. unfold MainLoop.loop_step. now rewrite main_read_blank.
Qed.

Lemma data_point_of_blank input :
  blank input = true -> MainLoop.data_point_of input = None.
Proof. unfold MainLoop.data_point_of. now intros ->. Qed.

Lemma series_values_blank names input :
  blank input = true -> MainLoop.series_values (F:=F) names input = [].
Proof. unfold MainLoop.series_values. now intros ->. Qed.

(** One turn on a line that is not dropped, field by field. *)
Lemma main_step_nonblank input (self : MainLoop.Session F) :
  blank input = false -> MainLoop.raises K VIZ self input = false ->
  exists data_point viz,
    MainLoop.data_point_of input = Some data_point
    /\ timestamp data_point = fst input
    /\ MainLoop.wind_speed viz
       = fold_left (deque_append VIZ)
           (MainLoop.series_values ["S"; "S2"] input)
           (MainLoop.wind_speed (MainLoop.viz_data self))
    /\ MainLoop.temperature viz
       = fold_left (deque_append VIZ)
           (MainLoop.series_values ["T"] input)
           (MainLoop.temperature (MainLoop.viz_data self))
    /\ MainLoop.wind_direction viz
       = fold_left (deque_append VIZ)
           (MainLoop.series_values ["D"] input)
           (MainLoop.wind_direction (MainLoop.viz_data self))
    /\ MainLoop.timestamps viz
       = deque_append VIZ (MainLoop.timestamps (MainLoop.viz_data self))
           (fst input)
    /\ MainLoop.loop_step K VIZ MAX_DATAPOINTS EVERY self input =
       let self2 :=
         MainLoop.mkSession
           (fst (read_serial_data K (fst input) (snd input)
                   (MainLoop.logger self)))
           viz (S (MainLoop.point_count self))
           (deque_append MAX_DATAPOINTS (MainLoop.data_points self)
              data_point)
           (MainLoop.save_statistics self) (MainLoop.stats_file self) in
       if (S (MainLoop.point_count self) mod EVERY =? 0)%nat
       then MainLoop.save_final_statistics self2 else self2.
Proof.
  intros E Hq. destruct input as [now raw].
  unfold MainLoop.raises in Hq. rewrite E in Hq.
  unfold MainLoop.data_point_of, MainLoop.series_values. rewrite E.
  unfold MainLoop.loop_step, MainLoop.read_serial_data.
  rewrite read_nonblank by exact E.
  unfold blank in E. simpl fst in *. simpl snd in *. rewrite E.
  set (parsed := parse_data_line (strip raw)) in *.
  set (logger2 := write_csv_row now parsed
                    (fst (update_csv_columns parsed (MainLoop.logger self)))).
  assert (stats logger2 = stats (MainLoop.logger self)) as Hs2
    by apply stats_after_row.
  rewrite <- Hs2 in Hq.
  pose proof (field_loop_quiet (PyDict.items parsed) (stats logger2)
                (MainLoop.viz_data self) Hq) as Hfl.
  pose proof (field_fold_stats (PyDict.items parsed) (stats logger2)
                (MainLoop.viz_data self)) as Hst.
  pose proof (field_fold_series (PyDict.items parsed) (stats logger2)
                (MainLoop.viz_data self)) as Hviz.
  rewrite <- Hfl in Hst, Hviz.
  destruct (MainLoop.field_loop K VIZ (PyDict.items parsed) (stats logger2)
              (MainLoop.viz_data self)) as [[stats' viz] raised].
  simpl in Hq. subst raised.
  cbv zeta in Hviz. simpl fst in Hst. simpl snd in Hviz.
  destruct Hviz as (V1 & V2 & V3 & V4).
  eexists. eexists. split; [reflexivity|].
  split; [reflexivity|].
  split; [|split; [|split; [|split]]]; cycle 4.
  - cbn [MainLoop.point_count MainLoop.logger MainLoop.viz_data
         MainLoop.data_points MainLoop.save_statistics MainLoop.stats_file].
    rewrite Hst. subst logger2.
    unfold write_csv_row, update_csv_columns.
    destruct (observe_loop _ _) as [columns flag]. cbn.
    destruct (csv_headers_written (MainLoop.logger self)); reflexivity.
  - cbn [MainLoop.wind_speed]. exact V1.
  - cbn [MainLoop.temperature]. exact V2.
  - cbn [MainLoop.wind_direction]. exact V3.
  - cbn [MainLoop.timestamps]. now rewrite V4.
Qed.

(** One turn on a line that makes the field loop raise: the row is
    written, nothing is counted. *)
Lemma main_step_raised input (self : MainLoop.Session F) :
  blank input = false -> MainLoop.raises K VIZ self input = true ->
  exists stats' viz,
    MainLoop.loop_step K VIZ MAX_DATAPOINTS EVERY self input =
    (let r := fst (read_serial_data K (fst input) (snd input)
                     (MainLoop.logger self)) in
     MainLoop.mkSession
       (mkLogger (csv_columns r) (csv_headers_written r) (log_file r) stats')
       viz (MainLoop.point_count self) (MainLoop.data_points self)
       (MainLoop.save_statistics self) (MainLoop.stats_file self))
    /\ MainLoop.timestamps viz = MainLoop.timestamps (MainLoop.viz_data self).
Proof.
  intros E Hq. destruct input as [now raw].
  unfold MainLoop.raises in Hq. rewrite E in Hq.
  unfold MainLoop.loop_step, MainLoop.read_serial_data.
  rewrite read_nonblank by exact E.
  unfold blank in E. simpl fst in *. simpl snd in *. rewrite E.
  set (parsed := parse_data_line (strip raw)) in *.
  set (logger2 := write_csv_row now parsed
                    (fst (update_csv_columns parsed (MainLoop.logger self)))).
  assert (stats logger2 = stats (MainLoop.logger self)) as Hs2
    by apply stats_after_row.
  rewrite <- Hs2 in Hq.
  pose proof (field_loop_timestamps (PyDict.items parsed) (stats logger2)
                (MainLoop.viz_data self)) as Hts.
  destruct (MainLoop.field_loop K VIZ (PyDict.items parsed) (stats logger2)
              (MainLoop.viz_data self)) as [[stats' viz] raised].
  simpl in Hq, Hts. subst raised.
  exists stats', viz. split; [|exact Hts].
  cbv zeta. cbn [fst]. subst logger2.
  unfold write_csv_row, update_csv_columns.
  destruct (observe_loop _ _) as [columns flag]. cbn.
  destruct (csv_headers_written (MainLoop.logger self)); reflexivity.
Qed.

Lemma save_final_fields (self : MainLoop.Session F) :
  let s := MainLoop.save_final_statistics self in
  MainLoop.logger s = MainLoop.logger self
  /\ MainLoop.viz_data s = MainLoop.viz_data self
  /\ MainLoop.point_count s = MainLoop.point_count self
  /\ MainLoop.data_points s = MainLoop.data_points self
  /\ MainLoop.save_statistics s = MainLoop.save_statistics self.
Proof.
  cbv zeta. unfold MainLoop.save_final_statistics.
  destruct (MainLoop.stats_file self); [|now repeat split].
  destruct (MainLoop.save_statistics self) eqn:E; cbn;
    repeat split; try reflexivity; exact E.
Qed.

Lemma option_if_fields (b : bool) (self2 : MainLoop.Session F) :
  let s := if b then MainLoop.save_final_statistics self2 else self2 in
  MainLoop.logger s = MainLoop.logger self2
  /\ MainLoop.viz_data s = MainLoop.viz_data self2
  /\ MainLoop.point_count s = MainLoop.point_count self2
  /\ MainLoop.data_points s = MainLoop.data_points self2
  /\ MainLoop.save_statistics s = MainLoop.save_statistics self2.
Proof.
  destruct b; [apply save_final_fields | now repeat split].
Qed.

Lemma main_run_cons input inputs (self : MainLoop.Session F) :
  MainLoop.run K VIZ MAX_DATAPOINTS EVERY (input :: inputs) self =
  MainLoop.run K VIZ MAX_DATAPOINTS EVERY inputs
    (MainLoop.loop_step K VIZ MAX_DATAPOINTS EVERY self input).
Proof. reflexivity. Qed.

Lemma main_run_snoc inputs input (self : MainLoop.Session F) :
  MainLoop.run K VIZ MAX_DATAPOINTS EVERY (inputs ++ [input]) self =
  MainLoop.loop_step K VIZ MAX_DATAPOINTS EVERY
    (MainLoop.run K VIZ MAX_DATAPOINTS EVERY inputs self) input.
Proof. unfold MainLoop.run. now rewrite fold_left_app. Qed.

Lemma quiet_cons input inputs (self : MainLoop.Session F) :
  MainLoop.quiet K VIZ MAX_DATAPOINTS EVERY (input :: inputs) self =
  negb (MainLoop.raises K VIZ self input)
  && MainLoop.quiet K VIZ MAX_DATAPOINTS EVERY inputs
       (MainLoop.loop_step K VIZ MAX_DATAPOINTS EVERY self input).
Proof. reflexivity. Qed.

Lemma quiet_app inputs more : forall self : MainLoop.Session F,
  MainLoop.quiet K VIZ MAX_DATAPOINTS EVERY (inputs ++ more) self =
  MainLoop.quiet K VIZ MAX_DATAPOINTS EVERY inputs self
  && MainLoop.quiet K VIZ MAX_DATAPOINTS EVERY more
       (MainLoop.run K VIZ MAX_DATAPOINTS EVERY inputs self).
Proof.
  induction inputs as [|input inputs IH]; intros self; [reflexivity|].
  change ((input :: inputs) ++ more) with (input :: (inputs ++ more)).
  rewrite !quiet_cons, IH, main_run_cons. now rewrite andb_assoc.
Qed.

Lemma raises_blank input (self : MainLoop.Session F) :
  blank input = true -> MainLoop.raises K VIZ self input = false.
Proof. unfold MainLoop.raises. now intros ->. Qed.

(** In an arithmetic where squaring never raises, no line does. *)
Lemma field_loop_exact items :
  (forall x : F, pow2_raises x = false) ->
  forall st (viz : MainLoop.VizData F),
  snd (MainLoop.field_loop K VIZ items st viz) = false.
Proof.
  intros Hex. induction items as [|[k v] items IH]; intros st viz;
    [reflexivity|].
  simpl. destruct (py_float v) as [x|]; [|apply IH].
  unfold MainLoop.calculate_statistics.
  assert (forall mean xs, MainLoop.variance_raises mean xs = false) as Hv.
  { intros mean xs. unfold MainLoop.variance_raises.
    induction xs as [|y xs IHx]; [reflexivity|].
    simpl. now rewrite Hex, IHx. }
  rewrite Hv, andb_false_r. apply IH.
Qed.

Lemma quiet_exact inputs :
  (forall x : F, pow2_raises x = false) ->
  forall self : MainLoop.Session F,
  MainLoop.quiet K VIZ MAX_DATAPOINTS EVERY inputs self = true.
Proof.
  intros Hex. induction inputs as [|input inputs IH]; intros self;
    [reflexivity|].
  rewrite quiet_cons, IH, andb_true_r. apply negb_true_iff.
  unfold MainLoop.raises. destruct (blank input); [reflexivity|].
  now apply field_loop_exact.
Qed.

(** The fields of the session after inputs none of which raises, but for
    the statistics file. *)
Lemma main_run_fields inputs : forall self : MainLoop.Session F,
  MainLoop.quiet K VIZ MAX_DATAPOINTS EVERY inputs self = true ->
  let s := MainLoop.run K VIZ MAX_DATAPOINTS EVERY inputs self in
  let points := omap MainLoop.data_point_of inputs in
  MainLoop.logger s = run K inputs (MainLoop.logger self)
  /\ MainLoop.point_count s
     = (MainLoop.point_count self + length points)%nat
  /\ MainLoop.data_points s
     = fold_left (deque_append MAX_DATAPOINTS) points
         (MainLoop.data_points self)
  /\ MainLoop.wind_speed (MainLoop.viz_data s)
     = fold_left (deque_append VIZ)
         (flat_map (MainLoop.series_values ["S"; "S2"]) inputs)
         (MainLoop.wind_speed (MainLoop.viz_data self))
  /\ MainLoop.temperature (MainLoop.viz_data s)
     = fold_left (deque_append VIZ)
         (flat_map (MainLoop.series_values ["T"]) inputs)
         (MainLoop.temperature (MainLoop.viz_data self))
  /\ MainLoop.wind_direction (MainLoop.viz_data s)
     = fold_left (deque_append VIZ)
         (flat_map (MainLoop.series_values ["D"]) inputs)
         (MainLoop.wind_direction (MainLoop.viz_data self))
  /\ MainLoop.timestamps (MainLoop.viz_data s)
     = fold_left (deque_append VIZ) (map timestamp points)
         (MainLoop.timestamps (MainLoop.viz_data self))
  /\ MainLoop.save_statistics s = MainLoop.save_statistics self.
Proof.
  induction inputs as [|input inputs IH]; intros self Hq.
  - cbv zeta. simpl; repeat split; lia.
  - rewrite quiet_cons in Hq. apply andb_true_iff in Hq as [Hr Hq].
    apply negb_true_iff in Hr.
    cbv zeta. rewrite main_run_cons, omap_cons, run_cons.
    cbn [flat_map]. rewrite !fold_left_app.
    specialize (IH (MainLoop.loop_step K VIZ MAX_DATAPOINTS EVERY self input)
                  Hq).
    cbv zeta in IH.
    destruct IH as (I1 & I2 & I3 & I4 & I5 & I6 & I7 & I8).
    rewrite I1, I2, I3, I4, I5, I6, I7, I8. clear I1 I2 I3 I4 I5 I6 I7 I8.
    destruct (blank input) eqn:E.
    + rewrite main_step_blank by exact E.
      rewrite (data_point_of_blank _ E), !(series_values_blank _ _ E).
      destruct input as [now raw]. rewrite read_blank by exact E.
      simpl; repeat split; lia.
    + destruct (main_step_nonblank input self E Hr)
        as (dp & viz & Hdp & Hts & V1 & V2 & V3 & V4 & Hstep).
      rewrite Hstep, Hdp. cbv zeta.
      match goal with
      | |- context [if ?b then MainLoop.save_final_statistics ?s2 else ?s2] =>
          destruct (option_if_fields b s2) as (O1 & O2 & O3 & O4 & O5)
      end.
      cbv zeta in O1, O2, O3, O4, O5.
      rewrite O1, O2, O3, O4, O5.
      cbn [MainLoop.logger MainLoop.viz_data MainLoop.point_count
           MainLoop.data_points MainLoop.save_statistics].
      rewrite V1, V2, V3, V4, <- Hts. simpl; repeat split; lia.
Qed.

(** *** The data log does not depend on the statistics *)

Lemma same_log_refl (a : Logger F) : same_log a a.
Proof. now repeat split. Qed.

Lemma read_same_log now raw (a b : Logger F) :
  same_log a b ->
  same_log (fst (read_serial_data K now raw a))
    (fst (read_serial_data K now raw b)).
Proof.
  intros (Hc & Hw & Hl). destruct (blank (now, raw)) eqn:E.
  - rewrite !read_blank by exact E. now repeat split.
  - rewrite !read_nonblank by exact E. cbv zeta. unfold same_log. cbn.
    now rewrite Hc, Hw, Hl.
Qed.

Lemma run_same_log inputs : forall a b : Logger F,
  same_log a b -> same_log (run K inputs a) (run K inputs b).
Proof.
  induction inputs as [|[now raw] inputs IH]; intros a b Hab; [exact Hab|].
  rewrite !run_cons. apply IH. now apply read_same_log.
Qed.

Lemma main_step_same_log input (self : MainLoop.Session F) :
  let s := MainLoop.loop_step K VIZ MAX_DATAPOINTS EVERY self input in
  same_log (MainLoop.logger s)
    (fst (read_serial_data K (fst input) (snd input) (MainLoop.logger self)))
  /\ (MainLoop.point_count s
      <= MainLoop.point_count self
         + length (option_list (MainLoop.data_point_of input)))%nat.
Proof.
  cbv zeta. destruct (blank input) eqn:E.
  - rewrite main_step_blank by exact E. destruct input as [now raw].
    rewrite read_blank by exact E. split; [apply same_log_refl | lia].
  - destruct (MainLoop.raises K VIZ self input) eqn:Hr.
    + destruct (main_step_raised input self E Hr) as (st & viz & -> & _).
      cbv zeta. cbn [MainLoop.logger MainLoop.point_count].
      split; [now repeat split | lia].
    + destruct (main_step_nonblank input self E Hr)
        as (dp & viz & Hdp & _ & _ & _ & _ & _ & ->).
      cbv zeta. rewrite Hdp.
      match goal with
      | |- context [if ?b then MainLoop.save_final_statistics ?s2 else ?s2] =>
          destruct (option_if_fields b s2) as (O1 & _ & O3 & _)
      end.
      cbv zeta in O1, O3. rewrite O1, O3.
      cbn [MainLoop.logger MainLoop.point_count].
      split; [apply same_log_refl | simpl; lia].
Qed.

Lemma main_run_same_log inputs : forall self : MainLoop.Session F,
  let s := MainLoop.run K VIZ MAX_DATAPOINTS EVERY inputs self in
  same_log (MainLoop.logger s) (run K inputs (MainLoop.logger self))
  /\ (MainLoop.point_count s
      <= MainLoop.point_count self
         + length (omap MainLoop.data_point_of inputs))%nat.
Proof.
  induction inputs as [|input inputs IH]; intros self.
  - cbv zeta. simpl. split; [apply same_log_refl | lia].
  - cbv zeta. rewrite main_run_cons, run_cons, omap_cons.
    destruct (IH (MainLoop.loop_step K VIZ MAX_DATAPOINTS EVERY self input))
      as [IH1 IH2].
    destruct (main_step_same_log input self) as [L1 L2].
    cbv zeta in IH1, IH2, L1, L2. split.
    + destruct IH1 as (A1 & A2 & A3).
      destruct (run_same_log inputs _ _ L1) as (B1 & B2 & B3).
      repeat split; congruence.
    + destruct (MainLoop.data_point_of input); simpl in *; lia.
Qed.

Lemma run_rows inputs : forall self : Logger F,
  length (List.filter (fun w => negb (is_header w))
            (log_file (run K inputs self)))
  = (length (List.filter (fun w => negb (is_header w)) (log_file self))
     + length (omap MainLoop.data_point_of inputs))%nat.
Proof.
  induction inputs as [|[now raw] inputs IH]; intros self.
  - simpl. lia.
  - rewrite run_cons, IH, omap_cons. simpl fst. simpl snd.
    unfold MainLoop.data_point_of.
    destruct (blank (now, raw)) eqn:E.
    + rewrite read_blank by exact E. reflexivity.
    + rewrite read_nonblank by exact E. cbv zeta. cbn [fst log_file].
      destruct (csv_headers_written self);
        rewrite ?List.filter_app; cbn; rewrite ?length_app; cbn; lia.
Qed.

Lemma div_succ (n : nat) :
  (0 < EVERY)%nat ->
  (S n / EVERY = n / EVERY + (if S n mod EVERY =? 0 then 1 else 0))%nat
  /\ ((S n mod EVERY =? 0)%nat = true ->
      S n = ((n / EVERY + 1) * EVERY)%nat).
Proof.
  intros HE.
  pose proof (Nat.div_mod_eq n EVERY) as Hn.
  pose proof (Nat.mod_upper_bound n EVERY ltac:(lia)) as Hr.
  destruct (Nat.eq_dec (n mod EVERY + 1)%nat EVERY) as [Heq|Hne].
  - assert (S n mod EVERY = 0)%nat as Hm.
    { symmetry. apply (Nat.mod_unique _ _ (n / EVERY + 1)%nat); [lia | nia]. }
    assert (S n / EVERY = n / EVERY + 1)%nat as Hd.
    { symmetry. apply (Nat.div_unique _ _ _ 0%nat); [lia | nia]. }
    rewrite Hm, Hd. simpl. split; [reflexivity|]. intros _. nia.
  - assert (S n mod EVERY = n mod EVERY + 1)%nat as Hm.
    { symmetry. apply (Nat.mod_unique _ _ (n / EVERY)%nat); [lia | nia]. }
    assert (S n / EVERY = n / EVERY)%nat as Hd.
    { symmetry. apply (Nat.div_unique _ _ _ (n mod EVERY + 1)%nat); [lia | nia]. }
    rewrite Hm, Hd.
    destruct (Nat.eqb_spec (n mod EVERY + 1)%nat 0%nat); [lia|].
    split; [lia | discriminate].
Qed.

Lemma main_run_no_file inputs : forall self : MainLoop.Session F,
  MainLoop.stats_file self = None ->
  MainLoop.stats_file (MainLoop.run K VIZ MAX_DATAPOINTS EVERY inputs self)
  = None.
Proof.
  induction inputs as [|input inputs IH]; intros self Hf; [exact Hf|].
  rewrite main_run_cons. apply IH.
  destruct (blank input) eqn:E.
  - now rewrite main_step_blank.
  - destruct (MainLoop.raises K VIZ self input) eqn:Hr.
    + now destruct (main_step_raised input self E Hr) as (st & viz & -> & _).
    + destruct (main_step_nonblank input self E Hr)
        as (dp & viz & _ & _ & _ & _ & _ & _ & Hstep).
      rewrite Hstep. cbv zeta. unfold MainLoop.save_final_statistics.
      cbn [MainLoop.stats_file]. rewrite Hf.
      now destruct (_ =? 0)%nat.
Qed.

(** The flushes of the statistics file: one every [EVERY] data points,
    each with the statistics as they were right after that point. *)
Lemma main_run_checkpoints inputs :
  (0 < EVERY)%nat ->
  MainLoop.quiet K VIZ MAX_DATAPOINTS EVERY inputs (MainLoop.init true)
  = true ->
  exists flushes,
    MainLoop.stats_file
      (MainLoop.run K VIZ MAX_DATAPOINTS EVERY inputs (MainLoop.init true))
    = Some flushes
    /\ length flushes
       = (length (omap MainLoop.data_point_of inputs) / EVERY)%nat
    /\ forall j snapshot,
         flushes !! j = Some snapshot ->
         exists pre post,
           inputs = pre ++ post
           /\ length (omap MainLoop.data_point_of pre) = ((j + 1) * EVERY)%nat
           /\ snapshot = MainLoop.stat_row <$> stats (run K pre init).
Proof.
  intros HE. induction inputs as [|input inputs IH] using rev_ind; intros Hq.
  - exists []. split; [reflexivity|]. split.
    + simpl. symmetry. apply Nat.Div0.div_0_l.
    + intros j snapshot Hj. discriminate.
  - rewrite quiet_app in Hq. apply andb_true_iff in Hq as [Hq Hlast].
    destruct (IH Hq) as (flushes & Hf & Hlen & Hsnap).
    rewrite main_run_snoc, omap_app, length_app.
    set (s := MainLoop.run K VIZ MAX_DATAPOINTS EVERY inputs
                (MainLoop.init true)) in *.
    destruct (main_run_fields inputs (MainLoop.init true) Hq)
      as (Hlog & Hpc & _ & _ & _ & _ & _ & Hflag).
    fold s in Hlog, Hpc, Hflag. simpl in Hpc, Hflag.
    change (MainLoop.logger (MainLoop.init true)) with (@init F) in Hlog.
    rewrite quiet_cons in Hlast. apply andb_true_iff in Hlast as [Hr _].
    apply negb_true_iff in Hr.
    destruct (blank input) eqn:E.
    + rewrite main_step_blank by exact E.
      exists flushes. split; [exact Hf|].
      rewrite omap_cons, (data_point_of_blank _ E). simpl.
      rewrite Nat.add_0_r. split; [exact Hlen|].
      intros j snapshot Hj.
      destruct (Hsnap j snapshot Hj) as (pre & post & -> & Hp & Hs).
      exists pre, (post ++ [input]). now rewrite app_assoc.
    + destruct (main_step_nonblank input s E Hr)
        as (dp & viz & Hdp & _ & _ & _ & _ & _ & Hstep).
      rewrite Hstep, omap_cons, Hdp. cbv zeta. simpl length.
      rewrite Hpc. set (n := length (omap MainLoop.data_point_of inputs)) in *.
      replace (n + 1)%nat with (S n) by lia.
      destruct (div_succ n HE) as [Hdiv Hmul].
      rewrite Hdiv.
      destruct (S n mod EVERY =? 0)%nat eqn:Em.
      * unfold MainLoop.save_final_statistics.
        cbn [MainLoop.stats_file MainLoop.save_statistics MainLoop.logger
             MainLoop.viz_data MainLoop.point_count MainLoop.data_points].
        rewrite Hf, Hflag. cbn [negb].
        eexists. split; [reflexivity|]. split.
        { rewrite length_app. simpl. lia. }
        intros j snapshot Hj.
        apply lookup_app_Some in Hj as [Hj|[Hge Hj]].
        { destruct (Hsnap j snapshot Hj) as (pre & post & -> & Hp & Hs).
          exists pre, (post ++ [input]). now rewrite app_assoc. }
        apply list_lookup_singleton_Some in Hj as [Hj0 <-].
        exists (inputs ++ [input]), []. rewrite app_nil_r.
        split; [reflexivity|]. split.
        { rewrite omap_app, length_app, omap_cons, Hdp. simpl.
          fold n. specialize (Hmul eq_refl).
          replace j with (length flushes) by lia. rewrite Hlen. lia. }
        rewrite run_app, <- Hlog. reflexivity.
      * eexists. split; [exact Hf|]. split; [lia|].
        intros j snapshot Hj.
        destruct (Hsnap j snapshot Hj) as (pre & post & -> & Hp & Hs).
        exists pre, (post ++ [input]). now rewrite app_assoc.
Qed.

End MainLoopFacts.

(** X11. Whatever the values do to the statistics, the data log of the
    main loop is the one [read_serial_data] writes line by line: same
    columns, same header, same rows, one row for every line that is not
    dropped. [point_count] never exceeds the number of those rows. *)
Theorem main_loop_writes_a_row_per_line {F : Type} `{Arith F}
  `{FloatParser F} `{PowError F} (K VIZ MAX_DATAPOINTS EVERY : nat)
  (save : bool) (inputs : list (string * string)) :
  let s := MainLoop.run K VIZ MAX_DATAPOINTS EVERY inputs
             (MainLoop.init save) in
  let lines := omap MainLoop.data_point_of inputs in
  same_log (MainLoop.logger s) (run K inputs init)
  /\ length (List.filter (fun w => negb (is_header w))
               (log_file (MainLoop.logger s)))
     = length lines
  /\ (MainLoop.point_count s <= length lines)%nat.
Proof.
  intros s lines.
  destruct (main_run_same_log K VIZ MAX_DATAPOINTS EVERY inputs
              (MainLoop.init save)) as [Hlog Hpc].
  fold s in Hlog, Hpc. fold lines in Hpc.
  change (MainLoop.logger (MainLoop.init save)) with (@init F) in Hlog.
  split; [exact Hlog|]. split; [|exact Hpc].
  destruct Hlog as (_ & _ & ->). rewrite run_rows. reflexivity.
Qed.

(** X12. A line whose value makes [calculate_statistics] raise (in
    binary64, [OverflowError] from a squared deviation out of range) is
    written to the data log like any other, but is not counted: the row is
    there, while [point_count], [data_points], the series of clock readings
    and the statistics file stay as they were. *)
Theorem overflow_keeps_the_row_and_drops_the_point {F : Type} `{Arith F}
  `{FloatParser F} `{PowError F} (K VIZ MAX_DATAPOINTS EVERY : nat)
  (self : MainLoop.Session F) (input : string * string) :
  blank input = false -> MainLoop.raises K VIZ self input = true ->
  let s := MainLoop.loop_step K VIZ MAX_DATAPOINTS EVERY self input in
  let parsed := parse_data_line (PyStr.strip (snd input)) in
  (exists lines,
     log_file (MainLoop.logger s)
     = lines ++ [Row (row_values (fst input) parsed
                        (csv_columns (MainLoop.logger s)))])
  /\ MainLoop.point_count s = MainLoop.point_count self
  /\ MainLoop.data_points s = MainLoop.data_points self
  /\ MainLoop.timestamps (MainLoop.viz_data s)
     = MainLoop.timestamps (MainLoop.viz_data self)
  /\ MainLoop.stats_file s = MainLoop.stats_file self.
Proof.
  intros E Hr s parsed.
  destruct (main_step_raised K VIZ MAX_DATAPOINTS EVERY input self E Hr)
    as (st & viz & Hstep & Hts).
  subst s. rewrite Hstep. cbv zeta.
  cbn [MainLoop.logger MainLoop.point_count MainLoop.data_points
       MainLoop.viz_data MainLoop.stats_file csv_columns log_file].
  split; [|now repeat split].
  destruct input as [now raw]. rewrite read_nonblank by exact E.
  cbv zeta. cbn [fst snd csv_columns log_file]. eexists. reflexivity.
Qed.

Lemma overflow_keeps_the_row_and_drops_the_point_witness :
  let big := 0x1p+700%float in
  let self :=
    MainLoop.mkSession
      (mkLogger ["timestamp"; "S"] true
         [Header ["timestamp"; "S"]; Row ["t1"; "5.26e210"]]
         {["S" := mkStatistics big big big big 0%float 1%nat [big]]})
      (MainLoop.mkVizData [big] [] [] ["t1"]) 1%nat
      [mkDataPoint "t1" "S 5.26e210" [("S", "5.26e210")]] true (Some []) in
  let s := @MainLoop.loop_step float float_arith decimal_float
             float_pow_error 150 75 1500 200 self ("t2", "S 1, T 20") in
  (exists lines,
     log_file (MainLoop.logger s)
     = lines ++ [Row (row_values "t2" (parse_data_line "S 1, T 20")
                        (csv_columns (MainLoop.logger s)))])
  /\ MainLoop.point_count s = 1%nat
  /\ MainLoop.data_points s
     = [mkDataPoint "t1" "S 5.26e210" [("S", "5.26e210")]]
  /\ MainLoop.timestamps (MainLoop.viz_data s) = ["t1"]
  /\ MainLoop.stats_file s = Some [].
Proof.
  intros big self s.
  apply (@overflow_keeps_the_row_and_drops_the_point float float_arith
           decimal_float float_pow_error 150 75 1500 200 self
           ("t2", "S 1, T 20"));
    vm_compute; reflexivity.
Defined.

(** X13. As long as no line raises, the main loop keeps its books: the
    logger is the one [read_serial_data] alone produces; [point_count] is
    the number of lines that were not dropped; [data_points] holds the last
    [MAX_DATAPOINTS] of their data points, in order. *)
Theorem main_loop_bookkeeping {F : Type} `{Arith F} `{FloatParser F}
  `{PowError F} (K VIZ MAX_DATAPOINTS EVERY : nat) (save : bool)
  (inputs : list (string * string)) :
  MainLoop.quiet K VIZ MAX_DATAPOINTS EVERY inputs (MainLoop.init save)
  = true ->
  let s := MainLoop.run K VIZ MAX_DATAPOINTS EVERY inputs
             (MainLoop.init save) in
  let points := omap MainLoop.data_point_of inputs in
  MainLoop.logger s = run K inputs init
  /\ MainLoop.point_count s = length points
  /\ MainLoop.data_points s = MainLoop.last_n MAX_DATAPOINTS points.
Proof.
  intros Hq s points.
  destruct (main_run_fields K VIZ MAX_DATAPOINTS EVERY inputs
              (MainLoop.init save) Hq)
    as (Hlog & Hpc & Hdp & _).
  fold s in Hlog, Hpc, Hdp. fold points in Hpc, Hdp.
  split; [exact Hlog|]. split; [exact Hpc|].
  rewrite Hdp. simpl MainLoop.data_points.
  rewrite deque_fold_drop by (simpl; lia). reflexivity.
Qed.

Lemma main_loop_bookkeeping_witness :
  let s := @MainLoop.run float float_arith decimal_float float_pow_error
             150 75 1500 200 session3 (MainLoop.init true) in
  let points := omap MainLoop.data_point_of session3 in
  MainLoop.logger s = @run float float_arith 150 decimal_float session3 init
  /\ MainLoop.point_count s = length points
  /\ MainLoop.data_points s = MainLoop.last_n 1500 points.
Proof.
  apply (@main_loop_bookkeeping float float_arith decimal_float
           float_pow_error 150 75 1500 200 true session3).
  vm_compute. reflexivity.
Defined.

(** X14. As long as no line raises, the statistics of a session are those
    of each parameter's own stream: the entry of a parameter is the one
    obtained by feeding [calculate_statistics] the numbers that the lines
    hold for that parameter (a line counts once, with the value of the last
    occurrence of the name; dropped lines and texts that [float] rejects do
    not count). No entry exists before the first number; afterwards
    [count] is the number of numbers, [values] the last [K] of them and
    [current_val] the last one. *)
Theorem session_statistics_per_parameter {F : Type} `{Arith F}
  `{FloatParser F} `{PowError F} (K VIZ MAX_DATAPOINTS EVERY : nat)
  (save : bool) (inputs : list (string * string)) (key : string) :
  MainLoop.quiet K VIZ MAX_DATAPOINTS EVERY inputs (MainLoop.init save)
  = true ->
  let numbers := observations key inputs in
  let entry :=
    stats (MainLoop.logger
             (MainLoop.run K VIZ MAX_DATAPOINTS EVERY inputs
                (MainLoop.init save))) !! key in
  entry = feed K key numbers ∅ !! key
  /\ match entry with
     | None => numbers = []
     | Some s =>
         count s = length numbers
         /\ values s = drop (length numbers - K) numbers
         /\ Some (current_val s) = last numbers
     end.
Proof.
  intros Hq numbers entry.
  destruct (main_run_fields K VIZ MAX_DATAPOINTS EVERY inputs
              (MainLoop.init save) Hq) as (Hlog & _).
  assert (entry = feed K key numbers ∅ !! key) as E.
  { subst entry. rewrite Hlog. apply run_stats_lookup. }
  split; [exact E|]. rewrite E, feed_lookup_any, lookup_empty.
  destruct numbers as [|v vs] eqn:En; [reflexivity|].
  rewrite fold_update_count, fold_update_values.
  rewrite deque_fold_drop by (simpl; lia).
  simpl length. repeat split.
  destruct (last (v :: vs)) as [x|] eqn:El.
  - f_equal. now apply fold_update_current.
  - now apply last_None in El.
Qed.

Lemma session_statistics_per_parameter_witness :
  let numbers := @observations float decimal_float "S" session3 in
  let entry :=
    stats (MainLoop.logger
             (@MainLoop.run float float_arith decimal_float float_pow_error
                150 75 1500 200 session3 (MainLoop.init true))) !! "S" in
  entry = feed 150 "S" numbers ∅ !! "S"
  /\ match entry with
     | None => numbers = []
     | Some s =>
         count s = length numbers
         /\ values s = drop (length numbers - 150) numbers
         /\ Some (current_val s) = last numbers
     end.
Proof.
  apply (@session_statistics_per_parameter float float_arith decimal_float
           float_pow_error 150 75 1500 200 true session3 "S").
  vm_compute. reflexivity.
Defined.

(** X15. As long as no line raises, the display series are as follows:
    [wind_speed] holds the last [VIZ] numbers of the fields named S or S2,
    both in one series, in the order the lines and their mappings give
    them; [temperature] those of T and [wind_direction] those of D;
    [timestamps] the clock readings of the last [VIZ] lines that were not
    dropped. *)
Theorem display_series_hold_the_latest_values {F : Type} `{Arith F}
  `{FloatParser F} `{PowError F} (K VIZ MAX_DATAPOINTS EVERY : nat)
  (save : bool) (inputs : list (string * string)) :
  MainLoop.quiet K VIZ MAX_DATAPOINTS EVERY inputs (MainLoop.init save)
  = true ->
  let viz := MainLoop.viz_data
               (MainLoop.run K VIZ MAX_DATAPOINTS EVERY inputs
                  (MainLoop.init save)) in
  MainLoop.wind_speed viz
  = MainLoop.last_n VIZ (flat_map (MainLoop.series_values ["S"; "S2"]) inputs)
  /\ MainLoop.temperature viz
     = MainLoop.last_n VIZ (flat_map (MainLoop.series_values ["T"]) inputs)
  /\ MainLoop.wind_direction viz
     = MainLoop.last_n VIZ (flat_map (MainLoop.series_values ["D"]) inputs)
  /\ MainLoop.timestamps viz
     = MainLoop.last_n VIZ
         (map timestamp (omap MainLoop.data_point_of inputs)).
Proof.
  intros Hq viz.
  destruct (main_run_fields K VIZ MAX_DATAPOINTS EVERY inputs
              (MainLoop.init save) Hq)
    as (_ & _ & _ & V1 & V2 & V3 & V4 & _).
  fold viz in V1, V2, V3, V4. rewrite V1, V2, V3, V4. simpl.
  rewrite !deque_fold_drop by (simpl; lia). repeat split.
Qed.

Lemma display_series_hold_the_latest_values_witness :
  let viz := MainLoop.viz_data
               (@MainLoop.run float float_arith decimal_float
                  float_pow_error 150 75 1500 200 session3
                  (MainLoop.init true)) in
  MainLoop.wind_speed viz
  = MainLoop.last_n 75
      (flat_map (@MainLoop.series_values float decimal_float ["S"; "S2"])
         session3)
  /\ MainLoop.temperature viz
     = MainLoop.last_n 75
         (flat_map (@MainLoop.series_values float decimal_float ["T"])
            session3)
  /\ MainLoop.wind_direction viz
     = MainLoop.last_n 75
         (flat_map (@MainLoop.series_values float decimal_float ["D"])
            session3)
  /\ MainLoop.timestamps viz
     = MainLoop.last_n 75
         (map timestamp (omap MainLoop.data_point_of session3)).
Proof.
  apply (@display_series_hold_the_latest_values float float_arith
           decimal_float float_pow_error 150 75 1500 200 true session3).
  vm_compute. reflexivity.
Defined.

(** X16. As long as no line raises, the statistics file gets one flush
    every [EVERY] data points and no other from the loop: after [n] data
    points there are [n / EVERY] flushes, and flush number [j] (from 0)
    holds the statistics as they were right after data point
    [(j + 1) * EVERY]. With statistics saving switched off there is no file
    and nothing is written, whatever the lines and whatever [EVERY]. *)
Theorem statistics_checkpoints {F : Type} `{Arith F} `{FloatParser F}
  `{PowError F} (K VIZ MAX_DATAPOINTS EVERY : nat)
  (inputs : list (string * string)) :
  ((0 < EVERY)%nat ->
   MainLoop.quiet K VIZ MAX_DATAPOINTS EVERY inputs (MainLoop.init true)
   = true ->
   exists flushes,
     MainLoop.stats_file
       (MainLoop.run K VIZ MAX_DATAPOINTS EVERY inputs (MainLoop.init true))
     = Some flushes
     /\ length flushes
        = (length (omap MainLoop.data_point_of inputs) / EVERY)%nat
     /\ forall j snapshot,
          flushes !! j = Some snapshot ->
          exists pre post,
            inputs = pre ++ post
            /\ length (omap MainLoop.data_point_of pre)
               = ((j + 1) * EVERY)%nat
            /\ snapshot = MainLoop.stat_row <$> stats (run K pre init))
  /\ MainLoop.stats_file
       (MainLoop.run K VIZ MAX_DATAPOINTS EVERY inputs (MainLoop.init false))
     = None.
Proof.
  split.
  - intros HE Hq. now apply main_run_checkpoints.
  - now apply main_run_no_file.
Qed.

Lemma statistics_checkpoints_witness :
  (exists flushes,
     MainLoop.stats_file
       (@MainLoop.run float float_arith decimal_float float_pow_error
          150 75 1500 2 session3 (MainLoop.init true))
     = Some flushes
     /\ length flushes
        = (length (omap MainLoop.data_point_of session3) / 2)%nat
     /\ forall j snapshot,
          flushes !! j = Some snapshot ->
          exists pre post,
            session3 = pre ++ post
            /\ length (omap MainLoop.data_point_of pre) = ((j + 1) * 2)%nat
            /\ snapshot
               = MainLoop.stat_row
                   <$> stats (@run float float_arith 150 decimal_float pre
                                init))
  /\ MainLoop.stats_file
       (@MainLoop.run float float_arith decimal_float float_pow_error
          150 75 1500 2 session3 (MainLoop.init false))
     = None.
Proof.
  split.
  - apply (proj1 (@statistics_checkpoints float float_arith decimal_float
                    float_pow_error 150 75 1500 2 session3));
      [lia | vm_compute; reflexivity].
  - apply (proj2 (@statistics_checkpoints float float_arith decimal_float
                    float_pow_error 150 75 1500 2 session3)).
Defined.

(** X17. Under exact arithmetic no line raises, and [min_val] and
    [max_val] of a parameter are the smallest and the largest of all the
    numbers the session held for it, whatever the window capacity: unlike
    [mean_val] and [std_dev] they never forget a value. *)
Theorem extrema_never_forget `{FloatParser R}
  (K VIZ MAX_DATAPOINTS EVERY : nat) (save : bool)
  (inputs : list (string * string)) (key : string) :
  MainLoop.quiet K VIZ MAX_DATAPOINTS EVERY inputs (MainLoop.init save)
  = true
  /\ match stats (MainLoop.logger
                    (MainLoop.run K VIZ MAX_DATAPOINTS EVERY inputs
                       (MainLoop.init save))) !! key with
     | Some s => extrema_of (min_val s) (max_val s) (observations key inputs)
     | None => observations key inputs = []
     end.
Proof.
  assert (MainLoop.quiet K VIZ MAX_DATAPOINTS EVERY inputs
            (MainLoop.init save) = true) as Hq
    by (apply quiet_exact; reflexivity).
  split; [exact Hq|].
  destruct (main_run_fields K VIZ MAX_DATAPOINTS EVERY inputs
              (MainLoop.init save) Hq) as (Hlog & _).
  rewrite Hlog.
  change (MainLoop.logger (MainLoop.init save)) with (@init R).
  rewrite run_stats_lookup, feed_lookup_any.
  change (stats (@init R)) with (∅ : gmap string (Statistics R)).
  rewrite lookup_empty.
  destruct (observations key inputs) as [|v vs]; [reflexivity|].
  simpl fold_left.
  apply (fold_update_extrema K vs (update_stat K new_Statistics v) [v]).
  - rewrite update_stat_count. lia.
  - rewrite update_stat_first by reflexivity. apply extrema_singleton.
Qed.

(** ** Serial port discovery *)

Section PortFacts.

Import Ports.

Lemma ascii_compare_refl x : Ascii.compare x x = Eq.
Proof. unfold Ascii.compare. apply N.compare_refl. Qed.

Lemma ascii_lt_trans x y z :
  Ascii.compare x y = Lt -> Ascii.compare y z = Lt -> Ascii.compare x z = Lt.
Proof. unfold Ascii.compare. rewrite !N.compare_lt_iff. lia. Qed.

Lemma str_compare_refl a : String.compare a a = Eq.
Proof.
  induction a as [|x a IH]; [reflexivity|].
  simpl. now rewrite ascii_compare_refl.
Qed.

Lemma str_lt_trans a : forall b c,
  String.compare a b = Lt -> String.compare b c = Lt ->
  String.compare a c = Lt.
Proof.
  induction a as [|x a IH]; intros [|y b] [|z c]; simpl;
    try discriminate; try reflexivity.
  destruct (Ascii.compare x y) eqn:Exy; try discriminate;
    destruct (Ascii.compare y z) eqn:Eyz; try discriminate; intros H1 H2.
  - apply Ascii.compare_eq_iff in Exy, Eyz. subst.
    rewrite ascii_compare_refl. now apply (IH b).
  - apply Ascii.compare_eq_iff in Exy. subst. now rewrite Eyz.
  - apply Ascii.compare_eq_iff in Eyz. subst. now rewrite Exy.
  - now rewrite (ascii_lt_trans x y z).
Qed.

Lemma str_le_refl : Reflexive str_le.
Proof. intros a. unfold str_le, String.leb. now rewrite str_compare_refl. Qed.

Lemma str_le_trans : Transitive str_le.
Proof.
  intros a b c. unfold str_le, String.leb.
  destruct (String.compare a b) eqn:Eab; try discriminate;
    destruct (String.compare b c) eqn:Ebc; try discriminate; intros _ _.
  - apply String.compare_eq_iff in Eab, Ebc. subst.
    now rewrite str_compare_refl.
  - apply String.compare_eq_iff in Eab. subst. now rewrite Ebc.
  - apply String.compare_eq_iff in Ebc. subst. now rewrite Eab.
  - now rewrite (str_lt_trans a b c).
Qed.

Lemma str_le_total : Total str_le.
Proof. intros a b. apply String.leb_total. Qed.

Lemma str_le_antisym : AntiSymm (=) str_le.
Proof. intros a b. apply String.leb_antisym. Qed.

Lemma sorted_spec (l : list string) :
  StronglySorted str_le (sorted l) /\ sorted l ≡ₚ l.
Proof.
  split; [apply (@StronglySorted_merge_sort _ str_le _ str_le_trans
                   str_le_total)|].
  apply merge_sort_Permutation.
Qed.

Lemma collect_app (glob : string -> list string) (patterns : list string) :
  forall acc,
  fold_left (fun ports pattern => ports ++ glob pattern) patterns acc
  = acc ++ flat_map glob patterns.
Proof.
  induction patterns as [|p patterns IH]; intros acc.
  - simpl. now rewrite app_nil_r.
  - simpl. rewrite IH. now rewrite <- app_assoc.
Qed.

Lemma collect_linux (glob : string -> list string) :
  collect glob linux_patterns
  = glob "/dev/ttyUSB*" ++ glob "/dev/ttyACM*" ++ glob "/dev/ttyS*".
Proof.
  unfold collect. rewrite collect_app. simpl. now rewrite app_nil_r.
Qed.

Lemma collect_pi (glob : string -> list string) :
  collect glob pi_patterns = glob "/dev/ttyUSB*" ++ glob "/dev/ttyACM*".
Proof.
  unfold collect. rewrite collect_app. simpl. now rewrite app_nil_r.
Qed.

Lemma find_serial_ports_elem (glob : string -> list string) p :
  let found := glob "/dev/ttyUSB*" ++ glob "/dev/ttyACM*" ++ glob "/dev/ttyS*" in
  p ∈ find_serial_ports glob <->
  p ∈ found /\ ((length found <= 1)%nat \/ startswith "/dev/ttyS" p = false).
Proof.
  cbv zeta. unfold find_serial_ports. rewrite collect_linux.
  set (found := glob "/dev/ttyUSB*" ++ glob "/dev/ttyACM*" ++ glob "/dev/ttyS*").
  rewrite (proj2 (sorted_spec _)).
  destruct (Nat.ltb_spec 1 (length found)) as [Hlt|Hge].
  - rewrite list_elem_of_In, filter_In, <- list_elem_of_In, negb_true_iff.
    split; [intros [? ?]; now auto|].
    intros [Hin [Hle|Hs]]; [lia | now split].
  - split; [intros Hin; now auto | tauto].
Qed.

End PortFacts.

(** X18. The ports that linux [find_serial_ports] returns: in ascending
    order, and exactly the ports found, unless more than one was found, in
    which case those whose name starts with /dev/ttyS are left out. *)
Theorem linux_serial_port_filter (glob : string -> list string) (p : string) :
  let found :=
    glob "/dev/ttyUSB*" ++ glob "/dev/ttyACM*" ++ glob "/dev/ttyS*" in
  StronglySorted Ports.str_le (Ports.find_serial_ports glob)
  /\ (p ∈ Ports.find_serial_ports glob <->
      p ∈ found
      /\ ((length found <= 1)%nat \/ Ports.startswith "/dev/ttyS" p = false)).
Proof.
  split; [apply sorted_spec | apply find_serial_ports_elem].
Qed.

(** X19. System serial ports are not kept when they are the only option:
    on a machine whose only serial ports are two or more /dev/ttyS ports,
    linux [find_serial_ports] returns no port at all (one such port alone
    is returned). *)
Theorem system_ports_alone_are_dropped (glob : string -> list string) :
  glob "/dev/ttyUSB*" = [] -> glob "/dev/ttyACM*" = [] ->
  Forall (fun p => Ports.startswith "/dev/ttyS" p = true)
    (glob "/dev/ttyS*") ->
  (2 <= length (glob "/dev/ttyS*"))%nat ->
  Ports.find_serial_ports glob = [].
Proof.
  intros Husb Hacm Hsys Hlen.
  destruct (Ports.find_serial_ports glob) as [|p ports] eqn:E; [reflexivity|].
  assert (p ∈ Ports.find_serial_ports glob) as Hin by (rewrite E; now left).
  apply find_serial_ports_elem in Hin. cbv zeta in Hin.
  rewrite Husb, Hacm in Hin. simpl in Hin.
  destruct Hin as [Hin [Hle|Hs]]; [lia|].
  rewrite Forall_forall in Hsys. rewrite (Hsys p Hin) in Hs. discriminate.
Qed.

Lemma system_ports_alone_are_dropped_witness :
  Ports.find_serial_ports
    (fun pattern =>
       if String.eqb pattern "/dev/ttyS*"
       then ["/dev/ttyS0"; "/dev/ttyS1"] else [])
  = [].
Proof.
  apply system_ports_alone_are_dropped;
    [reflexivity | reflexivity | now repeat constructor | simpl; lia].
Defined.

(** X20. With the port left to ['auto'], the Raspberry Pi logger opens the
    first port in ascending order of name among the /dev/ttyUSB and
    /dev/ttyACM ports found, whatever a device sends on it, and none if
    none is found; a port given by name is opened as given. *)
Theorem pi_auto_opens_the_first_port_by_name (glob : string -> list string)
  (port : string) :
  let found := glob "/dev/ttyUSB*" ++ glob "/dev/ttyACM*" in
  match Ports.pi_selected_port glob "auto" with
  | Some selected_port =>
      selected_port ∈ found
      /\ Forall (Ports.str_le selected_port) found
  | None => found = []
  end
  /\ (String.eqb port "auto" = false ->
      Ports.pi_selected_port glob port = Some port).
Proof.
  cbv zeta. split.
  - unfold Ports.pi_selected_port, Ports.pi_find_serial_ports.
    rewrite collect_pi. simpl String.eqb. cbv iota.
    destruct (sorted_spec (glob "/dev/ttyUSB*" ++ glob "/dev/ttyACM*"))
      as [Hs Hp].
    destruct (Ports.sorted _) as [|p ports].
    + symmetry in Hp. now apply Permutation_nil_r in Hp.
    + apply StronglySorted_cons in Hs as [Hall _].
      split.
      * rewrite <- Hp. now left.
      * rewrite <- Hp. constructor; [apply str_le_refl | exact Hall].
  - intros Hne. unfold Ports.pi_selected_port. now rewrite Hne.
Qed.

(** ** The text of the data log *)

Section LogText.

Import PyStr.

Context {F : Type} `{Arith F} `{FloatParser F}.
Variable K : nat.

Lemma observe_fold_Forall (P : string -> Prop) keys : forall columns flag,
  Forall P columns -> Forall P keys ->
  Forall P (fst (fold_left observe_key keys (columns, flag))).
Proof.
  induction keys as [|k keys IH]; intros columns flag Hc Hk; [exact Hc|].
  inversion Hk as [|? ? Hk1 Hk2]; subst. simpl.
  destruct (negb (mem k columns)); apply IH; try assumption.
  apply Forall_app. split; [exact Hc | now constructor].
Qed.

Lemma parse_keys_comma_free line :
  Forall (fun k => contains comma k = false)
    (PyDict.keys (parse_data_line line)).
Proof.
  unfold PyDict.keys. apply Forall_fmap.
  eapply Forall_impl; [apply parse_comma_free|].
  intros kv [Hk _]. exact Hk.
Qed.

(** The lines written so far and the columns are free of commas, and
    neither is empty. *)
Lemma run_log_comma_free inputs : forall self : Logger F,
  Forall (fun input => contains comma (fst input) = false) inputs ->
  csv_columns self <> [] ->
  Forall (fun c => contains comma c = false) (csv_columns self) ->
  Forall (fun w => fields w <> []
                   /\ Forall (fun x => contains comma x = false) (fields w))
    (log_file self) ->
  Forall (fun w => fields w <> []
                   /\ Forall (fun x => contains comma x = false) (fields w))
    (log_file (run K inputs self)).
Proof.
  induction inputs as [|[now raw] inputs IH]; intros self Hin Hne Hcols Hlog;
    [exact Hlog|].
  inversion Hin as [|? ? Hnow Hin']; subst. simpl in Hnow.
  rewrite run_cons. simpl fst. simpl snd.
  destruct (blank (now, raw)) eqn:E.
  - rewrite read_blank by exact E. now apply IH.
  - rewrite read_nonblank by exact E. cbv zeta. simpl fst.
    set (parsed := parse_data_line (strip raw)).
    set (columns := fst (observe_loop (PyDict.keys parsed) (csv_columns self))).
    assert (Forall (fun c => contains comma c = false) columns) as Hcols'.
    { apply observe_fold_Forall; [exact Hcols | apply parse_keys_comma_free]. }
    assert (columns <> []) as Hne'.
    { pose proof (observe_fold_prefix (PyDict.keys parsed) (csv_columns self)
                    false) as [more Hmore].
      fold (observe_loop (PyDict.keys parsed) (csv_columns self)) in Hmore.
      fold columns in Hmore. rewrite Hmore.
      destruct (csv_columns self); [congruence | discriminate]. }
    apply IH; try assumption. cbn [log_file].
    apply Forall_app. split.
    + destruct (csv_headers_written self); [exact Hlog|].
      apply Forall_app. split; [exact Hlog|].
      constructor; [|constructor]. now split.
    + constructor; [|constructor]. cbn [fields]. split.
      * unfold row_values. destruct columns; [congruence | discriminate].
      * unfold row_values. apply Forall_fmap.
        apply Forall_forall. intros column _. simpl.
        destruct (String.eqb column "timestamp"); [exact Hnow|].
        apply get_comma_free, parse_comma_free.
Qed.

End LogText.

(** X21. Every line of the data log of a session, the header and each row,
    is a well-formed comma-separated line: cutting its text at the commas
    gives back its fields, one per column known when it was written. This
    holds whatever the values are, as long as the clock readings hold no
    comma, as ISO timestamps do. *)
Theorem log_lines_split_back_into_their_fields {F : Type} `{Arith F}
  `{FloatParser F} `{PowError F} (K VIZ MAX_DATAPOINTS EVERY : nat)
  (save : bool) (inputs : list (string * string)) :
  Forall (fun input => PyStr.contains comma (fst input) = false) inputs ->
  Forall splits_back
    (log_file (MainLoop.logger
                 (MainLoop.run K VIZ MAX_DATAPOINTS EVERY inputs
                    (MainLoop.init save)))).
Proof.
  intros Hin.
  destruct (main_run_same_log K VIZ MAX_DATAPOINTS EVERY inputs
              (MainLoop.init save)) as [(_ & _ & ->) _].
  change (MainLoop.logger (MainLoop.init save)) with (@init F).
  pose proof (run_log_comma_free K inputs init Hin) as Hlog.
  eapply Forall_impl.
  - apply Hlog; [discriminate | now repeat constructor | constructor].
  - intros w [Hne Hall]. now apply split_join.
Qed.

Lemma log_lines_split_back_into_their_fields_witness :
  Forall splits_back
    (log_file (MainLoop.logger
                 (@MainLoop.run float float_arith decimal_float
                    float_pow_error 150 75 1500 200 session3
                    (MainLoop.init true)))).
Proof.
  apply log_lines_split_back_into_their_fields.
  now repeat constructor.
Defined.

(** * The statistics claims, on the program as it runs

    [MainLoop.calculate_statistics] and [MainLoop.read_serial_data] follow
    the error that [x ** 2] can raise and the handler that catches it. *)

Section FaithfulStatistics.

Context {F : Type} `{Arith F} `{PowError F}.
Variable K : nat.

(** One call: the entry of the parameter afterwards. *)
Lemma faithful_step key v (st : gmap string (Statistics F)) :
  let s0 := default new_Statistics (st !! key) in
  let r := MainLoop.calculate_statistics K key v st in
  exists s,
    fst r !! key = Some s
    /\ count s = S (count s0)
    /\ values s = deque_append K (values s0) v
    /\ mean_val s = mean_val (update_stat K s0 v)
    /\ (snd r = false -> s = update_stat K s0 v)
    /\ (snd r = true -> std_dev s = std_dev s0).
Proof.
  cbv zeta. unfold MainLoop.calculate_statistics.
  destruct (_ && _ && _); cbn [fst snd]; rewrite lookup_insert_eq;
    eexists; (split; [reflexivity|]); cbn [count values mean_val std_dev];
    rewrite update_stat_count, update_stat_values; repeat split;
    discriminate.
Qed.

Lemma faithful_feed_cons key v vs (st : gmap string (Statistics F)) :
  MainLoop.feed K key (v :: vs) st =
  MainLoop.feed K key vs (fst (MainLoop.calculate_statistics K key v st)).
Proof. reflexivity. Qed.

Lemma faithful_feed_snoc key vs v (st : gmap string (Statistics F)) :
  MainLoop.feed K key (vs ++ [v]) st =
  fst (MainLoop.calculate_statistics K key v (MainLoop.feed K key vs st)).
Proof. unfold MainLoop.feed. now rewrite fold_left_app. Qed.

(** The count and the window do not depend on whether a call raised. *)
Lemma faithful_feed_fields key vs : forall st : gmap string (Statistics F),
  let s0 := default new_Statistics (st !! key) in
  let s := default new_Statistics (MainLoop.feed K key vs st !! key) in
  count s = (count s0 + length vs)%nat
  /\ values s = fold_left (deque_append K) vs (values s0).
Proof.
  induction vs as [|v vs IH]; intros st.
  - cbv zeta. simpl. split; [lia | reflexivity].
  - cbv zeta. rewrite faithful_feed_cons.
    destruct (IH (fst (MainLoop.calculate_statistics K key v st)))
      as [IHc IHv].
    destruct (faithful_step key v st) as (s1 & Hs1 & Hc1 & Hv1 & _).
    cbv zeta in IHc, IHv. rewrite Hs1 in IHc, IHv. simpl in IHc, IHv.
    rewrite IHc, IHv, Hc1, Hv1. simpl. split; [lia | reflexivity].
Qed.

(** In an arithmetic where squaring never raises, the calls are those of
    [feed]. *)
Lemma faithful_feed_exact key vs :
  (forall x : F, pow2_raises x = false) ->
  forall st : gmap string (Statistics F),
  MainLoop.feed K key vs st = feed K key vs st.
Proof.
  intros Hex. induction vs as [|v vs IH]; intros st; [reflexivity|].
  rewrite faithful_feed_cons, IH. simpl. f_equal.
  unfold MainLoop.calculate_statistics, calculate_statistics.
  assert (forall mean xs, MainLoop.variance_raises mean xs = false) as Hv.
  { intros mean xs. unfold MainLoop.variance_raises.
    induction xs as [|y xs IHx]; [reflexivity|].
    simpl. now rewrite Hex, IHx. }
  now rewrite Hv, andb_false_r.
Qed.

(** The last call of a stream of two values or more. *)
Lemma faithful_last_call key vs v :
  (0 < K)%nat -> vs <> [] ->
  let stream := vs ++ [v] in
  let before := MainLoop.feed K key vs ∅ in
  let last_call := MainLoop.calculate_statistics K key v before in
  exists s,
    fst last_call !! key = Some s
    /\ count s = length stream
    /\ values s = drop (length stream - K) stream
    /\ mean_val s = window_mean (values s)
    /\ ((1 < K)%nat -> snd last_call = false ->
        std_dev s = fpow_half (window_variance (mean_val s) (values s)))
    /\ (snd last_call = true ->
        std_dev s = std_dev (default new_Statistics (before !! key))).
Proof.
  intros HK Hne. cbv zeta.
  destruct (faithful_feed_fields key vs ∅) as [Hc0 Hv0].
  cbv zeta in Hc0, Hv0. rewrite lookup_empty in Hc0, Hv0.
  simpl in Hc0, Hv0.
  set (before := MainLoop.feed K key vs ∅) in *.
  set (s0 := default new_Statistics (before !! key)) in *.
  destruct (faithful_step key v before)
    as (s & Hs & Hc & Hv & Hm & Hok & Hraised).
  fold s0 in Hc, Hv, Hm, Hok, Hraised.
  assert (0 < count s0)%nat as Hpos.
  { rewrite Hc0. destruct vs; [congruence | simpl; lia]. }
  assert (values s = drop (length (vs ++ [v]) - K) (vs ++ [v])) as Hvals.
  { rewrite Hv, Hv0.
    change (deque_append K (fold_left (deque_append K) vs []) v)
      with (fold_left (deque_append K) [v] (fold_left (deque_append K) vs [])).
    rewrite <- fold_left_app.
    rewrite deque_fold_drop by (simpl; lia). reflexivity. }
  assert (mean_val s = window_mean (values s)) as Hmean.
  { rewrite Hm, Hv, update_stat_later by exact Hpos. reflexivity. }
  exists s. split; [exact Hs|].
  split; [rewrite Hc, Hc0, length_app; simpl; lia|].
  split; [exact Hvals|]. split; [exact Hmean|]. split; [|exact Hraised].
  intros HK1 Hq. rewrite Hmean.
  assert (1 < length (values s))%nat as Hlen.
  { rewrite Hvals, length_drop, length_app. simpl.
    destruct vs; [congruence | simpl; lia]. }
  rewrite (Hok Hq) in Hlen |- *.
  rewrite update_stat_later in Hlen |- * by exact Hpos.
  cbv zeta in Hlen |- *. cbn [values std_dev mean_val] in Hlen |- *.
  destruct (Nat.ltb_spec 1 (length (deque_append K (values s0) v)));
    [reflexivity | lia].
Qed.

End FaithfulStatistics.

(** C1, amended. On linux, mac and windows ([calculate_statistics], window
    capacity [K], 150, 100 and 200 there): once a parameter has more than one
    observation, its window holds the last [K] values fed and its mean is
    the sum of the window divided by the length of the window (over the
    reals, the arithmetic mean of the last [K] values), whether or not the
    call raises. Its standard deviation is computed from the window and that
    mean when the call does not raise; when a squared deviation is out of
    range the call raises [OverflowError] with the mean already set, and the
    standard deviation stays what it was before the call. After [K + 1]
    values the window has length [K] and is the stream without its oldest
    value, so that value does not enter the mean, nor a standard deviation
    computed by that call. On the Raspberry Pi the window is bounded the same
    way (capacity 100), but the mean that is reported is the sum of all
    values divided by their number. *)
Theorem C1_mean_is_over_the_window {F : Type} `{Arith F} `{PowError F}
  (K : nat) (key : string) (vs : list F) (v : F) :
  (0 < K)%nat -> vs <> [] ->
  let stream := vs ++ [v] in
  let before := MainLoop.feed K key vs ∅ in
  let last_call := MainLoop.calculate_statistics K key v before in
  (exists s,
      fst last_call !! key = Some s
      /\ fst last_call = MainLoop.feed K key stream ∅
      /\ count s = length stream
      /\ values s = drop (length stream - K) stream
      /\ mean_val s = fdiv (py_sum (values s)) (py_len (values s))
      /\ ((1 < K)%nat -> snd last_call = false ->
          std_dev s =
          fpow_half
            (fdiv (py_sum (map (fun x => fpow2 (fsub x (mean_val s))) (values s)))
               (py_len (values s))))
      /\ (snd last_call = true ->
          std_dev s = std_dev (default new_Statistics (before !! key)))
      /\ (length stream = S K ->
          length (values s) = K
          /\ values s = tail stream
          /\ (NoDup stream -> forall oldest, head stream = Some oldest ->
              oldest ∉ values s)))
  /\ (forall rs : list R,
      (1 < length rs)%nat ->
      exists s,
        MainLoop.feed K key rs ∅ !! key = Some s
        /\ mean_val s =
           (fold_right Rplus 0 (drop (length rs - K) rs)
            / INR (length (drop (length rs - K) rs)))%R)
  /\ (exists p,
      Pi.feed key stream ∅ !! key = Some p
      /\ Pi.p_values p = drop (length stream - Pi.maxlen) stream
      /\ Pi.p_count p = length stream
      /\ Pi.saved_mean p =
         fdiv (fold_left fadd (tail stream) (hd zero stream))
           (of_int (Z.of_nat (length stream)))).
Proof.
  intros HK Hne stream before last_call.
  split; [|split].
  2:{ intros rs Hrs.
      rewrite faithful_feed_exact by reflexivity.
      destruct (feed_summary K key rs Hrs) as (s & Hs & _ & Hv & Hm & _).
      exists s. split; [exact Hs|].
      rewrite Hm, Hv. unfold window_mean.
      now rewrite py_len_real, py_sum_fold_right. }
  - destruct (faithful_last_call K key vs v HK Hne)
      as (s & Hs & Hc & Hvals & Hmean & Hstd & Hstale).
    fold stream before last_call in Hs, Hc, Hvals, Hstd, Hstale.
    exists s. split; [exact Hs|].
    split; [subst last_call before stream; now rewrite faithful_feed_snoc|].
    split; [exact Hc|]. split; [exact Hvals|]. split; [exact Hmean|].
    split; [exact Hstd|]. split; [exact Hstale|].
    intros HlenK. rewrite Hvals.
    replace (length stream - K)%nat with 1%nat by lia.
    destruct stream as [|a rest] eqn:Es; [simpl in HlenK; lia|].
    simpl drop. simpl tail. repeat split.
    + simpl in HlenK. rewrite drop_0. lia.
    + intros Hnd oldest Hh. rewrite drop_0. simpl in Hh.
      injection Hh as <-.
      apply NoDup_cons in Hnd as [Ha _]. exact Ha.
  - subst stream. destruct vs as [|a vs']; [congruence|].
    change ((a :: vs') ++ [v]) with (a :: (vs' ++ [v])).
    eexists. split; [apply pi_feed_lookup_fresh|].
    destruct (pi_feed_entry_fields (vs' ++ [v]) (Pi.update_param a None))
      as (Hv & Hc & Hs).
    split; [|split].
    + rewrite Hv.
      change (fold_left (deque_append Pi.maxlen) (vs' ++ [v])
                (Pi.p_values (Pi.update_param a None)))
        with (fold_left (deque_append Pi.maxlen) (a :: (vs' ++ [v])) []).
      rewrite deque_fold_drop by (simpl; lia). reflexivity.
    + rewrite Hc. simpl. lia.
    + unfold Pi.saved_mean. rewrite Hc, Hs. reflexivity.
Qed.

(** Capacity 3 and the values 1, 2, 3, 4: the last call does not raise, the
    window is 2, 3, 4 and the mean 3. *)
Lemma C1_mean_is_over_the_window_witness :
  let last_call :=
    @MainLoop.calculate_statistics float float_arith float_pow_error 3 "S"
      4%float (MainLoop.feed 3 "S" [1; 2; 3]%float ∅) in
  snd last_call = false
  /\ exists s,
       fst last_call !! "S" = Some s
       /\ values s = [2; 3; 4]%float
       /\ mean_val s = 3%float.
Proof.
  intros last_call. split; [vm_compute; reflexivity|].
  destruct (@C1_mean_is_over_the_window float float_arith float_pow_error
              3 "S" [1; 2; 3]%float 4%float)
    as [(s & Hs & _ & _ & Hv & Hm & _) _].
  - lia.
  - discriminate.
  - exists s. split; [exact Hs|]. split; [exact Hv|].
    rewrite Hm, Hv. reflexivity.
Defined.

(** C9, amended. In every arithmetic, the program's included, a standard
    deviation that [calculate_statistics] computes (window of more than one
    value, the call does not raise) is the population form: the square root
    of the sum of squared deviations from the window mean divided by the
    number N of values in the window (for 1, 3 it is 1, where the sample form
    would give the square root of 2). When a squared deviation is out of
    range the call raises instead and the standard deviation stays what it
    was. Under exact arithmetic no call raises, and for every constant
    stream of length greater than 1 the mean is the constant and the
    standard deviation is exactly 0. *)
Theorem C9_population_std_dev (K : nat) (key : string) :
  (0 < K)%nat ->
  (forall (F : Type) (A : Arith F) (E : PowError F) (vs : list F) (v : F),
      (1 < K)%nat -> vs <> [] ->
      let before := MainLoop.feed K key vs ∅ in
      let last_call := MainLoop.calculate_statistics K key v before in
      exists s,
        fst last_call !! key = Some s
        /\ (snd last_call = false ->
            std_dev s =
            fpow_half
              (fdiv (fsum (map (fun x => fpow2 (fsub x (mean_val s)))
                             (values s)))
                 (of_int (Z.of_nat (length (values s))))))
        /\ (snd last_call = true ->
            std_dev s = std_dev (default new_Statistics (before !! key))))
  /\ (forall vs : list R,
      (1 < K)%nat -> (1 < length vs)%nat ->
      exists s,
        MainLoop.feed K key vs ∅ !! key = Some s
        /\ std_dev s =
           R_sqrt.sqrt
             (fold_right Rplus 0%R
                (map (fun x => ((x - mean_val s) * (x - mean_val s))%R) (values s))
              / INR (length (values s)))%R)
  /\ ((1 < K)%nat ->
      exists s,
        MainLoop.feed K key [1%R; 3%R] ∅ !! key = Some s /\ std_dev s = 1%R)
  /\ (forall (c : R) (n : nat),
      (1 < n)%nat ->
      exists s,
        MainLoop.feed K key (repeat c n) ∅ !! key = Some s
        /\ mean_val s = c /\ std_dev s = 0%R).
Proof.
  intros HK.
  assert (forall vs : list R,
      (1 < K)%nat -> (1 < length vs)%nat ->
      exists s,
        MainLoop.feed K key vs ∅ !! key = Some s
        /\ values s = drop (length vs - K) vs
        /\ mean_val s = window_mean (values s)
        /\ std_dev s =
           fpow_half
             (fdiv (fsum (map (fun x => fpow2 (fsub x (mean_val s))) (values s)))
                (of_int (Z.of_nat (length (values s)))))) as Hgen.
  { intros vs HK1 Hlen. rewrite faithful_feed_exact by reflexivity.
    destruct (feed_summary K key vs Hlen) as (s & Hs & _ & Hv & Hm & Hstd).
    exists s. repeat split; try assumption.
    apply Hstd. rewrite Hv, length_drop. lia. }
  split; [|split; [|split]].
  - intros F A E vs v HK1 Hne before last_call.
    destruct (faithful_last_call K key vs v HK Hne)
      as (s & Hs & _ & _ & _ & Hstd & Hstale).
    exists s. split; [exact Hs|]. split; [|exact Hstale].
    intros Hq. exact (Hstd HK1 Hq).
  - intros vs HK1 Hlen.
    destruct (Hgen vs HK1 Hlen) as (s & Hs & _ & _ & Hstd).
    exists s. split; [exact Hs|]. rewrite Hstd.
    change (fsum ?l) with (py_sum l).
    rewrite py_sum_fold_right, INR_IZR_INZ. reflexivity.
  - intros HK1.
    destruct (Hgen [1%R; 3%R] HK1) as (s & Hs & Hv & Hm' & Hstd);
      [simpl; lia|].
    exists s. split; [exact Hs|].
    assert (mean_val s = 2%R) as Hm.
    { rewrite Hm', Hv.
      replace (length [1%R; 3%R] - K)%nat with 0%nat by (simpl; lia).
      rewrite window_mean_real. simpl. lra. }
    rewrite Hstd, Hm, Hv.
    replace (length [1%R; 3%R] - K)%nat with 0%nat by (simpl; lia).
    simpl. unfold real_sum. simpl.
    change (IZR (Z.of_nat 2)) with 2%R.
    replace ((0 + (1 - 2) * (1 - 2) + (3 - 2) * (3 - 2)) / 2)%R with 1%R by lra.
    apply sqrt_1.
  - intros c n Hn. rewrite faithful_feed_exact by reflexivity.
    destruct n as [|n]; [lia|].
    change (repeat c (S n)) with (c :: repeat c n).
    eexists. split; [apply feed_lookup_fresh|].
    change (fold_left (update_stat K) (c :: repeat c n) new_Statistics)
      with (fold_left (update_stat K) (repeat c n)
              (update_stat K new_Statistics c)).
    destruct (constant_inv_fold K HK c n _ (constant_inv_first K HK c))
      as (_ & _ & Hm & Hstd).
    split; assumption.
Qed.

(** The constant stream 5, 5, 5 over the reals. *)
Lemma C9_population_std_dev_witness :
  exists s,
    MainLoop.feed 150 "S" (repeat 5%R 3) ∅ !! "S" = Some s
    /\ mean_val s = 5%R /\ std_dev s = 0%R.
Proof.
  exact (proj2 (proj2 (proj2
    (C9_population_std_dev 150 "S" ltac:(lia)))) 5%R 3%nat ltac:(lia)).
Defined.

Section FaithfulRead.

Context {F : Type} `{Arith F} `{FloatParser F} `{PowError F}.
Variables K VIZ : nat.

(** A name whose text [float] rejects keeps its entry through the field
    loop, whether or not another field raises. *)
Lemma field_loop_untouched items :
  forall (st : gmap string (Statistics F)) (viz : MainLoop.VizData F) key,
  (forall v, (key, v) ∈ items -> py_float v = None) ->
  fst (fst (MainLoop.field_loop K VIZ items st viz)) !! key = st !! key.
Proof.
  induction items as [|[k v] items IH]; intros st viz key Hnone;
    [reflexivity|].
  simpl. destruct (py_float v) as [x|] eqn:E.
  - assert (k <> key) as Hk.
    { intros ->. rewrite (Hnone v) in E; [discriminate | now left]. }
    assert (fst (MainLoop.calculate_statistics K k x st) !! key = st !! key)
      as Hst.
    { unfold MainLoop.calculate_statistics.
      destruct (_ && _ && _); cbn [fst]; now rewrite lookup_insert_ne. }
    destruct (MainLoop.calculate_statistics K k x st) as [st' raised].
    cbn [fst] in Hst. destruct raised; [exact Hst|].
    rewrite IH; [exact Hst|]. intros v' Hv'. apply Hnone. now right.
  - apply IH. intros v' Hv'. apply Hnone. now right.
Qed.

End FaithfulRead.

(** C8, amended. For every field of a line whose value [float] rejects: the
    statistics of that name are exactly what they were before the line
    (nothing created, nothing changed), whatever the other fields do; the
    loop over that field alone changes nothing and raises nothing; the call
    writes its row, and returns its data point unless the statistics of
    another field raise, in which case it returns nothing. If the name of
    the field is not [timestamp], the row carries the raw value, unchanged,
    in the column of that name. *)
Theorem C8_non_numeric_field {F : Type} `{Arith F} `{FloatParser F}
  `{PowError F} (K VIZ : nat) (self : MainLoop.Session F)
  (now raw key value_str : string) :
  (key, value_str) ∈ PyDict.items (parse_data_line (PyStr.strip raw)) ->
  py_float value_str = None ->
  let parsed := parse_data_line (PyStr.strip raw) in
  let result := MainLoop.read_serial_data K VIZ now raw self in
  let after := MainLoop.logger (fst result) in
  let row := row_values now parsed (csv_columns after) in
  stats after !! key = stats (MainLoop.logger self) !! key
  /\ (forall st viz,
        MainLoop.field_loop K VIZ [(key, value_str)] st viz = (st, viz, false))
  /\ snd result =
     (if MainLoop.raises K VIZ self (now, raw) then None
      else Some (mkDataPoint now (PyStr.strip raw) parsed))
  /\ (exists written_before, log_file after = written_before ++ [Row row])
  /\ (key <> "timestamp" ->
      exists i, csv_columns after !! i = Some key
                /\ row !! i = Some value_str).
Proof.
  intros Hin Hnone parsed result after row.
  assert (blank (now, raw) = false) as Hnb.
  { unfold blank. simpl.
    destruct (String.eqb_spec (PyStr.strip raw) "") as [E|]; [|reflexivity].
    unfold PyDict.items in Hin. rewrite E in Hin. vm_compute in Hin.
    now apply elem_of_nil in Hin. }
  pose proof (parse_keys_NoDup (PyStr.strip raw)) as Hnd.
  assert (forall v, (key, v) ∈ PyDict.items parsed -> py_float v = None)
    as Hall.
  { intros v Hv. unfold PyDict.items in *.
    now rewrite (dict_item_unique _ _ _ _ Hnd Hv Hin). }
  subst after row result.
  unfold MainLoop.raises, MainLoop.read_serial_data. rewrite Hnb.
  unfold blank in Hnb. cbn [fst snd] in Hnb |- *. rewrite Hnb.
  fold parsed.
  set (logger2 := write_csv_row now parsed
                    (fst (update_csv_columns parsed (MainLoop.logger self)))).
  assert (stats logger2 = stats (MainLoop.logger self)) as Hs2
    by apply stats_after_row.
  rewrite <- Hs2.
  pose proof (field_loop_untouched K VIZ (PyDict.items parsed) (stats logger2)
                (MainLoop.viz_data self) key Hall) as Hun.
  destruct (MainLoop.field_loop K VIZ (PyDict.items parsed) (stats logger2)
              (MainLoop.viz_data self)) as [[stats' viz] raised].
  cbn [fst snd] in Hun |- *.
  assert (csv_columns logger2
          = fst (observe_loop (PyDict.keys parsed)
                   (csv_columns (MainLoop.logger self)))
          /\ exists written_before,
               log_file logger2
               = written_before
                 ++ [Row (row_values now parsed (csv_columns logger2))])
    as [Hcols Hlog].
  { subst logger2. unfold write_csv_row, update_csv_columns.
    destruct (observe_loop _ _) as [columns flag]. cbn.
    destruct (csv_headers_written (MainLoop.logger self)); cbn;
      (split; [reflexivity | eexists; reflexivity]). }
  assert (stats' !! key = stats logger2 !! key
          /\ (forall st (viz0 : MainLoop.VizData F),
                MainLoop.field_loop K VIZ [(key, value_str)] st viz0
                = (st, viz0, false))
          /\ (exists written_before,
                log_file logger2
                = written_before
                  ++ [Row (row_values now parsed (csv_columns logger2))])
          /\ (key <> "timestamp" ->
              exists i, csv_columns logger2 !! i = Some key
                        /\ row_values now parsed (csv_columns logger2) !! i
                           = Some value_str)) as (G1 & G2 & G3 & G4).
  { split; [exact Hun|]. split.
    { intros st viz0. simpl. now rewrite Hnone. }
    split; [exact Hlog|].
    intros Hkey.
    assert (key ∈ csv_columns logger2) as Hcol.
    { rewrite Hcols. apply observe_fold_covers. right.
      eapply item_key. exact Hin. }
    apply list_elem_of_lookup_1 in Hcol as [i Hi].
    exists i. split; [exact Hi|].
    rewrite (row_values_lookup _ _ _ _ _ Hi).
    apply String.eqb_neq in Hkey. rewrite Hkey.
    f_equal. now apply dict_get_item. }
  destruct raised; cbn [fst snd MainLoop.logger stats csv_columns log_file].
  all: repeat split; assumption.
Qed.

(** The field S of the line "S abc, T 20.0" leaves the statistics of S
    alone. *)
Lemma C8_non_numeric_field_witness :
  stats (MainLoop.logger
           (fst (@MainLoop.read_serial_data float float_arith decimal_float
                   float_pow_error 150 75 "t1" "S abc, T 20.0"
                   (MainLoop.init true)))) !! "S"
  = stats (MainLoop.logger (@MainLoop.init float true)) !! "S".
Proof.
  refine (proj1 (@C8_non_numeric_field float float_arith decimal_float
                   float_pow_error 150 75 (MainLoop.init true)
                   "t1" "S abc, T 20.0" "S" "abc" _ _)).
  - vm_compute. left.
  - vm_compute. reflexivity.
Defined.
